(** * email-clean: the asynchronous CSV validation pipeline

    A shallow embedding of the job pipeline of the repository:

    - [Worker.processCsvJob]      the syntax-only worker of [backend/worker.js];
    - [DeepWorker.processCsvJob]  the deep-validation worker variant (batched
                                  progress updates, [try]/[catch]/[finally]);
    - [Server.upload], [Server.download]  the two routes of the HTTP server
                                  that create a job and serve a result file.

    The repository holds a third copy of the worker, [CloudWorker], which is
    [backend/worker.js] with [riskyCount] a constant [0]; it is shown to
    behave as [Worker.processCsvJob] and is not treated apart after that.

    Everything outside the repository is kept at its interface: the Firestore
    collection is a finite map from job ids to documents whose writes can be
    rejected, the file system is the set of uploaded files plus the content
    of the [temp] directory, [email-validator] and the identity provider are
    parameters.  Asynchronous steps run in program order; the interleaving of
    several jobs is not modelled, each job writes its own document and its
    own files. *)

From Stdlib Require Import String Ascii List Arith ZArith Bool Lia ZifyNat Sorted.
From stdpp Require Import base strings list gmap.
Import ListNotations.

Local Open Scope string_scope.
Local Open Scope list_scope.
Local Open Scope nat_scope.

(** ** JavaScript strings and row objects *)

Module Js.

(** [String.prototype.toLowerCase], on the ASCII letters.  The only
    characters outside ASCII whose lower case is an ASCII letter are the
    Kelvin sign (k) and, followed by a combining dot, the dotted capital I;
    neither can produce an occurrence of "email", which is all the workers
    ask of a lower-cased column name. *)
Definition lower (c : ascii) : ascii :=
  let n := nat_of_ascii c in
  if (65 <=? n) && (n <=? 90) then ascii_of_nat (n + 32) else c.

Fixpoint toLowerCase (s : string) : string :=
  match s with
  | EmptyString => EmptyString
  | String c s' => String (lower c) (toLowerCase s')
  end.

(** [s.startsWith(p)] *)
Definition startsWith (s p : string) : bool := String.prefix p s.

(** [s.includes(p)] *)
Fixpoint includes (s p : string) : bool :=
  String.prefix p s ||
  match s with
  | EmptyString => false
  | String _ s' => includes s' p
  end.

(** [s.split(sep)[1]] for a string that starts with [sep]: the text
    between the leading separator and the next one. *)
Fixpoint upto (sep s : string) : string :=
  if String.prefix sep s then EmptyString
  else match s with
       | EmptyString => EmptyString
       | String c s' => String c (upto sep s')
       end.

Definition drop_prefix (p s : string) : string :=
  String.substring (String.length p) (String.length s - String.length p) s.

(** [undefined] is [None]. *)
Definition value := option string.

(** Truthiness of a string-or-undefined value: [undefined] and the empty
    string are falsy. *)
Definition truthy (v : value) : bool :=
  match v with
  | Some EmptyString => false
  | Some _ => true
  | None => false
  end.

(** [a || b] *)
Definition or_else (a b : value) : value := if truthy a then a else b.

(** A row object as the CSV parser hands it over: its own properties in
    [Object.keys] order.  Order matters (first column, trailing columns),
    so this is an association list. *)
Definition obj := list (string * string).

Definition keys (o : obj) : list string := map fst o.
Definition values (o : obj) : list string := map snd o.

(** [o[k]] *)
Fixpoint get (k : string) (o : obj) : value :=
  match o with
  | [] => None
  | (k', v) :: o' => if String.eqb k' k then Some v else get k o'
  end.

(** [o[k]] where [k] itself may be [undefined]: the property key is then
    the string "undefined". *)
Definition get_key (k : option string) (o : obj) : value :=
  get (default "undefined" k) o.

(** [o[k] = v]: an existing property keeps its place, a new one (whose
    name is not an array index) goes last. *)
Fixpoint set (k v : string) (o : obj) : obj :=
  match o with
  | [] => [(k, v)]
  | (k', v') :: o' =>
      if String.eqb k' k then (k', v) :: o' else (k', v') :: set k v o'
  end.

(** [Array.prototype.find] *)
Definition find {A} (p : A -> bool) (l : list A) : option A := List.find p l.

End Js.

(** ** The job document and the store *)

Inductive Status := processing | completed | failed.

Record Stats := mkStats { valid : nat; invalid : nat; risky : nat }.

(** A document of the [jobs] collection.  The two timestamps are stamped
    by the store; the model records whether they are set. *)
Record JobDoc := mkJob {
  id : string;
  userId : string;
  status : Status;
  fileName : string;
  processedCount : nat;
  totalEmails : nat;
  stats : Stats;
  downloadUrl : option string;
  error : option string;
  createdAt : bool;
  completedAt : bool
}.

(** The argument of [DocumentReference.update]: the fields it names. *)
Record Patch := mkPatch {
  p_status : option Status;
  p_processedCount : option nat;
  p_totalEmails : option nat;
  p_stats : option Stats;
  p_downloadUrl : option string;
  p_error : option string;
  p_completedAt : bool
}.

Definition apply_patch (p : Patch) (d : JobDoc) : JobDoc :=
  {| id := id d;
     userId := userId d;
     status := default (status d) (p_status p);
     fileName := fileName d;
     processedCount := default (processedCount d) (p_processedCount p);
     totalEmails := default (totalEmails d) (p_totalEmails p);
     stats := default (stats d) (p_stats p);
     downloadUrl := match p_downloadUrl p with Some u => Some u | None => downloadUrl d end;
     error := match p_error p with Some e => Some e | None => error d end;
     createdAt := createdAt d;
     completedAt := completedAt d || p_completedAt p |}.

Inductive Write :=
| WSet (d : JobDoc)        (* [ref.set(d)] *)
| WUpdate (p : Patch).     (* [ref.update(p)] *)

Inductive FsOp :=
| FsExists (path : string)
| FsMkdir (path : string)
| FsCreate (path : string)
| FsUnlink (path : string)
| FsSend (path : string).

(** The record stream the worker listens to, which is the CSV parser that
    [fs.createReadStream(filePath).pipe(csv())] returns: the rows of its
    ['data'] events, then ['end'] ([None]) or ['error'] with the error's
    message. *)
Record Stream := mkStream { rows : list Js.obj; ending : option string }.

(** The world a request runs in. *)
Record World := mkWorld {
  jobs : gmap string JobDoc;                (* the [jobs] collection *)
  faults : list (option string);            (* the store's answers to the coming
                                               writes: [Some e] rejects with [e] *)
  trace : list (string * Write * JobDoc);   (* accepted writes, oldest first,
                                               each with the document it left *)
  uploads : list string;                    (* paths of the uploaded files on disk *)
  temp_dir : bool;                          (* does [temp/] exist *)
  mkdir_fault : option string;              (* creating [temp/] fails with this *)
  temp : gmap string (list Js.obj);         (* files of [temp/], by the name given
                                               to [path.join]: the records
                                               written to each *)
  fslog : list FsOp                         (* file-system calls, oldest first *)
}.

Definition with_jobs (f : gmap string JobDoc -> gmap string JobDoc) (w : World) : World :=
  mkWorld (f (jobs w)) (faults w) (trace w) (uploads w) (temp_dir w) (mkdir_fault w) (temp w) (fslog w).
Definition with_faults (fs : list (option string)) (w : World) : World :=
  mkWorld (jobs w) fs (trace w) (uploads w) (temp_dir w) (mkdir_fault w) (temp w) (fslog w).
Definition with_trace (t : list (string * Write * JobDoc)) (w : World) : World :=
  mkWorld (jobs w) (faults w) t (uploads w) (temp_dir w) (mkdir_fault w) (temp w) (fslog w).
Definition with_uploads (u : list string) (w : World) : World :=
  mkWorld (jobs w) (faults w) (trace w) u (temp_dir w) (mkdir_fault w) (temp w) (fslog w).
Definition with_temp_dir (b : bool) (w : World) : World :=
  mkWorld (jobs w) (faults w) (trace w) (uploads w) b (mkdir_fault w) (temp w) (fslog w).
Definition with_temp (f : gmap string (list Js.obj) -> gmap string (list Js.obj)) (w : World) : World :=
  mkWorld (jobs w) (faults w) (trace w) (uploads w) (temp_dir w) (mkdir_fault w) (f (temp w)) (fslog w).
Definition logged (op : FsOp) (w : World) : World :=
  mkWorld (jobs w) (faults w) (trace w) (uploads w) (temp_dir w) (mkdir_fault w) (temp w) (fslog w ++ [op]).

(** ** Computations that may throw *)

Inductive Result (A : Type) : Type :=
| Ok (a : A)
| Throw (e : string).
Arguments Ok {A} a.
Arguments Throw {A} e.

Definition M (A : Type) : Type := World -> Result A * World.

Definition ret {A} (a : A) : M A := fun w => (Ok a, w).

Definition bind {A B} (m : M A) (k : A -> M B) : M B :=
  fun w => match m w with
           | (Ok a, w') => k a w'
           | (Throw e, w') => (Throw e, w')
           end.

Definition throw {A} (e : string) : M A := fun w => (Throw e, w).

(** [try { m } catch (e) { h e }] *)
Definition catch {A} (m : M A) (h : string -> M A) : M A :=
  fun w => match m w with
           | (Ok a, w') => (Ok a, w')
           | (Throw e, w') => h e w'
           end.

(** [try { m } finally { f }] *)
Definition finally {A} (m : M A) (f : M unit) : M A :=
  fun w => match m w with
           | (r, w') => match f w' with
                        | (Ok _, w'') => (r, w'')
                        | (Throw e, w'') => (Throw e, w'')
                        end
           end.

(** The settled promise of [m], as a value. *)
Definition settle {A} (m : M A) : M (Result A) :=
  fun w => match m w with (r, w') => (Ok r, w') end.

Definition modify (f : World -> World) : M unit := fun w => (Ok tt, f w).

Declare Scope prog_scope.
Delimit Scope prog_scope with prog.
Bind Scope prog_scope with M.
Notation "x <- m ;; k" := (bind m (fun x => k))
  (at level 100, m at next level, k at level 200, right associativity) : prog_scope.
Notation "m ;; k" := (bind m (fun _ => k))
  (at level 100, k at level 200, right associativity) : prog_scope.
Local Open Scope prog_scope.

(** ** The store and the file system *)

(** One write to the document [jobId].  The store first answers from
    [faults]; an accepted [update] of a document that does not exist is
    rejected as Firestore does. *)
Definition store_write (jobId : string) (wr : Write) : M unit :=
  fun w =>
    match faults w with
    | Some e :: fs => (Throw e, with_faults fs w)
    | fs =>
        let w := with_faults (tail fs) w in
        match wr with
        | WSet d =>
            (Ok tt, with_trace (trace w ++ [(jobId, wr, d)])
                      (with_jobs (insert jobId d) w))
        | WUpdate p =>
            match jobs w !! jobId with
            | Some d =>
                let d' := apply_patch p d in
                (Ok tt, with_trace (trace w ++ [(jobId, wr, d')])
                          (with_jobs (insert jobId d') w))
            | None => (Throw "NOT_FOUND", w)
            end
        end
    end.

Definition doc_set (jobId : string) (d : JobDoc) : M unit := store_write jobId (WSet d).
Definition doc_update (jobId : string) (p : Patch) : M unit := store_write jobId (WUpdate p).

Definition temp_path : string := "temp".
Definition in_temp (name : string) : string := "temp/" +:+ name.

(** [if (!fs.existsSync(temp)) fs.mkdirSync(temp)] *)
Definition ensure_temp_sync : M unit :=
  fun w =>
    let w := logged (FsExists temp_path) w in
    if temp_dir w then (Ok tt, w)
    else
      let w := logged (FsMkdir temp_path) w in
      match mkdir_fault w with
      | Some e => (Throw e, w)
      | None => (Ok tt, with_temp_dir true w)
      end.

(** [await fs.ensureDir('./temp')] *)
Definition ensureDir : M unit :=
  fun w =>
    if temp_dir w then (Ok tt, w)
    else
      let w := logged (FsMkdir temp_path) w in
      match mkdir_fault w with
      | Some e => (Throw e, w)
      | None => (Ok tt, with_temp_dir true w)
      end.

(** [fs.createWriteStream(temp/name)] piped from the CSV formatter: the file
    is created empty. *)
Definition createWriteStream (name : string) : M unit :=
  modify (fun w => with_temp (insert name []) (logged (FsCreate (in_temp name)) w)).

(** [csvStream.write(row)] *)
Definition csv_write (name : string) (row : Js.obj) : M unit :=
  modify (with_temp (alter (fun l => l ++ [row]) name)).

(** [fs.unlink(path, cb)] and [fs.remove(path).catch(..)]: the caller logs
    an error and goes on, so the call never throws here. *)
Definition unlink (path : string) : M unit :=
  modify (fun w => with_uploads (List.filter (fun p => negb (String.eqb p path)) (uploads w))
                     (logged (FsUnlink path) w)).

(** [fs.existsSync(temp/name)] *)
Definition existsSync (name : string) : M bool :=
  fun w => (Ok (bool_decide (is_Some (temp w !! name))), logged (FsExists (in_temp name)) w).

(** How the promise of a background job ends.  [Unsettled e]: the promise
    stays pending and [e] is an unhandled rejection of an event handler. *)
Inductive Outcome :=
| Resolved
| Rejected (e : string)
| Unsettled (e : string).

(** The promise of an [async] function body. *)
Definition promise (m : M unit) : M Outcome :=
  r <- settle m ;;
  ret (match r with Ok _ => Resolved | Throw e => Rejected e end).

Definition results_name (jobId : string) : string := "results-" +:+ jobId +:+ ".csv".
Definition download_url (name : string) : string := "/api/download/" +:+ name.

(** ** The syntax-only worker ([backend/worker.js]) *)

Module Worker.
Section Validator.

(** [emailValidator.validate] of the [email-validator] package. *)
Variable validate : string -> bool.

Record Counters := mkCounters { validCount : nat; invalidCount : nat; riskyCount : nat }.

(** [Object.keys(row).find(k => k.toLowerCase().includes('email'))] *)
Definition emailKey (row : Js.obj) : option string :=
  Js.find (fun k => Js.includes (Js.toLowerCase k) "email") (Js.keys row).

(** [row[emailKey]] *)
Definition email (row : Js.obj) : Js.value := Js.get_key (emailKey row) row.

(** [email && emailValidator.validate(email)] *)
Definition accepted (e : Js.value) : bool :=
  match e with
  | Some s => Js.truthy e && validate s
  | None => false
  end.

(** The ['data'] handler: the row as it is passed to [csvStream.write] and
    the counters after it. *)
Definition on_data (row : Js.obj) (c : Counters) : Js.obj * Counters :=
  if accepted (email row)
  then (Js.set "Validation Status" "Valid" row,
        mkCounters (validCount c + 1) (invalidCount c) (riskyCount c))
  else (Js.set "Validation Status" "Invalid" row,
        mkCounters (validCount c) (invalidCount c + 1) (riskyCount c)).

(** What [on_data] writes and counts, apart. *)
Definition verdict (row : Js.obj) : string :=
  if accepted (email row) then "Valid" else "Invalid".

Definition annotate (row : Js.obj) : Js.obj := Js.set "Validation Status" (verdict row) row.

Definition counted (row : Js.obj) (c : Counters) : Counters :=
  if accepted (email row)
  then mkCounters (validCount c + 1) (invalidCount c) (riskyCount c)
  else mkCounters (validCount c) (invalidCount c + 1) (riskyCount c).

Definition tally (rs : list Js.obj) (c : Counters) : Counters :=
  fold_left (fun c row => counted row c) rs c.

Fixpoint data_events (outputFilename : string) (rs : list Js.obj) (c : Counters) : M Counters :=
  match rs with
  | [] => ret c
  | row :: rs' =>
      let (row', c') := on_data row c in
      csv_write outputFilename row' ;;
      data_events outputFilename rs' c'
  end.

Definition final_patch (outputFilename : string) (c : Counters) : Patch :=
  {| p_status := Some completed;
     p_processedCount := Some (validCount c + invalidCount c + riskyCount c);
     p_totalEmails := Some (validCount c + invalidCount c + riskyCount c);
     p_stats := Some (mkStats (validCount c) (invalidCount c) (riskyCount c));
     p_downloadUrl := Some (download_url outputFilename);
     p_error := None;
     p_completedAt := false |}.

Definition failed_patch : Patch :=
  {| p_status := Some failed; p_processedCount := None; p_totalEmails := None;
     p_stats := None; p_downloadUrl := None; p_error := None; p_completedAt := false |}.

(** The ['end'] handler. *)
Definition on_end (jobId filePath outputFilename : string) (c : Counters) : M Outcome :=
  r <- settle (doc_update jobId (final_patch outputFilename c)) ;;
  match r with
  | Ok _ => unlink filePath ;; ret Resolved
  | Throw err => ret (Rejected err)
  end.

(** The ['error'] handler.  When its own store write is rejected the
    handler never reaches [reject]. *)
Definition on_error (jobId : string) (error : string) : M Outcome :=
  r <- settle (doc_update jobId failed_patch) ;;
  match r with
  | Ok _ => ret (Rejected error)
  | Throw err => ret (Unsettled err)
  end.

Definition processCsvJob (jobId filePath : string) (input : Stream) : M Outcome :=
  let outputFilename := results_name jobId in
  r <- settle (ensure_temp_sync ;; createWriteStream outputFilename) ;;
  match r with
  | Throw err => ret (Rejected err)
  | Ok _ =>
      c <- data_events outputFilename (rows input) (mkCounters 0 0 0) ;;
      match ending input with
      | None => on_end jobId filePath outputFilename c
      | Some error => on_error jobId error
      end
  end.

End Validator.
End Worker.

(** ** The second copy of the syntax-only worker

    The same function with [riskyCount] a constant; the ['data'] and
    ['error'] handlers are those of [backend/worker.js]. *)

Module CloudWorker.
Section Validator.

Variable validate : string -> bool.

Definition riskyCount : nat := 0.

Definition final_patch (outputFilename : string) (c : Worker.Counters) : Patch :=
  {| p_status := Some completed;
     p_processedCount := Some (Worker.validCount c + Worker.invalidCount c);
     p_totalEmails := Some (Worker.validCount c + Worker.invalidCount c);
     p_stats := Some (mkStats (Worker.validCount c) (Worker.invalidCount c) riskyCount);
     p_downloadUrl := Some (download_url outputFilename);
     p_error := None;
     p_completedAt := false |}.

Definition on_end (jobId filePath outputFilename : string) (c : Worker.Counters) : M Outcome :=
  r <- settle (doc_update jobId (final_patch outputFilename c)) ;;
  match r with
  | Ok _ => unlink filePath ;; ret Resolved
  | Throw err => ret (Rejected err)
  end.

Definition processCsvJob (jobId filePath : string) (input : Stream) : M Outcome :=
  let outputFilename := results_name jobId in
  r <- settle (ensure_temp_sync ;; createWriteStream outputFilename) ;;
  match r with
  | Throw err => ret (Rejected err)
  | Ok _ =>
      c <- Worker.data_events validate outputFilename (rows input) (Worker.mkCounters 0 0 0) ;;
      match ending input with
      | None => on_end jobId filePath outputFilename c
      | Some error => Worker.on_error jobId error
      end
  end.

End Validator.
End CloudWorker.

(** ** The deep-validation worker variant *)

Module DeepWorker.

Record Counters := mkCounters {
  processed : nat;       (* [processedCount] *)
  validCount : nat;
  invalidCount : nat;
  riskyCount : nat
}.

Record Verdict := mkVerdict { v_status : string; v_reason : string }.

(** The validator of this variant is a placeholder. *)
Definition validateEmail (email : string) : Verdict := mkVerdict "Risky" "Mock Logic".

(** [row.email || row.Email || Object.values(row)[0]] *)
Definition email (row : Js.obj) : Js.value :=
  Js.or_else (Js.or_else (Js.get "email" row) (Js.get "Email" row)) (head (Js.values row)).

Definition count (result : Verdict) (c : Counters) : Counters :=
  if String.eqb (v_status result) "Valid"
  then mkCounters (processed c + 1) (validCount c + 1) (invalidCount c) (riskyCount c)
  else if String.eqb (v_status result) "Invalid"
  then mkCounters (processed c + 1) (validCount c) (invalidCount c + 1) (riskyCount c)
  else mkCounters (processed c + 1) (validCount c) (invalidCount c) (riskyCount c + 1).

(** [{...row, validation_status: result.status, validation_reason: result.reason}] *)
Definition annotate (row : Js.obj) (result : Verdict) : Js.obj :=
  Js.set "validation_reason" (v_reason result)
    (Js.set "validation_status" (v_status result) row).

Definition progress_patch (c : Counters) : Patch :=
  {| p_status := None;
     p_processedCount := Some (processed c);
     p_totalEmails := None;
     p_stats := Some (mkStats (validCount c) (invalidCount c) (riskyCount c));
     p_downloadUrl := None; p_error := None; p_completedAt := false |}.

Definition final_patch (resultsFilename : string) (c : Counters) : Patch :=
  {| p_status := Some completed;
     p_processedCount := Some (processed c);
     p_totalEmails := None;
     p_stats := Some (mkStats (validCount c) (invalidCount c) (riskyCount c));
     p_downloadUrl := Some (download_url resultsFilename);
     p_error := None;
     p_completedAt := true |}.

Definition failed_patch (message : string) : Patch :=
  {| p_status := Some failed; p_processedCount := None; p_totalEmails := None;
     p_stats := None; p_downloadUrl := None; p_error := Some message;
     p_completedAt := false |}.

(** The records the loop does not skip, and the counters after a run of
    records. *)
Definition kept (rs : list Js.obj) : list Js.obj :=
  List.filter (fun row => Js.truthy (email row)) rs.

Definition written (row : Js.obj) : Js.obj :=
  annotate row (validateEmail (default "" (email row))).

Definition tally (rs : list Js.obj) (c : Counters) : Counters :=
  fold_left (fun c row => count (validateEmail (default "" (email row))) c) (kept rs) c.

(** The body of [for await (const row of readStream)]. *)
Fixpoint for_await (jobId resultsFilename : string) (rs : list Js.obj) (c : Counters)
  : M Counters :=
  match rs with
  | [] => ret c
  | row :: rs' =>
      let email := email row in
      if negb (Js.truthy email)
      then for_await jobId resultsFilename rs' c          (* [continue] *)
      else
        let result := validateEmail (default "" email) in
        let c := count result c in
        csv_write resultsFilename (annotate row result) ;;
        (if processed c mod 10 =? 0
         then doc_update jobId (progress_patch c)
         else ret tt) ;;
        for_await jobId resultsFilename rs' c
  end.

(** The [try] block. *)
Definition try_block (jobId resultsFilename : string) (input : Stream) : M unit :=
  c <- for_await jobId resultsFilename (rows input) (mkCounters 0 0 0 0) ;;
  match ending input with
  | Some error => throw error
  | None => doc_update jobId (final_patch resultsFilename c)
  end.

Definition processCsvJob (jobId filePath : string) (input : Stream) : M unit :=
  ensureDir ;;
  let resultsFilename := results_name jobId in
  createWriteStream resultsFilename ;;
  finally
    (catch (try_block jobId resultsFilename input)
           (fun message => doc_update jobId (failed_patch message)))
    (unlink filePath).

End DeepWorker.

(** ** The HTTP routes *)

Module Server.
Section Routes.

(** [admin.auth().verifyIdToken]: the uid of a token the identity provider
    accepts. *)
Variable verifyIdToken : string -> option string.

(** The worker module the server loads with [require('./worker')]. *)
Variable worker : string -> string -> Stream -> M Outcome.

Record UploadedFile := mkFile {
  path : string;
  originalname : string;
  parsed : Stream          (* what the CSV parser will deliver for it *)
}.

Record Request := mkRequest {
  authorization : option string;    (* [req.headers.authorization] *)
  file : option UploadedFile;       (* [req.file] *)
  filename : string                 (* [req.params.filename] *)
}.

Inductive Response :=
| Status (code : nat) (body : string)
| Started (jobId : string)                          (* 200 [{success, jobId, message}] *)
| Download (name : string) (content : list Js.obj). (* [res.download] *)

(** The [authenticateUser] middleware: a response, or the uid it puts in
    [req.user]. *)
Definition authenticateUser (req : Request) : Response + string :=
  match authorization req with
  | None => inl (Status 401 "Unauthorized")
  | Some authHeader =>
      if negb (Js.startsWith authHeader "Bearer ")
      then inl (Status 401 "Unauthorized")
      else
        let idToken := Js.upto "Bearer " (Js.drop_prefix "Bearer " authHeader) in
        match verifyIdToken idToken with
        | Some uid => inr uid
        | None => inl (Status 403 "Invalid Token")
        end
  end.

Definition initial_job (jobId userId originalName : string) : JobDoc :=
  {| id := jobId; userId := userId; status := processing; fileName := originalName;
     processedCount := 0; totalEmails := 0; stats := mkStats 0 0 0;
     downloadUrl := None; error := None; createdAt := true; completedAt := false |}.

(** [POST /api/upload].  [jobId] is the id the store allocates for the new
    document.  The worker is started and not awaited: its outcome is
    logged and dropped, the response is sent whatever it does. *)
Definition upload (jobId : string) (req : Request) : M Response :=
  match authenticateUser req with
  | inl denied => ret denied
  | inr userId =>
      match file req with
      | None => ret (Status 400 "No file uploaded")
      | Some f =>
          catch
            (doc_set jobId (initial_job jobId userId (originalname f)) ;;
             _ <- settle (worker jobId (path f) (parsed f)) ;;
             ret (Started jobId))
            (fun _ => unlink (path f) ;; ret (Status 500 "Internal Server Error"))
      end
  end.

(** [GET /api/download/:filename].  The route has no middleware in front
    of it.  Sending an existing file succeeds here: the error callback of
    [res.download] belongs to the transport. *)
Definition download (req : Request) : M Response :=
  let filename := filename req in
  if Js.includes filename ".." || negb (Js.startsWith filename "results-")
  then ret (Status 403 "Access Denied")
  else
    found <- existsSync filename ;;
    if negb found
    then ret (Status 404 "File not found. It may have been deleted or expired.")
    else fun w => (Ok (Download filename (default [] (temp w !! filename))),
                   logged (FsSend (in_temp filename)) w).

End Routes.
End Server.

(** ** Sample data *)

Module Scenario.

(** A stand-in for the syntax check, enough to tell the sample rows
    apart. *)
Definition has_at (s : string) : bool := Js.includes s "@".

(** A stand-in for the identity provider: the token is the uid. *)
Definition token_uid (t : string) : option string :=
  if String.eqb t "" then None else Some t.

Definition job : JobDoc := Server.initial_job "j1" "alice" "list.csv".

(** A world with one job that is processing, its upload on disk, and a
    store that accepts every write. *)
Definition world : World :=
  mkWorld {[ "j1" := job ]} [] [] ["uploads/u1"] true None ∅ [].

(** The three-row upload [a@b.com, not-an-email, <empty>]. *)
Definition three_rows : list Js.obj :=
  [ [("email", "a@b.com")]; [("email", "not-an-email")]; [("email", "")] ].

(** An upload of [n] records, each with an address. *)
Definition numbered (n : nat) : list Js.obj :=
  map (fun _ => [("email", "a@b.com")]) (seq 0 n).

(** The same world with a store that rejects the next write and accepts
    the one after. *)
Definition world_rejecting : World := with_faults [Some "unavailable"; None] world.

(** The world once [backend/worker.js] has processed the three-row upload. *)
Definition world_done : World :=
  snd (Worker.processCsvJob has_at "j1" "uploads/u1" (mkStream three_rows None) world).

(** Two requests for the same result file: one without credentials, one
    with the token of another user. *)
(** A world where [temp/] is missing and cannot be created. *)
Definition world_no_temp : World :=
  mkWorld {[ "j1" := job ]} [] [] ["uploads/u1"] false (Some "EACCES") ∅ [].

Definition anonymous : Server.Request := Server.mkRequest None None "results-j1.csv".
Definition mallory : Server.Request :=
  Server.mkRequest (Some "Bearer mallory") None "results-j1.csv".

End Scenario.

(** ** Two steps as the specification words them *)

Module Spec.

(** The email field in the specification's words: the value of the first
    column whose name contains "email" in any letter case and, when there
    is no such column, the value of the first column. *)
Definition locate_email (row : Js.obj) : Js.value :=
  match Js.find (fun k => Js.includes (Js.toLowerCase k) "email") (Js.keys row) with
  | Some k => Js.get k row
  | None => head (Js.values row)
  end.

(** A download name in the specification's words: [results-<jobId>.csv]. *)
Definition results_pattern (name : string) : Prop :=
  exists jobId, name = results_name jobId.

End Spec.

(** ** Predicates of the statements *)

(** Appending records to a result file. *)
Definition wrote (name : string) (rs : list Js.obj) (w : World) : World :=
  with_temp (alter (fun l => l ++ rs) name) w.

(** The job has a document that is not completed. *)
Definition uncompleted (jobId : string) (w : World) : Prop :=
  exists d, jobs w !! jobId = Some d /\ status d <> completed.

(** The job has a document that is still processing. *)
Definition in_progress (jobId : string) (w : World) : Prop :=
  exists d, jobs w !! jobId = Some d /\ status d = processing.

(** A store that accepts every write and holds a document that is still
    processing. *)
Definition calm (jobId : string) (w : World) : Prop :=
  faults w = [] /\ in_progress jobId w.

(** The file-system calls that delete a file. *)
Definition is_unlink (op : FsOp) : Prop :=
  match op with FsUnlink _ => True | _ => False end.

(** The records still to come before the next progress update. *)
Definition until_update (c : DeepWorker.Counters) : nat := 10 - DeepWorker.processed c mod 10.

(** A write of the trace that leaves [totalEmails] alone: the document it
    leaves has [totalEmails = 0] as long as it is processing, a [set] creates
    it with [totalEmails = 0], and an [update] that is not a terminal
    transition names only [processedCount] and [stats]. *)
Definition quiet (jobId : string) (entry : string * Write * JobDoc) : Prop :=
  match entry with
  | (j, wr, d) =>
      j = jobId /\
      (status d = processing -> totalEmails d = 0) /\
      match wr with
      | WSet d0 => totalEmails d0 = 0 /\ status d0 = processing
      | WUpdate p =>
          p_status p = None ->
          p_totalEmails p = None /\ p_downloadUrl p = None /\ p_error p = None /\
          p_completedAt p = false
      end
  end.

(** The trace has grown from that of [w0] by quiet writes only, and the
    document, if any, still has [totalEmails = 0] when it is processing. *)
Definition total_untouched (w0 : World) (jobId : string) (w : World) : Prop :=
  (forall d, jobs w !! jobId = Some d -> status d = processing -> totalEmails d = 0) /\
  exists new, trace w = trace w0 ++ new /\ Forall (quiet jobId) new.

(** The patches the workers send: a progress report, or a terminal
    transition. *)
Definition worker_patch (p : Patch) : Prop :=
  p_status p <> Some processing /\
  (p_status p = None ->
   p_totalEmails p = None /\ p_downloadUrl p = None /\ p_error p = None /\
   p_completedAt p = false).

(** ** The polling route *)

Module Polling.
Section Routes.

Variable verifyIdToken : string -> option string.

(** [db.collection('jobs').doc(id).get()], the data of the snapshot or
    [None] when the document does not exist.  [fault] is the store's answer
    to this read: [Some e] rejects with [e]. *)
Definition doc_get (fault : option string) (id : string) : M (option JobDoc) :=
  fun w => match fault with
           | Some e => (Throw e, w)
           | None => (Ok (jobs w !! id), w)
           end.

(** [GET /api/jobs/:id] behind [authenticateUser]; [id] is [req.params.id].
    The reply is a status response or the document that [res.json] sends. *)
Definition getJob (fault : option string) (id : string) (req : Server.Request)
  : M (Server.Response + JobDoc) :=
  match Server.authenticateUser verifyIdToken req with
  | inl denied => ret (inl denied)
  | inr uid =>
      catch
        (doc <- doc_get fault id ;;
         match doc with
         | None => ret (inl (Server.Status 404 "Job not found"))
         | Some data =>
             if negb (String.eqb (userId data) uid)
             then ret (inl (Server.Status 403 "Forbidden"))
             else ret (inr data)
         end)
        (fun _ => ret (inl (Server.Status 500 "Error fetching job")))
  end.

End Routes.
End Polling.

(** ** The writes of a run *)

(** The trace entries that a run of accepted updates [ps] of the document
    [d] leaves, and the document after them. *)
Fixpoint updates (jobId : string) (d : JobDoc) (ps : list Patch)
  : list (string * Write * JobDoc) :=
  match ps with
  | [] => []
  | p :: ps' => (jobId, WUpdate p, apply_patch p d) :: updates jobId (apply_patch p d) ps'
  end.

Definition patched (d : JobDoc) (ps : list Patch) : JobDoc :=
  fold_left (fun d p => apply_patch p d) ps d.

(** The counters at which the loop of the deep-validation worker reports
    progress, from the counters [c] over the records [rs]. *)
Fixpoint checkpoints (rs : list Js.obj) (c : DeepWorker.Counters) : list DeepWorker.Counters :=
  match rs with
  | [] => []
  | row :: rs' =>
      if Js.truthy (DeepWorker.email row)
      then
        let c1 := DeepWorker.count
                    (DeepWorker.validateEmail (default "" (DeepWorker.email row))) c in
        if DeepWorker.processed c1 mod 10 =? 0
        then c1 :: checkpoints rs' c1
        else checkpoints rs' c1
      else checkpoints rs' c
  end.

(** The patches a run of [backend/worker.js] can get accepted: none, or
    the one of the handler that the stream's ending calls. *)
Definition simple_patches (validate : string -> bool) (jobId : string) (input : Stream)
    (ps : list Patch) : Prop :=
  ps = [] \/
  match ending input with
  | None => ps = [Worker.final_patch (results_name jobId)
                    (Worker.tally validate (rows input) (Worker.mkCounters 0 0 0))]
  | Some _ => ps = [Worker.failed_patch]
  end.

(** The patches a run of the deep-validation worker can get accepted:
    progress reports at the first checkpoints, then nothing, or the final
    patch after all of them, or a failure patch. *)
Definition deep_patches (jobId : string) (input : Stream) (ps : list Patch) : Prop :=
  exists cs fin,
    ps = map DeepWorker.progress_patch cs ++ fin /\
    cs `prefix_of` checkpoints (rows input) (DeepWorker.mkCounters 0 0 0 0) /\
    (fin = [] \/
     (fin = [DeepWorker.final_patch (results_name jobId)
               (DeepWorker.tally (rows input) (DeepWorker.mkCounters 0 0 0 0))] /\
      cs = checkpoints (rows input) (DeepWorker.mkCounters 0 0 0 0) /\
      ending input = None) \/
     exists e, fin = [DeepWorker.failed_patch e]).

(** The sum of the three counts. *)
Definition total (s : Stats) : nat := valid s + invalid s + risky s.

(** Counters of the deep-validation worker whose three counts sum to the
    processed count. *)
Definition balanced (c : DeepWorker.Counters) : Prop :=
  DeepWorker.validCount c + DeepWorker.invalidCount c + DeepWorker.riskyCount c
  = DeepWorker.processed c.

(** The entries a run adds to the trace: [new] is what either worker,
    started on the job [jobId] in the world [w], leaves after the trace of
    [w]. *)
Definition written_by (validate : string -> bool) (jobId filePath : string)
    (input : Stream) (w : World) (new : list (string * Write * JobDoc)) : Prop :=
  trace (snd (Worker.processCsvJob validate jobId filePath input w)) = trace w ++ new \/
  trace (snd (DeepWorker.processCsvJob jobId filePath input w)) = trace w ++ new.

(** What a run for the job [jobId] with the upload [filePath] may not touch:
    the documents of other jobs, the other files of [temp/] and the other
    uploads are in [w'] as they are in [w]. *)
Definition same_elsewhere (jobId filePath : string) (w w' : World) : Prop :=
  (forall j, j <> jobId -> jobs w' !! j = jobs w !! j) /\
  (forall name, name <> results_name jobId -> temp w' !! name = temp w !! name) /\
  (forall p, p <> filePath -> In p (uploads w') <-> In p (uploads w)).

(** * Properties *)

(** ** Worlds *)

Lemma world_eq (w w' : World) :
  jobs w = jobs w' -> faults w = faults w' -> trace w = trace w' ->
  uploads w = uploads w' -> temp_dir w = temp_dir w' -> mkdir_fault w = mkdir_fault w' ->
  temp w = temp w' -> fslog w = fslog w' -> w = w'.
Proof. destruct w, w'; simpl; intros; subst; reflexivity. Qed.

Lemma wrote_nil name w : wrote name [] w = w.
Proof.
  apply world_eq; try reflexivity. simpl.
  apply map_eq. intros k. destruct (decide (name = k)) as [->|Hne].
  - rewrite lookup_alter_eq. destruct (temp w !! k); simpl; [rewrite app_nil_r|]; reflexivity.
  - rewrite lookup_alter_ne by assumption. reflexivity.
Qed.

Lemma wrote_app name rs rs' w : wrote name rs' (wrote name rs w) = wrote name (rs ++ rs') w.
Proof.
  apply world_eq; try reflexivity. simpl.
  apply map_eq. intros k. destruct (decide (name = k)) as [->|Hne].
  - rewrite !lookup_alter_eq. destruct (temp w !! k); simpl; [rewrite app_assoc|]; reflexivity.
  - rewrite !lookup_alter_ne by assumption. reflexivity.
Qed.

Lemma alter_app_nil name (m : gmap string (list Js.obj)) :
  alter (fun l => l ++ []) name m = m.
Proof. exact (f_equal temp (wrote_nil name (mkWorld ∅ [] [] [] false None m []))). Qed.

Lemma alter_app_app name rs rs' (m : gmap string (list Js.obj)) :
  alter (fun l => l ++ rs') name (alter (fun l => l ++ rs) name m)
  = alter (fun l => l ++ (rs ++ rs')) name m.
Proof. exact (f_equal temp (wrote_app name rs rs' (mkWorld ∅ [] [] [] false None m []))). Qed.

Lemma csv_write_wrote name row w : csv_write name row w = (Ok tt, wrote name [row] w).
Proof. reflexivity. Qed.

Section WorkerFacts.
Variable validate : string -> bool.

Lemma data_events_spec out rs c w :
  Worker.data_events validate out rs c w =
  (Ok (Worker.tally validate rs c), wrote out (map (Worker.annotate validate) rs) w).
Proof.
  revert c w. induction rs as [|row rs IH]; intros c w; simpl.
  - rewrite wrote_nil. reflexivity.
  - unfold Worker.on_data.
    destruct (Worker.accepted validate (Worker.email row)) eqn:Hacc;
      unfold bind; rewrite csv_write_wrote, IH, wrote_app; simpl;
      unfold Worker.annotate, Worker.verdict, Worker.counted; rewrite Hacc; reflexivity.
Qed.
End WorkerFacts.

Section WorkerRuns.
Variable validate : string -> bool.

Lemma tally_sum rs c :
  Worker.validCount (Worker.tally validate rs c) + Worker.invalidCount (Worker.tally validate rs c)
  + Worker.riskyCount (Worker.tally validate rs c)
  = Worker.validCount c + Worker.invalidCount c + Worker.riskyCount c + length rs.
Proof.
  revert c. induction rs as [|row rs IH]; intros c; simpl; [lia|].
  unfold Worker.tally in *. rewrite IH. unfold Worker.counted.
  destruct (Worker.accepted validate (Worker.email row)); simpl; lia.
Qed.

Lemma tally_risky rs c :
  Worker.riskyCount (Worker.tally validate rs c) = Worker.riskyCount c.
Proof.
  revert c. induction rs as [|row rs IH]; intros c; simpl; [reflexivity|].
  unfold Worker.tally in *. rewrite IH. unfold Worker.counted.
  destruct (Worker.accepted validate (Worker.email row)); reflexivity.
Qed.
(** The second copy of the worker runs as [backend/worker.js] does. *)
Lemma cloud_worker_agrees jobId filePath input w :
  CloudWorker.processCsvJob validate jobId filePath input w
  = Worker.processCsvJob validate jobId filePath input w.
Proof.
  unfold CloudWorker.processCsvJob, Worker.processCsvJob.
  unfold bind at 1. unfold bind at 3.
  destruct (settle _ w) as [[[[]|e]|e] w1]; try reflexivity.
  unfold bind. rewrite !data_events_spec.
  destruct (ending input); [reflexivity|].
  unfold CloudWorker.on_end, Worker.on_end.
  replace (CloudWorker.final_patch (results_name jobId)
             (Worker.tally validate (rows input) (Worker.mkCounters 0 0 0)))
    with (Worker.final_patch (results_name jobId)
            (Worker.tally validate (rows input) (Worker.mkCounters 0 0 0))); [reflexivity|].
  unfold CloudWorker.final_patch, Worker.final_patch, CloudWorker.riskyCount.
  rewrite tally_risky. simpl. rewrite !Nat.add_0_r. reflexivity.
Qed.

End WorkerRuns.

(** ** The loop of the deep-validation worker *)

Lemma deep_count_processed r c :
  DeepWorker.processed (DeepWorker.count r c) = DeepWorker.processed c + 1.
Proof. unfold DeepWorker.count. repeat destruct (String.eqb _ _); reflexivity. Qed.

Lemma deep_count_sum r c :
  DeepWorker.validCount (DeepWorker.count r c) + DeepWorker.invalidCount (DeepWorker.count r c)
  + DeepWorker.riskyCount (DeepWorker.count r c)
  = DeepWorker.validCount c + DeepWorker.invalidCount c + DeepWorker.riskyCount c + 1.
Proof. unfold DeepWorker.count. repeat destruct (String.eqb _ _); simpl; lia. Qed.

Lemma deep_tally_processed rs c :
  DeepWorker.processed (DeepWorker.tally rs c) = DeepWorker.processed c + length (DeepWorker.kept rs).
Proof.
  unfold DeepWorker.tally. revert c.
  induction (DeepWorker.kept rs) as [|row l IH]; intros c; simpl; [lia|].
  rewrite IH, deep_count_processed. lia.
Qed.

Lemma deep_tally_sum rs c :
  DeepWorker.validCount (DeepWorker.tally rs c) + DeepWorker.invalidCount (DeepWorker.tally rs c)
  + DeepWorker.riskyCount (DeepWorker.tally rs c)
  = DeepWorker.validCount c + DeepWorker.invalidCount c + DeepWorker.riskyCount c
    + length (DeepWorker.kept rs).
Proof.
  unfold DeepWorker.tally. revert c.
  induction (DeepWorker.kept rs) as [|row l IH]; intros c; simpl; [lia|].
  rewrite IH, deep_count_sum. lia.
Qed.

Lemma deep_tally_cons_kept row rs c :
  Js.truthy (DeepWorker.email row) = true ->
  DeepWorker.tally (row :: rs) c
  = DeepWorker.tally rs (DeepWorker.count (DeepWorker.validateEmail (default "" (DeepWorker.email row))) c).
Proof. intros H. unfold DeepWorker.tally, DeepWorker.kept. simpl. rewrite H. reflexivity. Qed.

Lemma deep_tally_cons_skipped row rs c :
  Js.truthy (DeepWorker.email row) = false ->
  DeepWorker.tally (row :: rs) c = DeepWorker.tally rs c.
Proof. intros H. unfold DeepWorker.tally, DeepWorker.kept. simpl. rewrite H. reflexivity. Qed.

Lemma for_await_skip jobId out row rs c w :
  Js.truthy (DeepWorker.email row) = false ->
  DeepWorker.for_await jobId out (row :: rs) c w = DeepWorker.for_await jobId out rs c w.
Proof. intros H. cbn [DeepWorker.for_await]. rewrite H. reflexivity. Qed.

Lemma for_await_step jobId out row rs c w :
  Js.truthy (DeepWorker.email row) = true ->
  DeepWorker.for_await jobId out (row :: rs) c w =
  let c1 := DeepWorker.count (DeepWorker.validateEmail (default "" (DeepWorker.email row))) c in
  let w1 := wrote out [DeepWorker.written row] w in
  if DeepWorker.processed c1 mod 10 =? 0
  then match doc_update jobId (DeepWorker.progress_patch c1) w1 with
       | (Ok _, w2) => DeepWorker.for_await jobId out rs c1 w2
       | (Throw e, w2) => (Throw e, w2)
       end
  else DeepWorker.for_await jobId out rs c1 w1.
Proof.
  intros H. cbn [DeepWorker.for_await]. rewrite H. cbn [negb].
  unfold bind. rewrite csv_write_wrote. cbv zeta.
  destruct (_ =? 0); reflexivity.
Qed.

(** An invariant of the world that record writes and progress updates
    keep is kept by the loop, whether it ends or throws; when it ends, the
    counters are the tally of the records. *)
Lemma for_await_inv (P : World -> Prop) jobId out rs c w :
  (forall w row, P w -> P (wrote out [row] w)) ->
  (forall w c, P w -> P (snd (doc_update jobId (DeepWorker.progress_patch c) w))) ->
  P w ->
  P (snd (DeepWorker.for_await jobId out rs c w)) /\
  (forall c', fst (DeepWorker.for_await jobId out rs c w) = Ok c' -> c' = DeepWorker.tally rs c).
Proof.
  intros Hrow Hupd. revert c w.
  induction rs as [|row rs IH]; intros c w HP.
  - simpl. split; [assumption|]. intros c' [= <-]. reflexivity.
  - destruct (Js.truthy (DeepWorker.email row)) eqn:Hem.
    + rewrite for_await_step, deep_tally_cons_kept by assumption. cbv zeta.
      set (c1 := DeepWorker.count _ c).
      destruct (DeepWorker.processed c1 mod 10 =? 0).
      * specialize (Hupd _ c1 (Hrow _ (DeepWorker.written row) HP)).
        destruct (doc_update jobId (DeepWorker.progress_patch c1) _) as [[[]|e] w1].
        -- apply IH. exact Hupd.
        -- split; [exact Hupd|]. intros c' [=].
      * apply IH. apply Hrow. assumption.
    + rewrite for_await_skip, deep_tally_cons_skipped by assumption. apply IH. assumption.
Qed.

(** ** Store writes *)

(** A store write leaves the document patched (accepted) or as it was
    (rejected). *)
Lemma doc_update_doc jobId p w d :
  jobs w !! jobId = Some d ->
  exists r w', doc_update jobId p w = (r, w') /\
    ((r = Ok tt /\ jobs w' !! jobId = Some (apply_patch p d) /\
      trace w' = trace w ++ [(jobId, WUpdate p, apply_patch p d)]) \/
     (exists e, r = Throw e /\ jobs w' = jobs w /\ trace w' = trace w)).
Proof.
  intros Hd. unfold doc_update, store_write.
  destruct (faults w) as [|[e|] fs]; simpl; rewrite ?Hd.
  - do 2 eexists; split; [reflexivity|]. left. simpl. rewrite lookup_insert_eq. auto.
  - do 2 eexists; split; [reflexivity|]. right. eauto.
  - do 2 eexists; split; [reflexivity|]. left. simpl. rewrite lookup_insert_eq. auto.
Qed.

(** Store writes touch neither the file system nor other documents. *)
Lemma store_write_frame jobId wr w :
  uploads (snd (store_write jobId wr w)) = uploads w /\
  temp_dir (snd (store_write jobId wr w)) = temp_dir w /\
  mkdir_fault (snd (store_write jobId wr w)) = mkdir_fault w /\
  temp (snd (store_write jobId wr w)) = temp w /\
  fslog (snd (store_write jobId wr w)) = fslog w /\
  (forall j, j <> jobId -> jobs (snd (store_write jobId wr w)) !! j = jobs w !! j).
Proof.
  unfold store_write.
  destruct (faults w) as [|[e|] fs]; destruct wr as [d|p]; simpl;
    try destruct (jobs w !! jobId); simpl; repeat split; auto;
    intros; rewrite lookup_insert_ne by congruence; reflexivity.
Qed.

Lemma progress_keeps_in_progress jobId c w :
  in_progress jobId w ->
  in_progress jobId (snd (doc_update jobId (DeepWorker.progress_patch c) w)).
Proof.
  intros (d & Hd & Hs).
  destruct (doc_update_doc jobId (DeepWorker.progress_patch c) w d Hd)
    as (r & w' & -> & [(_ & Hd' & _)|(e & _ & Hj & _)]); simpl.
  - exists (apply_patch (DeepWorker.progress_patch c) d). split; [assumption|]. exact Hs.
  - exists d. rewrite Hj. auto.
Qed.

Lemma failure_keeps_uncompleted jobId p w :
  p_status p <> Some completed ->
  uncompleted jobId w ->
  uncompleted jobId (snd (doc_update jobId p w)).
Proof.
  intros Hp (d & Hd & Hs).
  destruct (doc_update_doc jobId p w d Hd)
    as (r & w' & -> & [(_ & Hd' & _)|(e & _ & Hj & _)]); simpl.
  - exists (apply_patch p d). split; [assumption|]. simpl.
    destruct (p_status p) as [s|]; simpl; congruence.
  - exists d. rewrite Hj. auto.
Qed.

(** A loop that ends has appended the records it kept, in order. *)
Lemma for_await_output jobId out rs c w c' w' :
  DeepWorker.for_await jobId out rs c w = (Ok c', w') ->
  temp w' = alter (fun l => l ++ map DeepWorker.written (DeepWorker.kept rs)) out (temp w).
Proof.
  revert c w. induction rs as [|row rs IH]; intros c w Hrun.
  - simpl in Hrun. injection Hrun as _ <-. simpl. rewrite alter_app_nil. reflexivity.
  - destruct (Js.truthy (DeepWorker.email row)) eqn:Hem.
    + rewrite for_await_step in Hrun by assumption. cbv zeta in Hrun.
      unfold DeepWorker.kept. simpl List.filter. rewrite Hem. fold (DeepWorker.kept rs).
      change (map DeepWorker.written (row :: DeepWorker.kept rs))
        with ([DeepWorker.written row] ++ map DeepWorker.written (DeepWorker.kept rs)).
      rewrite <- alter_app_app.
      destruct (_ =? 0).
      * unfold doc_update in Hrun.
        pose proof (store_write_frame jobId
                      (WUpdate (DeepWorker.progress_patch
                                  (DeepWorker.count
                                     (DeepWorker.validateEmail (default "" (DeepWorker.email row))) c)))
                      (wrote out [DeepWorker.written row] w)) as (_ & _ & _ & Ht & _).
        destruct (store_write jobId _ _) as [[[]|e] w1]; [|discriminate].
        rewrite (IH _ _ Hrun). simpl in Ht. rewrite Ht. reflexivity.
      * rewrite (IH _ _ Hrun). reflexivity.
    + rewrite for_await_skip in Hrun by assumption.
      unfold DeepWorker.kept. simpl List.filter. rewrite Hem. apply (IH _ _ Hrun).
Qed.

Lemma deep_completed_stats jobId filePath input w d0 r w' d :
  jobs w !! jobId = Some d0 -> status d0 = processing ->
  DeepWorker.processCsvJob jobId filePath input w = (r, w') ->
  jobs w' !! jobId = Some d -> status d = completed ->
  valid (stats d) + invalid (stats d) + risky (stats d) = processedCount d /\
  processedCount d = length (DeepWorker.kept (rows input)) /\
  temp w' !! results_name jobId = Some (map DeepWorker.written (DeepWorker.kept (rows input))).
Proof.
  intros Hd0 Hs0 Hrun Hd Hs.
  unfold DeepWorker.processCsvJob in Hrun. unfold bind at 1 in Hrun.
  assert (Hens : exists r1 w1, ensureDir w = (r1, w1) /\ jobs w1 = jobs w).
  { unfold ensureDir. destruct (temp_dir w); [eauto|].
    simpl. destruct (mkdir_fault w); eauto. }
  destruct Hens as (r1 & w1 & He & Hj1). rewrite He in Hrun.
  destruct r1 as [[]|e].
  2:{ injection Hrun as <- <-. rewrite Hj1 in Hd. congruence. }
  unfold bind at 1, createWriteStream, modify in Hrun.
  set (out := results_name jobId) in *.
  set (w2 := with_temp _ _) in Hrun.
  assert (HP2 : in_progress jobId w2) by (exists d0; simpl; rewrite Hj1; auto).
  unfold finally, catch, DeepWorker.try_block in Hrun. unfold bind at 1 in Hrun.
  destruct (for_await_inv (in_progress jobId) jobId out (rows input)
              (DeepWorker.mkCounters 0 0 0 0) w2) as [HP3 Hc]; auto.
  { intros; apply progress_keeps_in_progress; assumption. }
  destruct (DeepWorker.for_await jobId out (rows input) _ w2) as [[c|e] w3] eqn:Hloop;
    simpl in HP3, Hc.
  - specialize (Hc c eq_refl). destruct (ending input) as [err|].
    + unfold throw in Hrun.
      assert (Hu : uncompleted jobId (snd (doc_update jobId (DeepWorker.failed_patch err) w3))).
      { apply failure_keeps_uncompleted; [discriminate|].
        destruct HP3 as (d3 & ? & ?). exists d3. split; [assumption|congruence]. }
      destruct (doc_update jobId (DeepWorker.failed_patch err) w3) as [r4 w4].
      simpl in Hrun. injection Hrun as <- <-. simpl in Hd.
      destruct Hu as (d4 & Hd4 & Hs4). simpl in Hd4. congruence.
    + destruct HP3 as (d3 & Hd3 & Hs3).
      destruct (doc_update_doc jobId (DeepWorker.final_patch out c) w3 d3 Hd3)
        as (r4 & w4 & Hupd & [(-> & Hd4 & _)|(e & -> & Hj4 & _)]); rewrite Hupd in Hrun.
      * pose proof (store_write_frame jobId (WUpdate (DeepWorker.final_patch out c)) w3)
          as (_ & _ & _ & Ht & _).
        unfold doc_update in Hupd. rewrite Hupd in Ht. simpl in Ht.
        simpl in Hrun. injection Hrun as <- <-. simpl in Hd.
        rewrite Hd4 in Hd. injection Hd as <-. simpl.
        rewrite Ht, (for_await_output _ _ _ _ _ _ _ Hloop). simpl.
        rewrite lookup_alter_eq, lookup_insert_eq. simpl.
        subst c. pose proof (deep_tally_sum (rows input) (DeepWorker.mkCounters 0 0 0 0)) as H1.
        pose proof (deep_tally_processed (rows input) (DeepWorker.mkCounters 0 0 0 0)) as H2.
        simpl in H1, H2. repeat split; lia.
      * assert (Hu : uncompleted jobId (snd (doc_update jobId (DeepWorker.failed_patch e) w4))).
        { apply failure_keeps_uncompleted; [discriminate|].
          exists d3. rewrite Hj4. split; [assumption|congruence]. }
        destruct (doc_update jobId (DeepWorker.failed_patch e) w4) as [r5 w5].
        simpl in Hrun. injection Hrun as <- <-. simpl in Hd.
        destruct Hu as (d5 & Hd5 & Hs5). simpl in Hd5. congruence.
  - assert (Hu : uncompleted jobId (snd (doc_update jobId (DeepWorker.failed_patch e) w3))).
    { apply failure_keeps_uncompleted; [discriminate|].
      destruct HP3 as (d3 & ? & ?). exists d3. split; [assumption|congruence]. }
    destruct (doc_update jobId (DeepWorker.failed_patch e) w3) as [r4 w4].
    simpl in Hrun. injection Hrun as <- <-. simpl in Hd.
    destruct Hu as (d4 & Hd4 & Hs4). simpl in Hd4. congruence.
Qed.

Lemma for_await_total (P : World -> Prop) jobId out rs c w :
  (forall w row, P w -> P (wrote out [row] w)) ->
  (forall w c, P w ->
     exists w', doc_update jobId (DeepWorker.progress_patch c) w = (Ok tt, w') /\ P w') ->
  P w ->
  exists w', DeepWorker.for_await jobId out rs c w = (Ok (DeepWorker.tally rs c), w') /\ P w'.
Proof.
  intros Hrow Hupd. revert c w.
  induction rs as [|row rs IH]; intros c w HP.
  - simpl. exists w. split; [reflexivity|assumption].
  - destruct (Js.truthy (DeepWorker.email row)) eqn:Hem.
    + rewrite for_await_step, deep_tally_cons_kept by assumption. cbv zeta.
      set (c1 := DeepWorker.count _ c).
      destruct (DeepWorker.processed c1 mod 10 =? 0).
      * destruct (Hupd _ c1 (Hrow _ (DeepWorker.written row) HP)) as (w1 & -> & HP1).
        apply IH. exact HP1.
      * apply IH. apply Hrow. assumption.
    + rewrite for_await_skip, deep_tally_cons_skipped by assumption. apply IH. assumption.
Qed.

Lemma calm_update jobId p w :
  p_status p = None -> calm jobId w ->
  exists w', doc_update jobId p w = (Ok tt, w') /\ calm jobId w'.
Proof.
  intros Hp (Hf & d & Hd & Hs). unfold doc_update, store_write. rewrite Hf. simpl. rewrite Hd.
  eexists. split; [reflexivity|]. split; [reflexivity|].
  exists (apply_patch p d). simpl. rewrite lookup_insert_eq. split; [reflexivity|].
  rewrite Hp. exact Hs.
Qed.

Lemma deep_completes jobId filePath input w d0 :
  jobs w !! jobId = Some d0 -> status d0 = processing ->
  ending input = None -> faults w = [] -> temp_dir w = true \/ mkdir_fault w = None ->
  exists w' d, DeepWorker.processCsvJob jobId filePath input w = (Ok tt, w') /\
    jobs w' !! jobId = Some d /\ status d = completed.
Proof.
  intros Hd0 Hs0 Hend Hf Hdir.
  unfold DeepWorker.processCsvJob. unfold bind at 1.
  assert (Hens : exists w1, ensureDir w = (Ok tt, w1) /\ jobs w1 = jobs w /\ faults w1 = faults w).
  { unfold ensureDir. destruct (temp_dir w) eqn:Ht; [eauto|].
    destruct Hdir as [|Hm]; [discriminate|]. simpl. rewrite Hm. eauto. }
  destruct Hens as (w1 & -> & Hj1 & Hf1).
  unfold bind at 1, createWriteStream, modify.
  set (out := results_name jobId). set (w2 := with_temp _ _).
  assert (HP2 : calm jobId w2).
  { split; [simpl; congruence|]. exists d0. simpl. rewrite Hj1. auto. }
  unfold finally, catch, DeepWorker.try_block. unfold bind at 1.
  destruct (for_await_total (calm jobId) jobId out (rows input)
              (DeepWorker.mkCounters 0 0 0 0) w2) as (w3 & -> & Hf3 & d3 & Hd3 & Hs3); auto.
  { intros; apply calm_update; auto. }
  rewrite Hend. unfold doc_update, store_write. rewrite Hf3. simpl. rewrite Hd3. simpl.
  do 2 eexists. split; [reflexivity|]. simpl. rewrite lookup_insert_eq. split; reflexivity.
Qed.

Lemma ensure_temp_sync_cases w :
  exists r w1, ensure_temp_sync w = (r, w1) /\ jobs w1 = jobs w /\ faults w1 = faults w /\
    trace w1 = trace w /\ uploads w1 = uploads w /\ temp w1 = temp w /\
    (temp_dir w = true \/ mkdir_fault w = None -> r = Ok tt).
Proof.
  unfold ensure_temp_sync. simpl. destruct (temp_dir w); simpl.
  - do 2 eexists. split; [reflexivity|]. simpl. tauto.
  - destruct (mkdir_fault w); do 2 eexists; (split; [reflexivity|]); simpl; repeat split; auto.
    intros [|]; discriminate.
Qed.

Section WorkerStats.
Variable validate : string -> bool.

(** The only way to [completed] is the final write of the ['end']
    handler. *)
Lemma simple_completed jobId filePath input w d0 r w' d :
  jobs w !! jobId = Some d0 -> status d0 = processing ->
  Worker.processCsvJob validate jobId filePath input w = (r, w') ->
  jobs w' !! jobId = Some d -> status d = completed ->
  d = apply_patch (Worker.final_patch (results_name jobId)
                     (Worker.tally validate (rows input) (Worker.mkCounters 0 0 0))) d0.
Proof.
  intros Hd0 Hs0 Hrun Hd Hs.
  unfold Worker.processCsvJob in Hrun. unfold bind at 1, settle in Hrun.
  unfold bind at 1 in Hrun.
  destruct (ensure_temp_sync_cases w) as (r1 & w1 & He & Hj1 & _). rewrite He in Hrun.
  destruct r1 as [[]|e].
  2:{ injection Hrun as <- <-. rewrite Hj1 in Hd. congruence. }
  unfold createWriteStream, modify in Hrun. unfold bind at 1 in Hrun.
  rewrite data_events_spec in Hrun.
  set (c := Worker.tally validate (rows input) _) in *.
  set (w2 := wrote _ _ _) in Hrun.
  assert (Hd2 : jobs w2 !! jobId = Some d0) by (simpl; rewrite Hj1; assumption).
  destruct (ending input) as [err|].
  - unfold Worker.on_error, bind, settle in Hrun.
    destruct (doc_update_doc jobId Worker.failed_patch w2 d0 Hd2)
      as (r3 & w3 & Hupd & [(-> & Hd3 & _)|(e & -> & Hj3 & _)]); rewrite Hupd in Hrun;
      injection Hrun as <- <-.
    + rewrite Hd3 in Hd. injection Hd as <-. discriminate.
    + rewrite Hj3, Hd2 in Hd. congruence.
  - unfold Worker.on_end, bind, settle in Hrun.
    destruct (doc_update_doc jobId (Worker.final_patch (results_name jobId) c) w2 d0 Hd2)
      as (r3 & w3 & Hupd & [(-> & Hd3 & _)|(e & -> & Hj3 & _)]); rewrite Hupd in Hrun;
      injection Hrun as <- <-.
    + simpl in Hd. rewrite Hd3 in Hd. injection Hd as <-. reflexivity.
    + rewrite Hj3, Hd2 in Hd. congruence.
Qed.

Lemma simple_completed_stats jobId filePath input w d0 r w' d :
  jobs w !! jobId = Some d0 -> status d0 = processing ->
  Worker.processCsvJob validate jobId filePath input w = (r, w') ->
  jobs w' !! jobId = Some d -> status d = completed ->
  valid (stats d) + invalid (stats d) + risky (stats d) = processedCount d /\
  processedCount d = totalEmails d /\
  totalEmails d = length (rows input).
Proof.
  intros Hd0 Hs0 Hrun Hd Hs.
  rewrite (simple_completed _ _ _ _ _ _ _ _ Hd0 Hs0 Hrun Hd Hs). simpl.
  pose proof (tally_sum validate (rows input) (Worker.mkCounters 0 0 0)) as H1.
  simpl in H1. lia.
Qed.

Lemma simple_completes jobId filePath input w d0 :
  jobs w !! jobId = Some d0 -> status d0 = processing ->
  ending input = None -> faults w = [] -> temp_dir w = true \/ mkdir_fault w = None ->
  exists w' d, Worker.processCsvJob validate jobId filePath input w = (Ok Resolved, w') /\
    jobs w' !! jobId = Some d /\ status d = completed.
Proof.
  intros Hd0 Hs0 Hend Hf Hdir.
  unfold Worker.processCsvJob. unfold bind at 1, settle. unfold bind at 1.
  destruct (ensure_temp_sync_cases w) as (r1 & w1 & -> & Hj1 & Hf1 & _ & _ & _ & Hok).
  rewrite (Hok Hdir).
  unfold createWriteStream, modify. unfold bind at 1.
  rewrite data_events_spec, Hend.
  unfold Worker.on_end, bind, settle, doc_update, store_write. simpl.
  rewrite Hf1, Hf, Hj1, Hd0. simpl.
  do 2 eexists. split; [reflexivity|]. simpl. rewrite lookup_insert_eq. split; reflexivity.
Qed.
End WorkerStats.

(** ** Statistics at completion *)

(** C1 (as amended).  Once a job that was processing is completed, its
    three counts sum to [processedCount]; under [backend/worker.js] this is
    also [totalEmails] and the number of input records, under the
    deep-validation variant it is the number of records whose located email
    value is non-empty.  Both workers do complete a job whose stream ends
    when the store accepts the writes. *)
Theorem completed_stats_consistent
    (validate : string -> bool) (jobId filePath : string) (input : Stream)
    (w : World) (d0 : JobDoc) :
  jobs w !! jobId = Some d0 -> status d0 = processing ->
  (forall r w' d,
      Worker.processCsvJob validate jobId filePath input w = (r, w') ->
      jobs w' !! jobId = Some d -> status d = completed ->
      valid (stats d) + invalid (stats d) + risky (stats d) = processedCount d /\
      processedCount d = totalEmails d /\
      totalEmails d = length (rows input)) /\
  (forall r w' d,
      DeepWorker.processCsvJob jobId filePath input w = (r, w') ->
      jobs w' !! jobId = Some d -> status d = completed ->
      valid (stats d) + invalid (stats d) + risky (stats d) = processedCount d /\
      processedCount d = length (DeepWorker.kept (rows input)) /\
      processedCount d <= length (rows input)) /\
  (ending input = None -> faults w = [] -> temp_dir w = true \/ mkdir_fault w = None ->
   (exists w' d, Worker.processCsvJob validate jobId filePath input w = (Ok Resolved, w') /\
                 jobs w' !! jobId = Some d /\ status d = completed) /\
   (exists w' d, DeepWorker.processCsvJob jobId filePath input w = (Ok tt, w') /\
                 jobs w' !! jobId = Some d /\ status d = completed)).
Proof.
  intros Hd0 Hs0. split; [|split].
  - intros r w' d. apply simple_completed_stats with (d0 := d0); assumption.
  - intros r w' d Hrun Hd Hs.
    destruct (deep_completed_stats _ _ _ _ _ _ _ _ Hd0 Hs0 Hrun Hd Hs) as (H1 & H2 & _).
    repeat split; try assumption. rewrite H2. apply List.filter_length_le.
  - intros Hend Hf Hdir. split.
    + apply simple_completes with (d0 := d0); assumption.
    + apply deep_completes with (d0 := d0); assumption.
Qed.

Lemma completed_stats_consistent_witness :
  jobs Scenario.world !! "j1" = Some Scenario.job /\
  status Scenario.job = processing /\
  exists d,
    jobs (snd (Worker.processCsvJob Scenario.has_at "j1" "uploads/u1"
                 (mkStream Scenario.three_rows None) Scenario.world)) !! "j1" = Some d /\
    totalEmails d = 3.
Proof.
  assert (H1 : jobs Scenario.world !! "j1" = Some Scenario.job) by reflexivity.
  assert (H2 : status Scenario.job = processing) by reflexivity.
  split; [exact H1|]. split; [exact H2|].
  destruct (completed_stats_consistent Scenario.has_at "j1" "uploads/u1"
              (mkStream Scenario.three_rows None) Scenario.world Scenario.job H1 H2)
    as (Hsimple & _ & Hdone).
  destruct Hdone as [(w' & d & Hrun & Hd & Hs) _]; [reflexivity|reflexivity|left; reflexivity|].
  exists d. rewrite Hrun. split; [exact Hd|].
  apply (Hsimple _ _ _ Hrun Hd Hs).
Defined.

(** C1 as stated fails under the deep-validation variant: of three records
    one is skipped and [totalEmails] is never written. *)
Lemma completed_stats_counterexample :
  exists d,
    jobs (snd (DeepWorker.processCsvJob "j1" "uploads/u1"
                 (mkStream Scenario.three_rows None) Scenario.world)) !! "j1" = Some d /\
    status d = completed /\
    processedCount d = 2 /\ totalEmails d = 0 /\ length Scenario.three_rows = 3 /\
    ~ (valid (stats d) + invalid (stats d) + risky (stats d) = processedCount d /\
       processedCount d = totalEmails d /\
       totalEmails d = length Scenario.three_rows).
Proof.
  eexists. split; [vm_compute; reflexivity|].
  simpl. repeat split; intros (_ & H & _); discriminate H.
Qed.

(** ** Row objects *)


Lemma get_set_other k k' v (o : Js.obj) :
  k <> k' -> Js.get k' (Js.set k v o) = Js.get k' o.
Proof.
  intros Hne. induction o as [|[k0 v0] o IH]; simpl.
  - destruct (String.eqb_spec k k'); [contradiction|reflexivity].
  - destruct (String.eqb_spec k0 k) as [->|]; simpl.
    + destruct (String.eqb_spec k k'); [contradiction|reflexivity].
    + destruct (String.eqb k0 k'); [reflexivity|assumption].
Qed.

Lemma find_none_get {A} (p : A -> bool) (l : list A) :
  (forall x, In x l -> p x = false) -> Js.find p l = None.
Proof.
  unfold Js.find. induction l as [|x l IH]; simpl; intros H; [reflexivity|].
  rewrite (H x) by auto. apply IH. auto.
Qed.

(** ** Records without an email value *)

Section EmaillessRecords.
Variable validate : string -> bool.

Lemma accepted_falsy e : Js.truthy e = false -> Worker.accepted validate e = false.
Proof. unfold Worker.accepted. destruct e; [intros ->|]; reflexivity. Qed.

Lemma tally_invalid rs c :
  Worker.invalidCount (Worker.tally validate rs c)
  = Worker.invalidCount c
    + length (List.filter (fun row => negb (Worker.accepted validate (Worker.email row))) rs).
Proof.
  revert c. induction rs as [|row rs IH]; intros c; simpl; [lia|].
  unfold Worker.tally in *. rewrite IH. unfold Worker.counted.
  destruct (Worker.accepted validate (Worker.email row)); simpl; lia.
Qed.

(** The result file of [backend/worker.js] holds one record per input
    record whatever happens afterwards. *)
Lemma simple_output jobId filePath input w :
  temp_dir w = true \/ mkdir_fault w = None ->
  temp (snd (Worker.processCsvJob validate jobId filePath input w)) !! results_name jobId
  = Some (map (Worker.annotate validate) (rows input)).
Proof.
  intros Hdir.
  unfold Worker.processCsvJob. unfold bind at 1, settle. unfold bind at 1.
  destruct (ensure_temp_sync_cases w) as (r1 & w1 & -> & _ & _ & _ & _ & _ & Hok).
  rewrite (Hok Hdir).
  unfold createWriteStream, modify. unfold bind at 1.
  rewrite data_events_spec.
  set (w2 := wrote _ _ _).
  assert (H2 : temp w2 !! results_name jobId = Some (map (Worker.annotate validate) (rows input))).
  { simpl. rewrite lookup_alter_eq, lookup_insert_eq. reflexivity. }
  destruct (ending input) as [err|].
  - unfold Worker.on_error, bind, settle, doc_update.
    pose proof (store_write_frame jobId (WUpdate Worker.failed_patch) w2) as (_ & _ & _ & Ht & _).
    destruct (store_write jobId _ w2) as [[[]|e] w3]; simpl in *; rewrite Ht; exact H2.
  - unfold Worker.on_end, bind, settle, doc_update.
    pose proof (store_write_frame jobId
                  (WUpdate (Worker.final_patch (results_name jobId)
                              (Worker.tally validate (rows input) (Worker.mkCounters 0 0 0)))) w2)
      as (_ & _ & _ & Ht & _).
    destruct (store_write jobId _ w2) as [[[]|e] w3]; simpl in *; rewrite Ht; exact H2.
Qed.

End EmaillessRecords.

(** C2 (as amended).  Under [backend/worker.js] a record whose located
    email value is absent or empty is marked [Invalid], written, and counted
    in [invalid]; every record reaches the result file and the counts of a
    completed job; the three-row upload [a@b.com, not-an-email, <empty>]
    completes with stats 1/2/0, [processedCount] 3 and three output records.
    Under the deep-validation variant such a record is skipped: the loop goes
    on as if it were not there. *)
Theorem emailless_record_is_invalid (validate : string -> bool)
    (Ha : validate "a@b.com" = true) (Hb : validate "not-an-email" = false) :
  (forall row c,
      Js.truthy (Worker.email row) = false ->
      Worker.on_data validate row c
      = (Js.set "Validation Status" "Invalid" row,
         Worker.mkCounters (Worker.validCount c) (Worker.invalidCount c + 1) (Worker.riskyCount c))) /\
  (forall jobId filePath input w,
      temp_dir w = true \/ mkdir_fault w = None ->
      temp (snd (Worker.processCsvJob validate jobId filePath input w)) !! results_name jobId
      = Some (map (fun row => fst (Worker.on_data validate row (Worker.mkCounters 0 0 0)))
                (rows input))) /\
  (forall jobId filePath input w d0 r w' d,
      jobs w !! jobId = Some d0 -> status d0 = processing ->
      Worker.processCsvJob validate jobId filePath input w = (r, w') ->
      jobs w' !! jobId = Some d -> status d = completed ->
      processedCount d = length (rows input) /\
      invalid (stats d)
      = length (List.filter (fun row => negb (Worker.accepted validate (Worker.email row)))
                  (rows input))) /\
  (forall jobId filePath w d0,
      jobs w !! jobId = Some d0 -> status d0 = processing ->
      faults w = [] -> temp_dir w = true \/ mkdir_fault w = None ->
      exists w' d,
        Worker.processCsvJob validate jobId filePath (mkStream Scenario.three_rows None) w
        = (Ok Resolved, w') /\
        jobs w' !! jobId = Some d /\ status d = completed /\
        stats d = mkStats 1 2 0 /\ processedCount d = 3 /\
        temp w' !! results_name jobId
        = Some [ [("email", "a@b.com"); ("Validation Status", "Valid")];
                 [("email", "not-an-email"); ("Validation Status", "Invalid")];
                 [("email", ""); ("Validation Status", "Invalid")] ]) /\
  (forall jobId out row rs c w,
      Js.truthy (DeepWorker.email row) = false ->
      DeepWorker.for_await jobId out (row :: rs) c w = DeepWorker.for_await jobId out rs c w).
Proof.
  assert (Hann : forall row,
             fst (Worker.on_data validate row (Worker.mkCounters 0 0 0))
             = Worker.annotate validate row).
  { intros row. unfold Worker.on_data, Worker.annotate, Worker.verdict.
    destruct (Worker.accepted _ _); reflexivity. }
  split; [|split; [|split; [|split]]].
  - intros row c Hrow. unfold Worker.on_data. rewrite accepted_falsy by assumption. reflexivity.
  - intros jobId filePath input w Hdir. rewrite simple_output by assumption.
    f_equal. apply map_ext. intros row. symmetry. apply Hann.
  - intros jobId filePath input w d0 r w' d Hd0 Hs0 Hrun Hd Hs.
    destruct (simple_completed_stats validate _ _ _ _ _ _ _ _ Hd0 Hs0 Hrun Hd Hs) as (_ & H2 & H3).
    split; [congruence|].
    rewrite (simple_completed validate _ _ _ _ _ _ _ _ Hd0 Hs0 Hrun Hd Hs). simpl.
    rewrite tally_invalid. reflexivity.
  - intros jobId filePath w d0 Hd0 Hs0 Hf Hdir.
    destruct (simple_completes validate jobId filePath (mkStream Scenario.three_rows None) w d0)
      as (w' & d & Hrun & Hd & Hs); auto.
    exists w', d. split; [exact Hrun|]. split; [exact Hd|]. split; [exact Hs|].
    pose proof (simple_completed validate _ _ _ _ _ _ _ _ Hd0 Hs0 Hrun Hd Hs) as Hfinal.
    pose proof (simple_output validate jobId filePath (mkStream Scenario.three_rows None) w Hdir)
      as Hout.
    rewrite Hrun in Hout. cbn [snd rows] in Hout.
    assert (E1 : Worker.email [("email", "a@b.com")] = Some "a@b.com") by reflexivity.
    assert (E2 : Worker.email [("email", "not-an-email")] = Some "not-an-email") by reflexivity.
    assert (E3 : Worker.email [("email", "")] = Some "") by reflexivity.
    assert (A1 : Worker.accepted validate (Some "a@b.com") = true) by (simpl; exact Ha).
    assert (A2 : Worker.accepted validate (Some "not-an-email") = false) by (simpl; exact Hb).
    assert (A3 : Worker.accepted validate (Some "") = false) by reflexivity.
    split; [|split].
    + rewrite Hfinal. unfold Worker.tally, Worker.counted, Scenario.three_rows.
      cbn [rows fold_left]. rewrite E1, E2, E3, A1, A2, A3. reflexivity.
    + rewrite Hfinal. unfold Worker.tally, Worker.counted, Scenario.three_rows.
      cbn [rows fold_left]. rewrite E1, E2, E3, A1, A2, A3. reflexivity.
    + etrans; [exact Hout|]. unfold Worker.annotate, Worker.verdict, Scenario.three_rows.
      cbn [map]. rewrite E1, E2, E3, A1, A2, A3. reflexivity.
  - intros. apply for_await_skip. assumption.
Qed.

Lemma emailless_record_is_invalid_witness :
  Scenario.has_at "a@b.com" = true /\ Scenario.has_at "not-an-email" = false /\
  Worker.on_data Scenario.has_at [("email", "")] (Worker.mkCounters 1 1 0)
  = ([("email", ""); ("Validation Status", "Invalid")], Worker.mkCounters 1 2 0).
Proof.
  assert (Ha : Scenario.has_at "a@b.com" = true) by reflexivity.
  assert (Hb : Scenario.has_at "not-an-email" = false) by reflexivity.
  split; [exact Ha|]. split; [exact Hb|].
  destruct (emailless_record_is_invalid Scenario.has_at Ha Hb) as (Hrow & _).
  apply (Hrow [("email", "")] (Worker.mkCounters 1 1 0)). reflexivity.
Defined.

(** C2 as stated fails under the deep-validation variant: the empty third
    row of the three-row upload is neither written nor counted. *)
Lemma emailless_record_counterexample :
  exists d out,
    let w' := snd (DeepWorker.processCsvJob "j1" "uploads/u1"
                     (mkStream Scenario.three_rows None) Scenario.world) in
    jobs w' !! "j1" = Some d /\ temp w' !! "results-j1.csv" = Some out /\
    stats d = mkStats 0 0 2 /\ processedCount d = 2 /\ length out = 2 /\
    ~ (stats d = mkStats 1 2 0 /\ processedCount d = 3 /\ length out = 3).
Proof.
  do 2 eexists. cbv zeta.
  split; [vm_compute; reflexivity|]. split; [vm_compute; reflexivity|].
  simpl. repeat split. intros (H & _). discriminate H.
Qed.

(** ** Locating the email value *)

Lemma find_first {A} (p : A -> bool) (l : list A) (x : A) :
  Js.find p l = Some x ->
  p x = true /\ exists pre post, l = pre ++ x :: post /\ Forall (fun y => p y = false) pre.
Proof.
  unfold Js.find. induction l as [|y l IH]; simpl; [discriminate|].
  destruct (p y) eqn:Hy.
  - intros [= ->]. split; [assumption|]. exists [], l. split; [reflexivity|constructor].
  - intros H. destruct (IH H) as (Hx & pre & post & -> & Hpre).
    split; [assumption|]. exists (y :: pre), post. split; [reflexivity|].
    constructor; assumption.
Qed.

(** C6 (as amended).  [backend/worker.js] takes the value of the first
    column whose lower-cased name contains "email"; with no such column it
    reads the property named "undefined", so the value is absent unless a
    column bears that name: there is no fallback to the first column.  The
    deep-validation variant takes the column [email] when its value is
    non-empty, else the column [Email] when its value is non-empty, else the
    first column's value; it does no case-insensitive or substring match. *)
Theorem email_location (row : Js.obj) :
  (forall k, In k (Js.keys row) -> Js.includes (Js.toLowerCase k) "email" = true ->
     exists k0 pre post,
       Worker.emailKey row = Some k0 /\
       Js.includes (Js.toLowerCase k0) "email" = true /\
       Js.keys row = pre ++ k0 :: post /\
       Forall (fun k' => Js.includes (Js.toLowerCase k') "email" = false) pre /\
       Worker.email row = Js.get k0 row /\
       Worker.email row = Spec.locate_email row) /\
  ((forall k, In k (Js.keys row) -> Js.includes (Js.toLowerCase k) "email" = false) ->
     Worker.emailKey row = None /\
     Worker.email row = Js.get "undefined" row /\
     (Js.get "undefined" row = None -> Worker.email row = None)) /\
  DeepWorker.email row
  = (if Js.truthy (Js.get "email" row) then Js.get "email" row
     else if Js.truthy (Js.get "Email" row) then Js.get "Email" row
     else head (Js.values row)) /\
  (Js.get "email" row = None -> Js.get "Email" row = None ->
     DeepWorker.email row = head (Js.values row)).
Proof.
  split; [|split; [|split]].
  - intros k Hin Hk.
    destruct (Worker.emailKey row) as [k0|] eqn:Hfind.
    + destruct (find_first _ _ _ Hfind) as (Hk0 & pre & post & Hkeys & Hpre).
      exists k0, pre, post. repeat split; try assumption.
      * unfold Worker.email, Worker.emailKey in *. rewrite Hfind. reflexivity.
      * unfold Worker.email, Spec.locate_email, Worker.emailKey in *.
        rewrite Hfind. reflexivity.
    + unfold Worker.emailKey, Js.find in Hfind.
      pose proof (List.find_none _ _ Hfind k Hin) as Hno. simpl in Hno. congruence.
  - intros Hnone.
    assert (Hfind : Worker.emailKey row = None) by (apply find_none_get; assumption).
    split; [assumption|]. unfold Worker.email. rewrite Hfind. simpl. split; auto.
  - unfold DeepWorker.email, Js.or_else.
    destruct (Js.truthy (Js.get "email" row)) eqn:H1; cbv iota; [rewrite H1; reflexivity|].
    destruct (Js.truthy (Js.get "Email" row)) eqn:H2; reflexivity.
  - intros H1 H2. unfold DeepWorker.email, Js.or_else. rewrite H1, H2. reflexivity.
Qed.

Lemma email_location_witness :
  In "Work EMail" (Js.keys [("name", "bob"); ("Work EMail", "b@c.org")]) /\
  Js.includes (Js.toLowerCase "Work EMail") "email" = true /\
  Worker.email [("name", "bob"); ("Work EMail", "b@c.org")] = Some "b@c.org".
Proof.
  assert (H1 : In "Work EMail" (Js.keys [("name", "bob"); ("Work EMail", "b@c.org")]))
    by (simpl; auto).
  assert (H2 : Js.includes (Js.toLowerCase "Work EMail") "email" = true) by reflexivity.
  split; [exact H1|]. split; [exact H2|].
  destruct (email_location [("name", "bob"); ("Work EMail", "b@c.org")]) as (Hfound & _).
  destruct (Hfound _ H1 H2) as (k0 & pre & post & _ & _ & _ & _ & _ & Hspec).
  rewrite Hspec. reflexivity.
Defined.

(** C6 as stated fails in both workers: [backend/worker.js] does not fall
    back to the first column, and the deep-validation variant overlooks a
    column named [EMAIL]. *)
Lemma email_location_counterexample :
  (Spec.locate_email [("name", "bob")] = Some "bob" /\
   Worker.email [("name", "bob")] = None) /\
  (Spec.locate_email [("name", "bob"); ("EMAIL", "a@b.com")] = Some "a@b.com" /\
   DeepWorker.email [("name", "bob"); ("EMAIL", "a@b.com")] = Some "bob").
Proof. repeat split. Qed.

(** ** Output records *)





(** ** The error path of [backend/worker.js] *)

Lemma error_path_fs
    (validate : string -> bool) (jobId filePath : string) (rs : list Js.obj)
    (e : string) (w : World) r w' :
  Worker.processCsvJob validate jobId filePath (mkStream rs (Some e)) w = (r, w') ->
  uploads w' = uploads w /\
  exists ops, fslog w' = fslog w ++ ops /\ Forall (fun op => ~ is_unlink op) ops.
Proof.
  unfold Worker.processCsvJob. unfold bind at 1, settle. unfold bind at 1.
  unfold ensure_temp_sync. cbn [temp_dir logged mkdir_fault].
  assert (Hstep : forall w0 r w',
            (c <- Worker.data_events validate (results_name jobId) rs (Worker.mkCounters 0 0 0) ;;
             Worker.on_error jobId e) w0 = (r, w') ->
            uploads w' = uploads w0 /\ fslog w' = fslog w0).
  { intros w0 r0 w0'. unfold bind at 1. rewrite data_events_spec.
    unfold Worker.on_error, bind, settle, doc_update.
    pose proof (store_write_frame jobId (WUpdate Worker.failed_patch)
                  (wrote (results_name jobId) (map (Worker.annotate validate) rs) w0))
      as (Hu & _ & _ & _ & Hl & _).
    destruct (store_write jobId _ _) as [[[]|err] w3]; simpl in Hu, Hl;
      intros [= <- <-]; split; assumption. }
  destruct (temp_dir w); [|destruct (mkdir_fault w)].
  - unfold createWriteStream, modify. cbn [ending rows]. intros Hrun.
    apply Hstep in Hrun as [-> ->]. simpl. split; [reflexivity|].
    rewrite <- app_assoc. eexists. split; [reflexivity|]. repeat constructor; simpl; tauto.
  - intros [= <- <-]. simpl. split; [reflexivity|]. rewrite <- app_assoc.
    eexists. split; [reflexivity|]. repeat constructor; simpl; tauto.
  - unfold createWriteStream, modify. cbn [ending rows]. intros Hrun.
    apply Hstep in Hrun as [-> ->]. simpl. split; [reflexivity|].
    rewrite <- !app_assoc. eexists. split; [reflexivity|]. repeat constructor; simpl; tauto.
Qed.

(** C3 (the code departs from it).  When the record stream of
    [backend/worker.js] ends with an error, the run never calls [unlink]: the
    uploaded file stays on disk. *)
Theorem error_path_keeps_upload
    (validate : string -> bool) (jobId filePath : string) (rs : list Js.obj)
    (e : string) (w : World) :
  let w' := snd (Worker.processCsvJob validate jobId filePath (mkStream rs (Some e)) w) in
  uploads w' = uploads w /\
  exists ops, fslog w' = fslog w ++ ops /\ Forall (fun op => ~ is_unlink op) ops.
Proof.
  cbv zeta.
  destruct (Worker.processCsvJob validate jobId filePath (mkStream rs (Some e)) w)
    as [r w'] eqn:Hrun.
  exact (error_path_fs _ _ _ _ _ _ _ _ Hrun).
Qed.

(** A run on the sample world: the stream fails after one record, the job is
    marked failed, the upload is still there. *)
Example sample_failed_read :
  let w' := snd (Worker.processCsvJob Scenario.has_at "j1" "uploads/u1"
                   (mkStream [[("email", "a@b.com")]] (Some "read failed")) Scenario.world) in
  status <$> jobs w' !! "j1" = Some failed /\
  uploads w' = ["uploads/u1"] /\
  fslog w' = [FsExists "temp"; FsCreate "temp/results-j1.csv"].
Proof. vm_compute. repeat split. Qed.

(** The sibling paths do remove the upload: the ['end'] handler of
    [backend/worker.js] after an accepted final write, and the [finally]
    block of the deep-validation variant on every path through its [try]. *)
Lemma end_path_removes_upload
    (validate : string -> bool) (jobId filePath : string) (rs : list Js.obj)
    (w : World) (d0 : JobDoc) :
  jobs w !! jobId = Some d0 -> faults w = [] -> temp_dir w = true ->
  let w' := snd (Worker.processCsvJob validate jobId filePath (mkStream rs None) w) in
  ~ In filePath (uploads w') /\
  fslog w' = fslog w ++ [FsExists temp_path; FsCreate (in_temp (results_name jobId));
                         FsUnlink filePath].
Proof.
  intros Hd0 Hf Hdir. cbv zeta.
  destruct (Worker.processCsvJob validate jobId filePath (mkStream rs None) w)
    as [r w'] eqn:Hrun.
  revert Hrun.
  unfold Worker.processCsvJob. unfold bind at 1, settle. unfold bind at 1.
  unfold ensure_temp_sync. cbn [temp_dir logged]. rewrite Hdir.
  unfold createWriteStream, modify. unfold bind at 1. rewrite data_events_spec.
  cbn [ending]. unfold Worker.on_end, bind, settle, doc_update, store_write. simpl.
  rewrite Hf, Hd0. simpl. intros [= <- <-]. simpl. split.
  - intros Hin. apply List.filter_In in Hin as [_ Hneq].
    rewrite String.eqb_refl in Hneq. discriminate.
  - rewrite <- ?app_assoc. reflexivity.
Qed.

Lemma unlink_spec path w :
  unlink path w = (Ok tt, with_uploads (List.filter (fun p => negb (String.eqb p path)) (uploads w))
                            (logged (FsUnlink path) w)).
Proof. reflexivity. Qed.


(** C7 (the code departs from it).  When the record stream of
    [backend/worker.js] ends with an error and the store accepts the write,
    the job is marked failed and the promise is rejected with the error, but
    the document's [error] field is left as it was: no detail is recorded. *)
Theorem error_path_records_no_detail
    (validate : string -> bool) (jobId filePath : string) (rs : list Js.obj)
    (e : string) (w : World) (d0 : JobDoc) :
  jobs w !! jobId = Some d0 -> faults w = [] ->
  temp_dir w = true \/ mkdir_fault w = None ->
  exists w' d,
    Worker.processCsvJob validate jobId filePath (mkStream rs (Some e)) w = (Ok (Rejected e), w') /\
    jobs w' !! jobId = Some d /\ status d = failed /\ error d = error d0.
Proof.
  intros Hd0 Hf Hdir.
  unfold Worker.processCsvJob. unfold bind at 1, settle. unfold bind at 1.
  destruct (ensure_temp_sync_cases w) as (r1 & w1 & -> & Hj1 & Hf1 & _ & _ & _ & Hok).
  rewrite (Hok Hdir).
  unfold createWriteStream, modify. unfold bind at 1. rewrite data_events_spec.
  cbn [ending]. unfold Worker.on_error, bind, settle, doc_update, store_write. simpl.
  rewrite Hf1, Hf, Hj1, Hd0. simpl.
  do 2 eexists. split; [reflexivity|]. simpl. rewrite lookup_insert_eq.
  split; [reflexivity|]. split; reflexivity.
Qed.

Lemma error_path_records_no_detail_witness :
  jobs Scenario.world !! "j1" = Some Scenario.job /\ faults Scenario.world = [] /\
  (temp_dir Scenario.world = true \/ mkdir_fault Scenario.world = None) /\
  exists w' d,
    Worker.processCsvJob Scenario.has_at "j1" "uploads/u1"
      (mkStream [[("email", "a@b.com")]] (Some "read failed")) Scenario.world
    = (Ok (Rejected "read failed"), w') /\
    jobs w' !! "j1" = Some d /\ status d = failed /\ error d = None.
Proof.
  assert (H1 : jobs Scenario.world !! "j1" = Some Scenario.job) by reflexivity.
  assert (H2 : faults Scenario.world = []) by reflexivity.
  assert (H3 : temp_dir Scenario.world = true \/ mkdir_fault Scenario.world = None)
    by (left; reflexivity).
  split; [exact H1|]. split; [exact H2|]. split; [exact H3|].
  exact (error_path_records_no_detail Scenario.has_at "j1" "uploads/u1"
           [[("email", "a@b.com")]] "read failed" Scenario.world Scenario.job H1 H2 H3).
Defined.

(** The deep-validation variant does record the detail. *)
Lemma deep_error_records_detail (jobId filePath : string) (rs : list Js.obj)
    (e : string) (w : World) (d0 : JobDoc) :
  jobs w !! jobId = Some d0 -> status d0 = processing -> faults w = [] ->
  temp_dir w = true \/ mkdir_fault w = None ->
  exists w' d,
    DeepWorker.processCsvJob jobId filePath (mkStream rs (Some e)) w = (Ok tt, w') /\
    jobs w' !! jobId = Some d /\ status d = failed /\ error d = Some e.
Proof.
  intros Hd0 Hs0 Hf Hdir.
  unfold DeepWorker.processCsvJob. unfold bind at 1.
  assert (Hens : exists w1, ensureDir w = (Ok tt, w1) /\ jobs w1 = jobs w /\ faults w1 = faults w).
  { unfold ensureDir. destruct (temp_dir w) eqn:Ht; [eauto|].
    destruct Hdir as [|Hm]; [discriminate|]. simpl. rewrite Hm. eauto. }
  destruct Hens as (w1 & -> & Hj1 & Hf1).
  unfold bind at 1, createWriteStream, modify.
  set (out := results_name jobId). set (w2 := with_temp _ _).
  assert (HP2 : calm jobId w2).
  { split; [simpl; congruence|]. exists d0. simpl. rewrite Hj1. auto. }
  unfold finally, catch, DeepWorker.try_block. unfold bind at 1.
  destruct (for_await_total (calm jobId) jobId out rs
              (DeepWorker.mkCounters 0 0 0 0) w2) as (w3 & Hloop & Hf3 & d3 & Hd3 & Hs3); auto.
  { intros; apply calm_update; auto. }
  cbn [rows ending]. rewrite Hloop. unfold throw, doc_update, store_write.
  rewrite Hf3. simpl. rewrite Hd3. simpl.
  do 2 eexists. split; [reflexivity|]. simpl. rewrite lookup_insert_eq.
  split; [reflexivity|]. split; reflexivity.
Qed.

(** A failure to create [temp/] happens before either worker has set up its
    error handling: the promise is rejected and the job stays processing. *)
Example sample_setup_failure :
  let simple := Worker.processCsvJob Scenario.has_at "j1" "uploads/u1"
                  (mkStream Scenario.three_rows None) Scenario.world_no_temp in
  let deep := DeepWorker.processCsvJob "j1" "uploads/u1"
                (mkStream Scenario.three_rows None) Scenario.world_no_temp in
  fst simple = Ok (Rejected "EACCES") /\
  status <$> jobs (snd simple) !! "j1" = Some processing /\
  fst deep = Throw "EACCES" /\
  status <$> jobs (snd deep) !! "j1" = Some processing /\
  uploads (snd deep) = ["uploads/u1"].
Proof. vm_compute. repeat split. Qed.

(** The route never throws and, once the job document is created, answers
    with the job id whatever the worker does. *)
Lemma upload_never_throws
    (verifyIdToken : string -> option string)
    (worker : string -> string -> Stream -> M Outcome)
    (jobId : string) (req : Server.Request) (w : World) :
  exists resp w', Server.upload verifyIdToken worker jobId req w = (Ok resp, w').
Proof.
  unfold Server.upload.
  destruct (Server.authenticateUser verifyIdToken req) as [denied|uid]; [unfold ret; eauto|].
  destruct (Server.file req) as [f|]; [|unfold ret; eauto].
  unfold catch, bind, settle.
  destruct (doc_set jobId _ w) as [[[]|e] w1].
  - destruct (worker jobId (Server.path f) (Server.parsed f) w1) as [r2 w2]. unfold ret. eauto.
  - rewrite unlink_spec. unfold ret. eauto.
Qed.

(** ** A rejected progress update *)

Lemma kept_cons_true row rs :
  Js.truthy (DeepWorker.email row) = true -> DeepWorker.kept (row :: rs) = row :: DeepWorker.kept rs.
Proof. intros H. unfold DeepWorker.kept. simpl. rewrite H. reflexivity. Qed.

Lemma kept_cons_false row rs :
  Js.truthy (DeepWorker.email row) = false -> DeepWorker.kept (row :: rs) = DeepWorker.kept rs.
Proof. intros H. unfold DeepWorker.kept. simpl. rewrite H. reflexivity. Qed.

Local Ltac mod_lia := zify; Z.to_euclidean_division_equations; lia.

(** When the store accepts [k] writes and rejects the next one with [e], and
    the stream holds enough kept records to reach update [k + 1], the loop
    throws [e] right after the record that triggered this update. *)
Lemma for_await_rejected jobId out rs c w k e rest :
  is_Some (jobs w !! jobId) ->
  faults w = replicate k None ++ Some e :: rest ->
  until_update c + 10 * k <= length (DeepWorker.kept rs) ->
  exists w',
    DeepWorker.for_await jobId out rs c w = (Throw e, w') /\
    faults w' = rest /\
    temp w' = alter (fun l => l ++ map DeepWorker.written
                                 (take (until_update c + 10 * k) (DeepWorker.kept rs)))
                out (temp w).
Proof.
  revert c w k. induction rs as [|row rs IH]; intros c w k Hdoc Hf Hlen.
  - unfold until_update in Hlen. simpl in Hlen.
    pose proof (Nat.mod_upper_bound (DeepWorker.processed c) 10). lia.
  - destruct (Js.truthy (DeepWorker.email row)) eqn:Hem.
    + rewrite for_await_step by assumption. cbv zeta.
      rewrite kept_cons_true in * by assumption.
      set (c1 := DeepWorker.count _ c).
      assert (Hp : DeepWorker.processed c1 = DeepWorker.processed c + 1)
        by apply deep_count_processed.
      simpl length in Hlen.
      destruct (DeepWorker.processed c1 mod 10 =? 0) eqn:Hm.
      * apply Nat.eqb_eq in Hm.
        assert (Hgap : until_update c = 1).
        { unfold until_update. rewrite Hp in Hm. mod_lia. }
        rewrite Hgap in *. destruct k as [|k].
        -- simpl in Hf. unfold doc_update, store_write. cbn [faults wrote with_temp].
           rewrite Hf. eexists. split; [reflexivity|]. split; [reflexivity|]. reflexivity.
        -- simpl in Hf. destruct Hdoc as [d Hd].
           unfold doc_update, store_write. cbn [faults wrote with_temp jobs with_faults].
           rewrite Hf. cbn [tail]. rewrite Hd.
           match goal with |- context [DeepWorker.for_await _ _ _ _ ?w2] =>
             destruct (IH c1 w2 k) as (w' & -> & Hf' & Ht') end.
           { simpl. rewrite lookup_insert_eq. eauto. }
           { reflexivity. }
           { unfold until_update. rewrite Hm. lia. }
           exists w'. split; [reflexivity|]. split; [assumption|].
           rewrite Ht'. simpl temp. rewrite alter_app_app.
           replace (1 + 10 * S k) with (S (until_update c1 + 10 * k))
             by (unfold until_update; rewrite Hm; simpl; lia).
           reflexivity.
      * apply Nat.eqb_neq in Hm.
        assert (Hgap : until_update c = S (until_update c1)).
        { unfold until_update. rewrite Hp in *. mod_lia. }
        match goal with |- context [DeepWorker.for_await _ _ _ _ ?w2] =>
          destruct (IH c1 w2 k) as (w' & -> & Hf' & Ht') end.
        { exact Hdoc. }
        { exact Hf. }
        { lia. }
        exists w'. split; [reflexivity|]. split; [assumption|].
        rewrite Ht'. simpl temp. rewrite alter_app_app. rewrite Hgap. reflexivity.
    + rewrite for_await_skip by assumption. rewrite kept_cons_false in * by assumption.
      apply IH; assumption.
Qed.

(** C4 (as amended).  Under the deep-validation variant a rejected progress
    update is not swallowed: it aborts the loop.  When the store accepts [k]
    writes, rejects the next one with [e] and accepts the one after, and the
    stream holds at least [10 * (k + 1)] kept records, the run writes exactly
    the first [10 * (k + 1)] of them, marks the job failed with [e] as its
    error, and removes the upload. *)
Theorem progress_failure_aborts
    (jobId filePath : string) (input : Stream) (w : World) (d0 : JobDoc)
    (k : nat) (e : string) (rest : list (option string)) :
  jobs w !! jobId = Some d0 -> status d0 = processing ->
  temp_dir w = true \/ mkdir_fault w = None ->
  faults w = replicate k None ++ Some e :: None :: rest ->
  10 * (k + 1) <= length (DeepWorker.kept (rows input)) ->
  exists w' d,
    DeepWorker.processCsvJob jobId filePath input w = (Ok tt, w') /\
    jobs w' !! jobId = Some d /\ status d = failed /\ error d = Some e /\
    temp w' !! results_name jobId
    = Some (map DeepWorker.written (take (10 * (k + 1)) (DeepWorker.kept (rows input)))) /\
    ~ In filePath (uploads w').
Proof.
  intros Hd0 Hs0 Hdir Hf Hlen.
  unfold DeepWorker.processCsvJob. unfold bind at 1.
  assert (Hens : exists w1, ensureDir w = (Ok tt, w1) /\ jobs w1 = jobs w /\ faults w1 = faults w).
  { unfold ensureDir. destruct (temp_dir w) eqn:Ht; [eauto|].
    destruct Hdir as [|Hm]; [discriminate|]. simpl. rewrite Hm. eauto. }
  destruct Hens as (w1 & -> & Hj1 & Hf1).
  unfold bind at 1, createWriteStream, modify.
  set (out := results_name jobId). set (w2 := with_temp _ _).
  assert (HP2 : in_progress jobId w2) by (exists d0; simpl; rewrite Hj1; auto).
  destruct (for_await_inv (in_progress jobId) jobId out (rows input) (DeepWorker.mkCounters 0 0 0 0) w2) as [HP3 _]; auto.
  { intros; apply progress_keeps_in_progress; assumption. }
  destruct (for_await_rejected jobId out (rows input) (DeepWorker.mkCounters 0 0 0 0) w2 k e (None :: rest))
    as (w3 & Hloop & Hf3 & Ht3).
  { destruct HP2 as (d & -> & _). eauto. }
  { simpl. congruence. }
  { unfold until_update. simpl. lia. }
  rewrite Hloop in HP3. destruct HP3 as (d3 & Hd3 & Hs3). simpl in Hd3.
  unfold finally, catch, DeepWorker.try_block. unfold bind at 1. rewrite Hloop.
  unfold doc_update, store_write. rewrite Hf3. cbn [tail jobs with_faults]. rewrite Hd3.
  rewrite unlink_spec.
  do 2 eexists. split; [reflexivity|].
  cbn [jobs temp uploads with_uploads with_trace with_jobs with_faults logged].
  rewrite lookup_insert_eq.
  split; [reflexivity|]. split; [reflexivity|]. split; [reflexivity|]. split.
  - rewrite Ht3. subst w2. cbn [temp with_temp logged].
    rewrite lookup_alter_eq, lookup_insert_eq.
    replace (until_update (DeepWorker.mkCounters 0 0 0 0) + 10 * k) with (10 * (k + 1))
      by (unfold until_update; cbn [DeepWorker.processed]; mod_lia).
    reflexivity.
  - intros Hin. apply List.filter_In in Hin as [_ Hneq].
    rewrite String.eqb_refl in Hneq. discriminate.
Qed.

Lemma progress_failure_aborts_witness :
  jobs Scenario.world_rejecting !! "j1" = Some Scenario.job /\
  status Scenario.job = processing /\
  (temp_dir Scenario.world_rejecting = true \/ mkdir_fault Scenario.world_rejecting = None) /\
  faults Scenario.world_rejecting = replicate 0 None ++ Some "unavailable" :: None :: [] /\
  10 * (0 + 1) <= length (DeepWorker.kept (rows (mkStream (Scenario.numbered 11) None))) /\
  exists w' d,
    DeepWorker.processCsvJob "j1" "uploads/u1" (mkStream (Scenario.numbered 11) None)
      Scenario.world_rejecting = (Ok tt, w') /\
    jobs w' !! "j1" = Some d /\ status d = failed /\ error d = Some "unavailable".
Proof.
  assert (H1 : jobs Scenario.world_rejecting !! "j1" = Some Scenario.job) by reflexivity.
  assert (H2 : status Scenario.job = processing) by reflexivity.
  assert (H3 : temp_dir Scenario.world_rejecting = true \/
               mkdir_fault Scenario.world_rejecting = None) by (left; reflexivity).
  assert (H4 : faults Scenario.world_rejecting
               = replicate 0 None ++ Some "unavailable" :: None :: []) by reflexivity.
  assert (H5 : 10 * (0 + 1)
               <= length (DeepWorker.kept (rows (mkStream (Scenario.numbered 11) None))))
    by (vm_compute; lia).
  repeat (split; [assumption|]).
  destruct (progress_failure_aborts "j1" "uploads/u1" (mkStream (Scenario.numbered 11) None)
              Scenario.world_rejecting Scenario.job 0 "unavailable" [] H1 H2 H3 H4 H5)
    as (w' & d & Hrun & Hd & Hs & He & _).
  exists w', d. auto.
Defined.

(** C4 as stated fails: with eleven records and a store that rejects the
    first progress update, the job ends failed, and the eleventh record is
    never written. *)
Lemma progress_failure_counterexample :
  exists d out,
    let w' := snd (DeepWorker.processCsvJob "j1" "uploads/u1"
                     (mkStream (Scenario.numbered 11) None) Scenario.world_rejecting) in
    jobs w' !! "j1" = Some d /\ temp w' !! "results-j1.csv" = Some out /\
    status d = failed /\ status d <> completed /\
    length out = 10 /\ length (Scenario.numbered 11) = 11.
Proof.
  do 2 eexists. cbv zeta.
  split; [vm_compute; reflexivity|]. split; [vm_compute; reflexivity|].
  simpl. repeat split. discriminate.
Qed.

(** ** The download route *)

(** C5 (as amended).  A requested name that contains [..] or does not start
    with [results-] is denied, and the world is left as it was: no file-system
    call is made.  A name that passes this check and names no file of [temp/]
    is answered not-found, after the one existence test. *)
Theorem download_denied_before_fs (req : Server.Request) (w : World) :
  (Js.includes (Server.filename req) ".." = true \/
   Js.startsWith (Server.filename req) "results-" = false ->
   Server.download req w = (Ok (Server.Status 403 "Access Denied"), w)) /\
  (Js.includes (Server.filename req) ".." = false ->
   Js.startsWith (Server.filename req) "results-" = true ->
   temp w !! Server.filename req = None ->
   Server.download req w
   = (Ok (Server.Status 404 "File not found. It may have been deleted or expired."),
      logged (FsExists (in_temp (Server.filename req))) w)).
Proof.
  unfold Server.download. split.
  - intros [-> | ->]; [reflexivity|]. rewrite orb_true_r. reflexivity.
  - intros -> -> Hnone. simpl. unfold bind, existsSync. rewrite Hnone.
    rewrite bool_decide_eq_false_2 by (intros [x Hx]; discriminate). reflexivity.
Qed.

Lemma download_denied_before_fs_witness :
  (Js.includes "results-../../.env" ".." = true \/
   Js.startsWith "results-../../.env" "results-" = false) /\
  Server.download (Server.mkRequest None None "results-../../.env") Scenario.world_done
  = (Ok (Server.Status 403 "Access Denied"), Scenario.world_done).
Proof.
  assert (H : Js.includes "results-../../.env" ".." = true \/
              Js.startsWith "results-../../.env" "results-" = false) by (left; reflexivity).
  split; [exact H|].
  destruct (download_denied_before_fs (Server.mkRequest None None "results-../../.env")
              Scenario.world_done) as [Hdeny _].
  exact (Hdeny H).
Defined.

Lemma results_name_inv name jobId :
  name = results_name jobId ->
  name = "results-" +:+ jobId +:+ ".csv".
Proof. intros ->. reflexivity. Qed.

(** C5 as stated fails: [results-report.txt] is not of the form
    [results-<jobId>.csv], yet it is not denied: it is looked up on disk and
    answered not-found, or served when such a file exists. *)
Lemma download_denied_counterexample :
  ~ Spec.results_pattern "results-report.txt" /\
  fst (Server.download (Server.mkRequest None None "results-report.txt") Scenario.world)
  = Ok (Server.Status 404 "File not found. It may have been deleted or expired.") /\
  fslog (snd (Server.download (Server.mkRequest None None "results-report.txt") Scenario.world))
  = [FsExists "temp/results-report.txt"] /\
  fst (Server.download (Server.mkRequest None None "results-report.txt")
         (with_temp (insert "results-report.txt" [[("secret", "x")]]) Scenario.world))
  = Ok (Server.Download "results-report.txt" [[("secret", "x")]]).
Proof.
  split; [|repeat split].
  intros [jobId H]. apply results_name_inv in H. simpl in H.
  injection H as H.
  repeat (destruct jobId as [|? jobId]; simpl in H; [discriminate|]; injection H as _ H).
  destruct jobId; discriminate.
Qed.

(** C9.  The download route consults neither the request's credentials nor
    the job documents: two requests for the same name, in two worlds whose
    [temp/] directories agree, get the same response, and when the name passes
    the filter and the file exists that response is the file. *)
Theorem download_ignores_requester
    (req req' : Server.Request) (w w' : World) (content : list Js.obj) :
  Server.filename req = Server.filename req' ->
  temp w = temp w' ->
  Js.includes (Server.filename req) ".." = false ->
  Js.startsWith (Server.filename req) "results-" = true ->
  temp w !! Server.filename req = Some content ->
  fst (Server.download req w) = Ok (Server.Download (Server.filename req) content) /\
  fst (Server.download req' w') = fst (Server.download req w).
Proof.
  intros Hname Htemp Hdots Hprefix Hfile.
  unfold Server.download. rewrite <- Hname, Hdots, Hprefix. simpl.
  unfold bind, existsSync. rewrite <- Htemp, Hfile.
  rewrite bool_decide_eq_true_2 by eauto. simpl. rewrite <- Htemp, Hfile. split; reflexivity.
Qed.

Lemma download_ignores_requester_witness :
  Server.authenticateUser Scenario.token_uid Scenario.anonymous
  = inl (Server.Status 401 "Unauthorized") /\
  Server.authenticateUser Scenario.token_uid Scenario.mallory = inr "mallory" /\
  userId Scenario.job = "alice" /\
  fst (Server.download Scenario.anonymous Scenario.world_done)
  = fst (Server.download Scenario.mallory Scenario.world_done) /\
  fst (Server.download Scenario.mallory Scenario.world_done)
  = Ok (Server.Download "results-j1.csv"
          [ [("email", "a@b.com"); ("Validation Status", "Valid")];
            [("email", "not-an-email"); ("Validation Status", "Invalid")];
            [("email", ""); ("Validation Status", "Invalid")] ]).
Proof.
  split; [reflexivity|]. split; [reflexivity|]. split; [reflexivity|].
  destruct (download_ignores_requester Scenario.mallory Scenario.anonymous
              Scenario.world_done Scenario.world_done
              [ [("email", "a@b.com"); ("Validation Status", "Valid")];
                [("email", "not-an-email"); ("Validation Status", "Invalid")];
                [("email", ""); ("Validation Status", "Invalid")] ])
    as [Hfile Hsame]; try reflexivity.
  split; [exact Hsame|exact Hfile].
Defined.

(** ** The [totalEmails] field while a job is processing *)

Lemma total_untouched_ext w0 jobId w w' :
  jobs w' = jobs w -> trace w' = trace w ->
  total_untouched w0 jobId w -> total_untouched w0 jobId w'.
Proof. unfold total_untouched. intros -> ->. auto. Qed.

Lemma total_untouched_update w0 jobId p w :
  worker_patch p ->
  total_untouched w0 jobId w ->
  total_untouched w0 jobId (snd (doc_update jobId p w)).
Proof.
  intros [Hnp Hprog] [Hdoc (new & Htr & Hnew)].
  assert (Hacc : forall d fs,
             jobs w !! jobId = Some d ->
             total_untouched w0 jobId
               (with_trace (trace w ++ [(jobId, WUpdate p, apply_patch p d)])
                  (with_jobs (insert jobId (apply_patch p d)) (with_faults fs w)))).
  { intros d fs Hd.
    assert (Hq : status (apply_patch p d) = processing -> totalEmails (apply_patch p d) = 0).
    { simpl. destruct (p_status p) as [s|] eqn:Hs; simpl.
      - intros ->. congruence.
      - destruct (Hprog eq_refl) as (-> & _). simpl. apply Hdoc. assumption. }
    split.
    - intros d'. simpl. rewrite lookup_insert_eq. intros [= <-]. exact Hq.
    - exists (new ++ [(jobId, WUpdate p, apply_patch p d)]). simpl.
      rewrite Htr, <- app_assoc. split; [reflexivity|].
      apply Forall_app. split; [assumption|].
      constructor; [|constructor]. split; [reflexivity|]. split; [exact Hq|exact Hprog]. }
  assert (Hsame : forall fs, total_untouched w0 jobId (with_faults fs w)).
  { intros fs. split; [exact Hdoc|]. exists new. auto. }
  unfold doc_update, store_write.
  destruct (faults w) as [|[e|] fs]; cbn [snd tail jobs with_faults].
  - destruct (jobs w !! jobId) as [d|] eqn:Hd; cbn [snd]; auto.
  - apply Hsame.
  - destruct (jobs w !! jobId) as [d|] eqn:Hd; cbn [snd]; auto.
Qed.

Lemma progress_patch_ok c : worker_patch (DeepWorker.progress_patch c).
Proof. split; [discriminate|]. intros _. repeat split. Qed.

Lemma deep_final_patch_ok out c : worker_patch (DeepWorker.final_patch out c).
Proof. split; discriminate. Qed.

Lemma deep_failed_patch_ok e : worker_patch (DeepWorker.failed_patch e).
Proof. split; discriminate. Qed.

Lemma simple_final_patch_ok out c : worker_patch (Worker.final_patch out c).
Proof. split; discriminate. Qed.

Lemma simple_failed_patch_ok : worker_patch Worker.failed_patch.
Proof. split; discriminate. Qed.

Lemma deep_total_untouched w0 jobId filePath input w :
  total_untouched w0 jobId w ->
  total_untouched w0 jobId (snd (DeepWorker.processCsvJob jobId filePath input w)).
Proof.
  intros Hinv.
  destruct (DeepWorker.processCsvJob jobId filePath input w) as [r w'] eqn:Hrun.
  revert Hrun. unfold DeepWorker.processCsvJob. unfold bind at 1, ensureDir.
  assert (Hstep : forall w1 r w',
            total_untouched w0 jobId w1 ->
            (createWriteStream (results_name jobId) ;;
             finally
               (catch (DeepWorker.try_block jobId (results_name jobId) input)
                  (fun message => doc_update jobId (DeepWorker.failed_patch message)))
               (unlink filePath)) w1 = (r, w') ->
            total_untouched w0 jobId w').
  { clear. intros w1 r w' Hinv. unfold bind at 1, createWriteStream, modify.
    set (out := results_name jobId). set (w2 := with_temp _ _).
    assert (H2 : total_untouched w0 jobId w2)
      by (apply (total_untouched_ext w0 jobId w1); auto).
    unfold finally.
    assert (H4 : total_untouched w0 jobId
                   (snd (catch (DeepWorker.try_block jobId out input)
                           (fun message => doc_update jobId (DeepWorker.failed_patch message)) w2))).
    { unfold catch, DeepWorker.try_block. unfold bind at 1.
      destruct (for_await_inv (total_untouched w0 jobId) jobId out (rows input)
                  (DeepWorker.mkCounters 0 0 0 0) w2) as [HP _]; auto.
      { intros w c H. apply total_untouched_update; [apply progress_patch_ok|assumption]. }
      destruct (DeepWorker.for_await jobId out (rows input) _ w2) as [[c|e] w3]; cbn [snd] in HP.
      - destruct (ending input) as [err|]; unfold throw.
        + apply total_untouched_update; [apply deep_failed_patch_ok|assumption].
        + pose proof (total_untouched_update w0 jobId _ w3 (deep_final_patch_ok out c) HP) as H.
          destruct (doc_update jobId (DeepWorker.final_patch out c) w3) as [[[]|e] w4];
            cbn [snd] in *; [assumption|].
          apply total_untouched_update; [apply deep_failed_patch_ok|assumption].
      - apply total_untouched_update; [apply deep_failed_patch_ok|assumption]. }
    destruct (catch _ _ w2) as [r4 w4]. cbn [snd] in H4. rewrite unlink_spec.
    intros [= <- <-]. apply (total_untouched_ext w0 jobId w4); auto. }
  destruct (temp_dir w); [|simpl; destruct (mkdir_fault w)].
  - intros Hrun. exact (Hstep _ _ _ Hinv Hrun).
  - intros [= <- <-]. apply (total_untouched_ext w0 jobId w); auto.
  - intros Hrun. refine (Hstep _ _ _ _ Hrun). apply (total_untouched_ext w0 jobId w); auto.
Qed.

Lemma simple_total_untouched validate w0 jobId filePath input w :
  total_untouched w0 jobId w ->
  total_untouched w0 jobId (snd (Worker.processCsvJob validate jobId filePath input w)).
Proof.
  intros Hinv.
  destruct (Worker.processCsvJob validate jobId filePath input w) as [r w'] eqn:Hrun.
  revert Hrun. unfold Worker.processCsvJob. unfold bind at 1, settle. unfold bind at 1.
  destruct (ensure_temp_sync_cases w) as (r1 & w1 & -> & Hj1 & _ & Ht1 & _).
  assert (H1 : total_untouched w0 jobId w1) by (apply (total_untouched_ext w0 jobId w); auto).
  destruct r1 as [[]|e]; [|intros [= <- <-]; assumption].
  unfold createWriteStream, modify. unfold bind at 1. rewrite data_events_spec.
  set (c := Worker.tally validate (rows input) _). set (w2 := wrote _ _ _).
  assert (H2 : total_untouched w0 jobId w2) by (apply (total_untouched_ext w0 jobId w1); auto).
  destruct (ending input) as [err|].
  - unfold Worker.on_error, bind, settle.
    pose proof (total_untouched_update w0 jobId _ w2 simple_failed_patch_ok H2) as H.
    destruct (doc_update jobId Worker.failed_patch w2) as [[[]|e] w3];
      cbn [snd] in H; intros [= <- <-]; assumption.
  - unfold Worker.on_end, bind, settle.
    pose proof (total_untouched_update w0 jobId _ w2
                  (simple_final_patch_ok (results_name jobId) c) H2) as H.
    destruct (doc_update jobId (Worker.final_patch (results_name jobId) c) w2) as [[[]|e] w3];
      cbn [snd] in H; rewrite ?unlink_spec; intros [= <- <-]; [|assumption].
    apply (total_untouched_ext w0 jobId w3); auto.
Qed.

(** Whatever worker the route starts, if the worker keeps the invariant the
    whole request adds only quiet writes to the trace. *)
Lemma upload_trace_quiet
    (verifyIdToken : string -> option string)
    (worker : string -> string -> Stream -> M Outcome)
    (jobId : string) (req : Server.Request) (w : World) :
  (forall filePath input w1,
      total_untouched w jobId w1 ->
      total_untouched w jobId (snd (worker jobId filePath input w1))) ->
  exists new,
    trace (snd (Server.upload verifyIdToken worker jobId req w)) = trace w ++ new /\
    Forall (quiet jobId) new.
Proof.
  intros Hworker.
  destruct (Server.upload verifyIdToken worker jobId req w) as [r w'] eqn:Hrun.
  revert Hrun. unfold Server.upload. cbn [snd].
  destruct (Server.authenticateUser verifyIdToken req) as [denied|uid].
  { intros [= <- <-]. exists []. rewrite app_nil_r. auto. }
  destruct (Server.file req) as [f|].
  2:{ intros [= <- <-]. exists []. rewrite app_nil_r. auto. }
  assert (Hcreated : forall fs,
             total_untouched w jobId
               (with_trace
                  (trace w ++ [(jobId, WSet (Server.initial_job jobId uid (Server.originalname f)),
                                Server.initial_job jobId uid (Server.originalname f))])
                  (with_jobs (insert jobId (Server.initial_job jobId uid (Server.originalname f)))
                     (with_faults fs w)))).
  { intros fs. split.
    - intros d. simpl. rewrite lookup_insert_eq. intros [= <-]. reflexivity.
    - eexists. split; [reflexivity|]. constructor; [|constructor]. repeat split. }
  unfold catch, bind, settle, doc_set, store_write.
  destruct (faults w) as [|[e|] fs]; cbn [tail].
  - specialize (Hworker (Server.path f) (Server.parsed f) _ (Hcreated [])).
    cbn [trace with_faults jobs] in *.
    destruct (worker jobId (Server.path f) (Server.parsed f) _) as [r2 w2].
    intros [= <- <-]. exact (proj2 Hworker).
  - rewrite unlink_spec. intros [= <- <-]. exists []. rewrite app_nil_r. auto.
  - specialize (Hworker (Server.path f) (Server.parsed f) _ (Hcreated fs)).
    cbn [trace with_faults jobs] in *.
    destruct (worker jobId (Server.path f) (Server.parsed f) _) as [r2 w2].
    intros [= <- <-]. exact (proj2 Hworker).
Qed.

(** C10.  From the creation of the job by the upload route to the end of
    the worker's run, every accepted write leaves [totalEmails = 0] on a
    document that is still processing: the job is created with
    [totalEmails = 0] and every update that is not a terminal transition
    names only [processedCount] and [stats].  This holds with the worker of
    [backend/worker.js] and with the deep-validation variant. *)
Theorem total_unwritten_while_processing
    (verifyIdToken : string -> option string) (validate : string -> bool)
    (jobId : string) (req : Server.Request) (w : World) :
  (exists new,
      trace (snd (Server.upload verifyIdToken (Worker.processCsvJob validate) jobId req w))
      = trace w ++ new /\
      Forall (quiet jobId) new) /\
  (exists new,
      trace (snd (Server.upload verifyIdToken
                    (fun j filePath input => promise (DeepWorker.processCsvJob j filePath input))
                    jobId req w))
      = trace w ++ new /\
      Forall (quiet jobId) new).
Proof.
  split; apply upload_trace_quiet.
  - intros filePath input w1 H. apply simple_total_untouched. assumption.
  - intros filePath input w1 H. unfold promise, bind, settle.
    pose proof (deep_total_untouched w jobId filePath input w1 H) as H'.
    destruct (DeepWorker.processCsvJob jobId filePath input w1) as [[[]|e] w2]; exact H'.
Qed.

(** A run on the sample world: twenty records under the deep-validation
    variant; the poller sees [totalEmails = 0] after the creation and after
    both progress updates. *)
Example sample_polling :
  let req := Server.mkRequest (Some "Bearer alice")
               (Some (Server.mkFile "uploads/u1" "list.csv"
                        (mkStream (Scenario.numbered 20) None))) "" in
  let w' := snd (Server.upload Scenario.token_uid
                   (fun j filePath input => promise (DeepWorker.processCsvJob j filePath input))
                   "j2" req Scenario.world) in
  map (fun entry => (status (snd entry), processedCount (snd entry), totalEmails (snd entry)))
    (trace w')
  = [(processing, 0, 0); (processing, 10, 0); (processing, 20, 0); (completed, 20, 0)].
Proof. vm_compute. reflexivity. Qed.

(** * Further properties *)

(** ** The writes of a run *)

Lemma updates_app jobId d ps qs :
  updates jobId d (ps ++ qs) = updates jobId d ps ++ updates jobId (patched d ps) qs.
Proof.
  revert d. induction ps as [|p ps IH]; intros d; simpl; [reflexivity|].
  rewrite IH. reflexivity.
Qed.

Lemma patched_app d ps qs : patched (patched d ps) qs = patched d (ps ++ qs).
Proof. unfold patched. rewrite fold_left_app. reflexivity. Qed.

(** What one [update] does to the trace and to the document. *)
Lemma doc_update_run jobId p w d :
  jobs w !! jobId = Some d ->
  exists r w' ps,
    doc_update jobId p w = (r, w') /\
    trace w' = trace w ++ updates jobId d ps /\
    jobs w' !! jobId = Some (patched d ps) /\
    ((r = Ok tt /\ ps = [p]) \/ (exists e, r = Throw e /\ ps = [])).
Proof.
  intros Hd.
  destruct (doc_update_doc jobId p w d Hd)
    as (r & w' & Hrun & [(-> & Hd' & Ht)|(e & -> & Hj & Ht)]).
  - exists (Ok tt), w', [p]. simpl. eauto 10.
  - exists (Throw e), w', []. simpl. rewrite Ht, Hj, app_nil_r. eauto 10.
Qed.

(** The loop of the deep-validation worker gets a prefix of its progress
    reports accepted, all of them when it ends. *)
Lemma for_await_patches jobId out rs c w d :
  jobs w !! jobId = Some d ->
  exists r w' cs,
    DeepWorker.for_await jobId out rs c w = (r, w') /\
    cs `prefix_of` checkpoints rs c /\
    trace w' = trace w ++ updates jobId d (map DeepWorker.progress_patch cs) /\
    jobs w' !! jobId = Some (patched d (map DeepWorker.progress_patch cs)) /\
    (forall c', r = Ok c' -> cs = checkpoints rs c /\ c' = DeepWorker.tally rs c).
Proof.
  revert c w d. induction rs as [|row rs IH]; intros c w d Hd.
  - exists (Ok c), w, []. simpl. rewrite app_nil_r.
    split; [reflexivity|]. split; [apply prefix_nil|]. split; [reflexivity|].
    split; [assumption|]. intros c' [= <-]. auto.
  - destruct (Js.truthy (DeepWorker.email row)) eqn:Hem.
    + rewrite for_await_step, deep_tally_cons_kept by assumption.
      cbn [checkpoints]. rewrite Hem. cbv zeta.
      set (c1 := DeepWorker.count _ c).
      destruct (DeepWorker.processed c1 mod 10 =? 0).
      * destruct (doc_update_run jobId (DeepWorker.progress_patch c1)
                    (wrote out [DeepWorker.written row] w) d Hd)
          as (r1 & w1 & ps & -> & Ht1 & Hd1 & [(-> & ->)|(e & -> & ->)]).
        -- destruct (IH c1 w1 _ Hd1) as (r & w' & cs & -> & Hpre & Ht & Hd' & Hok).
           exists r, w', (c1 :: cs). split; [reflexivity|].
           split; [apply prefix_cons; assumption|].
           split; [rewrite Ht, Ht1; simpl; rewrite <- app_assoc; reflexivity|].
           split; [exact Hd'|].
           intros c2 Hr. destruct (Hok c2 Hr) as [-> ->]. auto.
        -- exists (Throw e), w1, []. split; [reflexivity|].
           split; [apply prefix_nil|]. split; [exact Ht1|]. split; [exact Hd1|].
           intros c' [=].
      * destruct (IH c1 (wrote out [DeepWorker.written row] w) d Hd)
          as (r & w' & cs & -> & Hpre & Ht & Hd' & Hok).
        exists r, w', cs. auto.
    + rewrite for_await_skip, deep_tally_cons_skipped by assumption.
      cbn [checkpoints]. rewrite Hem. apply IH. assumption.
Qed.

(** The accepted writes of a whole run of the deep-validation worker. *)
Lemma deep_run_patches jobId filePath input w d0 :
  jobs w !! jobId = Some d0 ->
  exists ps,
    deep_patches jobId input ps /\
    trace (snd (DeepWorker.processCsvJob jobId filePath input w))
    = trace w ++ updates jobId d0 ps /\
    jobs (snd (DeepWorker.processCsvJob jobId filePath input w)) !! jobId
    = Some (patched d0 ps).
Proof.
  intros Hd0.
  destruct (DeepWorker.processCsvJob jobId filePath input w) as [r w'] eqn:Hrun.
  cbn [snd]. revert Hrun.
  unfold DeepWorker.processCsvJob. unfold bind at 1, ensureDir.
  assert (Hnone : deep_patches jobId input []).
  { exists [], []. split; [reflexivity|]. split; [apply prefix_nil|]. auto. }
  assert (Hstep : forall w1 r w',
            jobs w1 = jobs w -> trace w1 = trace w ->
            (createWriteStream (results_name jobId) ;;
             finally
               (catch (DeepWorker.try_block jobId (results_name jobId) input)
                  (fun message => doc_update jobId (DeepWorker.failed_patch message)))
               (unlink filePath)) w1 = (r, w') ->
            exists ps, deep_patches jobId input ps /\
                       trace w' = trace w ++ updates jobId d0 ps /\
                       jobs w' !! jobId = Some (patched d0 ps)).
  { clear r w'. intros w1 r w' Hj1 Ht1. unfold bind at 1, createWriteStream, modify.
    set (out := results_name jobId). set (w2 := with_temp _ _).
    assert (Hd2 : jobs w2 !! jobId = Some d0) by (simpl; rewrite Hj1; assumption).
    unfold finally, catch, DeepWorker.try_block. unfold bind at 1.
    destruct (for_await_patches jobId out (rows input) (DeepWorker.mkCounters 0 0 0 0) w2 d0 Hd2)
      as (r3 & w3 & cs & -> & Hpre & Ht3 & Hd3 & Hok).
    assert (Ht3' : trace w3 = trace w ++ updates jobId d0 (map DeepWorker.progress_patch cs))
      by (rewrite Ht3; simpl; rewrite Ht1; reflexivity).
    clear Ht3.
    (* the handler of the [catch] *)
    assert (Hfail : forall e w4,
              jobs w4 = jobs w3 -> trace w4 = trace w3 ->
              forall r5 w5,
              finally (doc_update jobId (DeepWorker.failed_patch e)) (unlink filePath) w4
              = (r5, w5) ->
              exists ps, deep_patches jobId input ps /\
                         trace w5 = trace w ++ updates jobId d0 ps /\
                         jobs w5 !! jobId = Some (patched d0 ps)).
    { intros e w4 Hj4 Ht4 r5 w5. unfold finally.
      assert (Hd4 : jobs w4 !! jobId = Some (patched d0 (map DeepWorker.progress_patch cs)))
        by (rewrite Hj4; assumption).
      destruct (doc_update_run jobId (DeepWorker.failed_patch e) w4 _ Hd4)
        as (r6 & w6 & ps & -> & Ht6 & Hd6 & Hcase).
      rewrite unlink_spec. intros [= <- <-]. simpl.
      exists (map DeepWorker.progress_patch cs ++ ps).
      split; [|split].
      - exists cs, ps. split; [reflexivity|]. split; [assumption|].
        destruct Hcase as [(_ & ->)|(e' & _ & ->)]; eauto.
      - rewrite Ht6, Ht4, Ht3', updates_app, <- app_assoc. reflexivity.
      - rewrite Hd6, patched_app. reflexivity. }
    destruct r3 as [c|e].
    - destruct (Hok c eq_refl) as [-> ->].
      destruct (ending input) as [err|] eqn:Hend.
      + unfold throw. intros Hrun. exact (Hfail err w3 eq_refl eq_refl _ _ Hrun).
      + destruct (doc_update_run jobId
                    (DeepWorker.final_patch out
                       (DeepWorker.tally (rows input) (DeepWorker.mkCounters 0 0 0 0))) w3 _ Hd3)
          as (r6 & w6 & ps & Hupd & Ht6 & Hd6 & [(-> & ->)|(e & -> & ->)]); rewrite Hupd.
        * rewrite unlink_spec. intros [= <- <-]. simpl.
          eexists. split; [|split].
          -- eexists _, _. split; [reflexivity|]. split; [reflexivity|]. right. left. eauto.
          -- rewrite Ht6, Ht3', updates_app, <- app_assoc. reflexivity.
          -- rewrite Hd6, patched_app. reflexivity.
        * simpl in Ht6, Hd6. rewrite app_nil_r in Ht6.
          intros Hrun. refine (Hfail e w6 _ Ht6 _ _ Hrun).
          apply map_eq. intros j. destruct (decide (j = jobId)) as [->|Hne].
          -- rewrite Hd6, Hd3. reflexivity.
          -- pose proof (store_write_frame jobId
                           (WUpdate (DeepWorker.final_patch out
                              (DeepWorker.tally (rows input) (DeepWorker.mkCounters 0 0 0 0)))) w3)
               as (_ & _ & _ & _ & _ & Hother).
             unfold doc_update in Hupd. rewrite Hupd in Hother. apply Hother. assumption.
    - intros Hrun. exact (Hfail e w3 eq_refl eq_refl _ _ Hrun). }
  destruct (temp_dir w); [|simpl; destruct (mkdir_fault w)].
  - intros Hrun. refine (Hstep _ _ _ _ _ Hrun); reflexivity.
  - intros [= <- <-]. exists []. simpl. rewrite app_nil_r. auto.
  - intros Hrun. refine (Hstep _ _ _ _ _ Hrun); reflexivity.
Qed.

(** The accepted writes of a whole run of [backend/worker.js]. *)
Lemma simple_run_patches validate jobId filePath input w d0 :
  jobs w !! jobId = Some d0 ->
  exists ps,
    simple_patches validate jobId input ps /\
    trace (snd (Worker.processCsvJob validate jobId filePath input w))
    = trace w ++ updates jobId d0 ps /\
    jobs (snd (Worker.processCsvJob validate jobId filePath input w)) !! jobId
    = Some (patched d0 ps).
Proof.
  intros Hd0.
  destruct (Worker.processCsvJob validate jobId filePath input w) as [r w'] eqn:Hrun.
  cbn [snd]. revert Hrun.
  unfold Worker.processCsvJob. unfold bind at 1, settle. unfold bind at 1.
  destruct (ensure_temp_sync_cases w) as (r1 & w1 & -> & Hj1 & _ & Ht1 & _).
  destruct r1 as [[]|e].
  2:{ intros [= <- <-]. exists []. simpl. rewrite app_nil_r, Hj1, Ht1. split; [left|]; auto. }
  unfold createWriteStream, modify. unfold bind at 1. rewrite data_events_spec.
  set (c := Worker.tally validate (rows input) _). set (w2 := wrote _ _ _).
  assert (Hd2 : jobs w2 !! jobId = Some d0) by (simpl; rewrite Hj1; assumption).
  assert (Ht2 : trace w2 = trace w) by (simpl; assumption).
  unfold simple_patches.
  destruct (ending input) as [err|].
  - unfold Worker.on_error, bind, settle.
    destruct (doc_update_run jobId Worker.failed_patch w2 d0 Hd2)
      as (r3 & w3 & ps & -> & Ht3 & Hd3 & [(-> & ->)|(e & -> & ->)]);
      intros [= <- <-]; eexists; (split; [|split; [rewrite Ht3, Ht2; reflexivity|exact Hd3]]);
      auto.
  - unfold Worker.on_end, bind, settle.
    destruct (doc_update_run jobId (Worker.final_patch (results_name jobId) c) w2 d0 Hd2)
      as (r3 & w3 & ps & -> & Ht3 & Hd3 & [(-> & ->)|(e & -> & ->)]);
      rewrite ?unlink_spec; intros [= <- <-]; eexists;
      (split; [|split; [simpl; rewrite Ht3, Ht2; reflexivity|exact Hd3]]); auto.
Qed.

(** ** Facts about progress reports *)

Lemma updates_length jobId d ps : length (updates jobId d ps) = length ps.
Proof. revert d. induction ps as [|p ps IH]; intros d; simpl; [|rewrite IH]; reflexivity. Qed.

Lemma progress_keeps_status d cs :
  status (patched d (map DeepWorker.progress_patch cs)) = status d.
Proof.
  revert d. induction cs as [|c cs IH]; intros d; [reflexivity|].
  change (status (patched (apply_patch (DeepWorker.progress_patch c) d)
                    (map DeepWorker.progress_patch cs)) = status d).
  rewrite IH. reflexivity.
Qed.

(** A property of documents that every progress report of [cs] keeps
    holds of every snapshot the reports leave. *)
Lemma updates_progress_forall (Q : JobDoc -> Prop) jobId d cs :
  (forall c d, In c cs -> Q d -> Q (apply_patch (DeepWorker.progress_patch c) d)) ->
  Q d ->
  Forall (fun e => Q (snd e)) (updates jobId d (map DeepWorker.progress_patch cs)) /\
  Q (patched d (map DeepWorker.progress_patch cs)).
Proof.
  revert d. induction cs as [|c cs IH]; intros d Hkeep Hd; simpl.
  - split; [constructor|assumption].
  - assert (Hd' : Q (apply_patch (DeepWorker.progress_patch c) d))
      by (apply Hkeep; simpl; auto).
    destruct (IH _ (fun c0 d0 Hin => Hkeep c0 d0 (or_intror Hin)) Hd') as [H1 H2].
    split; [constructor; assumption|exact H2].
Qed.

Lemma checkpoints_forall (I : DeepWorker.Counters -> Prop) rs c :
  (forall r c, I c -> I (DeepWorker.count r c)) ->
  I c -> Forall I (checkpoints rs c).
Proof.
  intros Hcount. revert c. induction rs as [|row rs IH]; intros c Hc; simpl; [constructor|].
  destruct (Js.truthy (DeepWorker.email row)); [|auto].
  destruct (_ =? 0); [constructor|]; auto.
Qed.

Lemma count_balanced r c : balanced c -> balanced (DeepWorker.count r c).
Proof.
  unfold balanced. intros H.
  rewrite deep_count_sum, deep_count_processed. lia.
Qed.

Lemma tally_balanced rs c : balanced c -> balanced (DeepWorker.tally rs c).
Proof.
  unfold balanced. intros H. rewrite deep_tally_sum, deep_tally_processed. lia.
Qed.

Lemma prefix_Forall {A} (P : A -> Prop) (l k : list A) :
  l `prefix_of` k -> Forall P k -> Forall P l.
Proof. intros [t ->] H. apply Forall_app in H. tauto. Qed.

Lemma prefix_In {A} (l k : list A) x : l `prefix_of` k -> In x l -> In x k.
Proof. intros [t ->] H. apply in_or_app. auto. Qed.

(** The processed counts of the checkpoints: the multiples of ten among
    the counts the loop goes through. *)
Lemma checkpoints_processed rs c :
  map DeepWorker.processed (checkpoints rs c)
  = List.filter (fun m => m mod 10 =? 0)
      (seq (DeepWorker.processed c + 1) (length (DeepWorker.kept rs))).
Proof.
  revert c. induction rs as [|row rs IH]; intros c; [reflexivity|].
  cbn [checkpoints]. destruct (Js.truthy (DeepWorker.email row)) eqn:Hem.
  - rewrite kept_cons_true by assumption. cbn [length seq List.filter].
    cbv zeta. rewrite deep_count_processed.
    replace (S (DeepWorker.processed c + 1)) with (DeepWorker.processed c + 1 + 1) by lia.
    destruct ((DeepWorker.processed c + 1) mod 10 =? 0); cbn [map];
      rewrite IH, deep_count_processed; reflexivity.
  - rewrite kept_cons_false by assumption. apply IH.
Qed.

Lemma updates_progress_counts jobId d cs :
  map (fun e => processedCount (snd e)) (updates jobId d (map DeepWorker.progress_patch cs))
  = map DeepWorker.processed cs.
Proof.
  revert d. induction cs as [|c cs IH]; intros d; simpl; [reflexivity|].
  rewrite IH. reflexivity.
Qed.

(** ** Snapshots of a job *)

(** The new entries of a run are the updates of the patches it got
    accepted. *)
Lemma written_by_patches validate jobId filePath input w d0 new :
  jobs w !! jobId = Some d0 ->
  written_by validate jobId filePath input w new ->
  exists ps, new = updates jobId d0 ps /\
             (simple_patches validate jobId input ps \/ deep_patches jobId input ps).
Proof.
  intros Hd0 [Hnew|Hnew].
  - destruct (simple_run_patches validate jobId filePath input w d0 Hd0) as (ps & Hps & Ht & _).
    rewrite Ht in Hnew. apply app_inv_head in Hnew. eauto.
  - destruct (deep_run_patches jobId filePath input w d0 Hd0) as (ps & Hps & Ht & _).
    rewrite Ht in Hnew. apply app_inv_head in Hnew. eauto.
Qed.

(** A property of documents that holds at the start and that every patch
    of the workers carries over from a processing document holds of every
    snapshot of the run. *)
Lemma snapshots_forall (Q : JobDoc -> Prop) validate jobId filePath input w d0 new :
  jobs w !! jobId = Some d0 -> status d0 = processing ->
  written_by validate jobId filePath input w new ->
  Q d0 ->
  (forall c d, In c (checkpoints (rows input) (DeepWorker.mkCounters 0 0 0 0)) ->
               Q d -> status d = processing ->
               Q (apply_patch (DeepWorker.progress_patch c) d)) ->
  (forall d, Q d -> status d = processing ->
             Q (apply_patch (DeepWorker.final_patch (results_name jobId)
                               (DeepWorker.tally (rows input) (DeepWorker.mkCounters 0 0 0 0))) d)) ->
  (forall e d, Q d -> status d = processing ->
               Q (apply_patch (DeepWorker.failed_patch e) d)) ->
  (forall d, Q d -> status d = processing ->
             Q (apply_patch (Worker.final_patch (results_name jobId)
                               (Worker.tally validate (rows input) (Worker.mkCounters 0 0 0))) d)) ->
  (forall d, Q d -> status d = processing -> Q (apply_patch Worker.failed_patch d)) ->
  Forall (fun e => Q (snd e)) new.
Proof.
  intros Hd0 Hs0 Hnew HQ0 Hprog Hfin Hfail Hsfin Hsfail.
  destruct (written_by_patches _ _ _ _ _ _ _ Hd0 Hnew) as (ps & -> & [Hps|Hps]).
  - destruct Hps as [->|Hps]; [constructor|].
    destruct (ending input); subst ps; simpl; repeat constructor; simpl; auto.
  - destruct Hps as (cs & fin & -> & Hpre & Hfin').
    rewrite updates_app. apply Forall_app.
    destruct (updates_progress_forall (fun d => Q d /\ status d = processing) jobId d0 cs)
      as [H1 [H2 H3]].
    { intros c d Hin [Hq Hs]. split; [|exact Hs].
      apply Hprog; auto. eapply prefix_In; eauto. }
    { auto. }
    split.
    + eapply Forall_impl; [exact H1|]. simpl. tauto.
    + destruct Hfin' as [->|[(-> & _ & _)|(e & ->)]]; simpl; repeat constructor; simpl; auto.
Qed.

Lemma lookup_init {A} (P : A -> Prop) (init fin : list A) i x :
  Forall P init -> length fin <= 1 ->
  (init ++ fin) !! i = Some x -> S i < length (init ++ fin) -> P x.
Proof.
  intros Hall Hfin Hi Hlen. rewrite length_app in Hlen.
  rewrite lookup_app_l in Hi by lia.
  rewrite Forall_lookup in Hall. eauto.
Qed.

(** X1.  Terminal transitions come last.  In the entries that a run of
    either worker adds to the trace of a job that was processing, every
    snapshot but the last one is still processing: the run writes a terminal
    state at most once and writes nothing after it. *)
Theorem terminal_write_is_last
    (validate : string -> bool) (jobId filePath : string) (input : Stream)
    (w : World) (d0 : JobDoc) (new : list (string * Write * JobDoc)) :
  jobs w !! jobId = Some d0 -> status d0 = processing ->
  written_by validate jobId filePath input w new ->
  forall i e, new !! i = Some e -> S i < length new -> status (snd e) = processing.
Proof.
  intros Hd0 Hs0 Hnew i e Hi Hlen.
  destruct (written_by_patches _ _ _ _ _ _ _ Hd0 Hnew) as (ps & -> & [Hps|Hps]).
  - rewrite updates_length in Hlen.
    destruct Hps as [->|Hps]; [simpl in Hlen; lia|].
    destruct (ending input); subst ps; simpl in Hlen; lia.
  - destruct Hps as (cs & fin & -> & Hpre & Hfin).
    rewrite updates_app in Hi, Hlen.
    refine (lookup_init (fun e => status (snd e) = processing) _ _ i e _ _ Hi Hlen).
    + destruct (updates_progress_forall (fun d => status d = processing) jobId d0 cs)
        as [H _]; auto.
    + rewrite updates_length.
      destruct Hfin as [->|[(-> & _)|(e' & ->)]]; simpl; lia.
Qed.

Lemma terminal_write_is_last_witness :
  jobs Scenario.world !! "j1" = Some Scenario.job /\
  status Scenario.job = processing /\
  let new := trace (snd (DeepWorker.processCsvJob "j1" "uploads/u1"
                           (mkStream (Scenario.numbered 20) None) Scenario.world)) in
  length new = 3 /\
  forall i e, new !! i = Some e -> S i < length new -> status (snd e) = processing.
Proof.
  assert (H1 : jobs Scenario.world !! "j1" = Some Scenario.job) by reflexivity.
  assert (H2 : status Scenario.job = processing) by reflexivity.
  split; [exact H1|]. split; [exact H2|]. cbv zeta. split; [vm_compute; reflexivity|].
  apply (terminal_write_is_last Scenario.has_at "j1" "uploads/u1"
           (mkStream (Scenario.numbered 20) None) Scenario.world Scenario.job _ H1 H2).
  right. vm_compute. reflexivity.
Defined.

(** X2.  Counts stay consistent.  When a run of either worker starts on a
    processing job whose three counts sum to [processedCount], they do so in
    every snapshot the run leaves in the store, intermediate or terminal. *)
Theorem snapshot_counts_consistent
    (validate : string -> bool) (jobId filePath : string) (input : Stream)
    (w : World) (d0 : JobDoc) (new : list (string * Write * JobDoc)) :
  jobs w !! jobId = Some d0 -> status d0 = processing ->
  total (stats d0) = processedCount d0 ->
  written_by validate jobId filePath input w new ->
  Forall (fun e => total (stats (snd e)) = processedCount (snd e)) new.
Proof.
  intros Hd0 Hs0 Hsum Hnew.
  assert (Hcps : Forall balanced (checkpoints (rows input) (DeepWorker.mkCounters 0 0 0 0))).
  { apply checkpoints_forall; [intros; apply count_balanced; assumption|reflexivity]. }
  rewrite List.Forall_forall in Hcps.
  apply (snapshots_forall (fun d => total (stats d) = processedCount d)
           validate jobId filePath input w d0 new Hd0 Hs0 Hnew Hsum).
  - intros c d Hin _ _. simpl. apply (Hcps c Hin).
  - intros d _ _. simpl. apply (tally_balanced (rows input) (DeepWorker.mkCounters 0 0 0 0)).
    reflexivity.
  - intros e d Hq _. exact Hq.
  - intros d _ _. reflexivity.
  - intros d Hq _. exact Hq.
Qed.

Lemma snapshot_counts_consistent_witness :
  jobs Scenario.world !! "j1" = Some Scenario.job /\
  status Scenario.job = processing /\
  total (stats Scenario.job) = processedCount Scenario.job /\
  Forall (fun e => total (stats (snd e)) = processedCount (snd e))
    (trace (snd (DeepWorker.processCsvJob "j1" "uploads/u1"
                   (mkStream (Scenario.numbered 20) None) Scenario.world))).
Proof.
  assert (H1 : jobs Scenario.world !! "j1" = Some Scenario.job) by reflexivity.
  assert (H2 : status Scenario.job = processing) by reflexivity.
  assert (H3 : total (stats Scenario.job) = processedCount Scenario.job) by reflexivity.
  split; [exact H1|]. split; [exact H2|]. split; [exact H3|].
  apply (snapshot_counts_consistent Scenario.has_at "j1" "uploads/u1"
           (mkStream (Scenario.numbered 20) None) Scenario.world Scenario.job _ H1 H2 H3).
  right. vm_compute. reflexivity.
Defined.

(** X3.  The download link goes with completion.  When a run of either
    worker starts on a processing job without a download link, every
    snapshot it leaves has the link [/api/download/results-<jobId>.csv] if it
    is completed and no link otherwise: a failed or processing job never
    advertises a download, and the link is built from the job id alone. *)
Theorem download_link_iff_completed
    (validate : string -> bool) (jobId filePath : string) (input : Stream)
    (w : World) (d0 : JobDoc) (new : list (string * Write * JobDoc)) :
  jobs w !! jobId = Some d0 -> status d0 = processing -> downloadUrl d0 = None ->
  written_by validate jobId filePath input w new ->
  Forall (fun e => downloadUrl (snd e)
                   = match status (snd e) with
                     | completed => Some ("/api/download/results-" +:+ jobId +:+ ".csv")
                     | _ => None
                     end) new.
Proof.
  intros Hd0 Hs0 Hurl Hnew.
  refine (snapshots_forall
           (fun d => downloadUrl d = match status d with
                                     | completed =>
                                         Some ("/api/download/results-" +:+ jobId +:+ ".csv")
                                     | _ => None
                                     end)
           validate jobId filePath input w d0 new Hd0 Hs0 Hnew _ _ _ _ _ _).
  - rewrite Hs0. exact Hurl.
  - intros c d _ Hq Hs. simpl. rewrite Hs in *. exact Hq.
  - intros d _ _. reflexivity.
  - intros e d Hq Hs. simpl. rewrite Hs in Hq. exact Hq.
  - intros d _ _. reflexivity.
  - intros d Hq Hs. simpl. rewrite Hs in Hq. exact Hq.
Qed.

Lemma download_link_iff_completed_witness :
  jobs Scenario.world !! "j1" = Some Scenario.job /\
  status Scenario.job = processing /\ downloadUrl Scenario.job = None /\
  map (fun e => (status (snd e), downloadUrl (snd e)))
    (trace (snd (Worker.processCsvJob Scenario.has_at "j1" "uploads/u1"
                   (mkStream Scenario.three_rows None) Scenario.world)))
  = [(completed, Some "/api/download/results-j1.csv")].
Proof.
  assert (H1 : jobs Scenario.world !! "j1" = Some Scenario.job) by reflexivity.
  assert (H2 : status Scenario.job = processing) by reflexivity.
  assert (H3 : downloadUrl Scenario.job = None) by reflexivity.
  split; [exact H1|]. split; [exact H2|]. split; [exact H3|].
  assert (Hnew : written_by Scenario.has_at "j1" "uploads/u1"
                   (mkStream Scenario.three_rows None) Scenario.world
                   (trace (snd (Worker.processCsvJob Scenario.has_at "j1" "uploads/u1"
                                  (mkStream Scenario.three_rows None) Scenario.world))))
    by (left; vm_compute; reflexivity).
  pose proof (download_link_iff_completed Scenario.has_at "j1" "uploads/u1"
                (mkStream Scenario.three_rows None) Scenario.world Scenario.job _ H1 H2 H3
                Hnew) as H.
  vm_compute. reflexivity.
Defined.

(** ** The sequence of processed counts *)

Lemma sorted_seq a n : StronglySorted le (seq a n).
Proof.
  revert a. induction n as [|n IH]; intros a; simpl; constructor; [apply IH|].
  apply List.Forall_forall. intros x Hx. apply in_seq in Hx. lia.
Qed.

Lemma sorted_filter (f : nat -> bool) l :
  StronglySorted le l -> StronglySorted le (List.filter f l).
Proof.
  induction 1 as [|x l Hl IH Hx]; simpl; [constructor|].
  destruct (f x); [|assumption]. constructor; [assumption|].
  apply List.Forall_forall. intros y Hy. apply List.filter_In in Hy as [Hy _].
  rewrite List.Forall_forall in Hx. auto.
Qed.

Lemma sorted_app_l (l k : list nat) : StronglySorted le (l ++ k) -> StronglySorted le l.
Proof.
  induction l as [|x l IH]; simpl; intros H; [constructor|].
  inversion H as [|? ? Hs Hx]; subst. constructor; [auto|].
  apply Forall_app in Hx. tauto.
Qed.

Lemma sorted_snoc_inv (l : list nat) y :
  StronglySorted le (l ++ [y]) -> Forall (fun x => x <= y) l.
Proof.
  induction l as [|x l IH]; simpl; intros H; [constructor|].
  inversion H as [|? ? Hs Hx]; subst. constructor; [|auto].
  apply Forall_app in Hx as [_ Hy]. inversion Hy; subst. assumption.
Qed.

Lemma sorted_snoc (l : list nat) y :
  StronglySorted le l -> Forall (fun x => x <= y) l -> StronglySorted le (l ++ [y]).
Proof.
  induction 1 as [|x l Hl IH Hx]; simpl; intros Hy.
  - repeat constructor.
  - inversion Hy; subst. constructor; [auto|].
    apply Forall_app. split; [assumption|]. repeat constructor. assumption.
Qed.

Lemma checkpoints_sorted rs c :
  StronglySorted le (map DeepWorker.processed (checkpoints rs c)).
Proof. rewrite checkpoints_processed. apply sorted_filter, sorted_seq. Qed.

Lemma checkpoints_below rs c :
  Forall (fun m => m <= DeepWorker.processed (DeepWorker.tally rs c))
    (map DeepWorker.processed (checkpoints rs c)).
Proof.
  rewrite checkpoints_processed, deep_tally_processed.
  apply List.Forall_forall. intros m Hm.
  apply List.filter_In in Hm as [Hm _]. apply in_seq in Hm. lia.
Qed.

Lemma patched_progress_snoc d cs c :
  patched d (map DeepWorker.progress_patch (cs ++ [c]))
  = apply_patch (DeepWorker.progress_patch c) (patched d (map DeepWorker.progress_patch cs)).
Proof. unfold patched. rewrite map_app, fold_left_app. reflexivity. Qed.

(** The counts a run of the deep-validation worker leaves behind are in
    ascending order, a failure patch repeating the last one. *)
Lemma deep_counts_sorted jobId input d0 ps :
  deep_patches jobId input ps ->
  StronglySorted le (map (fun e => processedCount (snd e)) (updates jobId d0 ps)).
Proof.
  intros (cs & fin & -> & Hpre & Hfin).
  rewrite updates_app, map_app, updates_progress_counts.
  assert (Hcs : StronglySorted le (map DeepWorker.processed cs)).
  { destruct Hpre as [t Ht].
    pose proof (checkpoints_sorted (rows input) (DeepWorker.mkCounters 0 0 0 0)) as H.
    rewrite Ht, map_app in H. eapply sorted_app_l; eauto. }
  destruct Hfin as [->|[(-> & -> & _)|(e & ->)]]; simpl.
  - rewrite app_nil_r. assumption.
  - apply sorted_snoc; [assumption|]. apply checkpoints_below.
  - clear Hpre. induction cs as [|c cs' _] using rev_ind.
    + repeat constructor.
    + rewrite patched_progress_snoc. simpl.
      apply sorted_snoc; [assumption|].
      rewrite map_app in *. simpl in *. apply Forall_app. split.
      * apply sorted_snoc_inv. assumption.
      * repeat constructor.
Qed.

(** X4.  Progress never goes back.  In the snapshots a run of either
    worker leaves in the store, [processedCount] is in ascending order. *)
Theorem processed_count_ascends
    (validate : string -> bool) (jobId filePath : string) (input : Stream)
    (w : World) (d0 : JobDoc) (new : list (string * Write * JobDoc)) :
  jobs w !! jobId = Some d0 ->
  written_by validate jobId filePath input w new ->
  StronglySorted le (map (fun e => processedCount (snd e)) new).
Proof.
  intros Hd0 Hnew.
  destruct (written_by_patches _ _ _ _ _ _ _ Hd0 Hnew) as (ps & -> & [Hps|Hps]).
  - destruct Hps as [->|Hps]; [constructor|].
    destruct (ending input); subst ps; simpl; repeat constructor.
  - apply deep_counts_sorted with (input := input). assumption.
Qed.

Lemma processed_count_ascends_witness :
  jobs Scenario.world !! "j1" = Some Scenario.job /\
  StronglySorted le
    (map (fun e => processedCount (snd e))
       (trace (snd (DeepWorker.processCsvJob "j1" "uploads/u1"
                      (mkStream (Scenario.numbered 25) (Some "read failed")) Scenario.world)))).
Proof.
  assert (H1 : jobs Scenario.world !! "j1" = Some Scenario.job) by reflexivity.
  split; [exact H1|].
  apply (processed_count_ascends Scenario.has_at "j1" "uploads/u1"
           (mkStream (Scenario.numbered 25) (Some "read failed")) Scenario.world
           Scenario.job _ H1).
  right. vm_compute. reflexivity.
Defined.

(** X5.  Progress is reported every ten records.  When a run of the
    deep-validation worker takes a processing job to completed, the
    [processedCount] values it left in the store are exactly the multiples of
    ten up to the number [n] of kept records, in ascending order, followed by
    [n] itself. *)
Theorem progress_every_ten
    (jobId filePath : string) (input : Stream) (w : World) (d0 d : JobDoc)
    (new : list (string * Write * JobDoc)) :
  jobs w !! jobId = Some d0 -> status d0 = processing ->
  jobs (snd (DeepWorker.processCsvJob jobId filePath input w)) !! jobId = Some d ->
  status d = completed ->
  trace (snd (DeepWorker.processCsvJob jobId filePath input w)) = trace w ++ new ->
  map (fun e => processedCount (snd e)) new
  = List.filter (fun m => m mod 10 =? 0) (seq 1 (length (DeepWorker.kept (rows input))))
    ++ [length (DeepWorker.kept (rows input))].
Proof.
  intros Hd0 Hs0 Hd Hs Hnew.
  destruct (deep_run_patches jobId filePath input w d0 Hd0)
    as (ps & (cs & fin & -> & Hpre & Hfin) & Ht & Hj).
  rewrite Ht in Hnew. apply app_inv_head in Hnew. subst new.
  rewrite Hj in Hd. injection Hd as <-.
  rewrite <- patched_app in Hs.
  destruct Hfin as [->|[(-> & -> & _)|(e & ->)]].
  - simpl in Hs. rewrite progress_keeps_status in Hs. congruence.
  - rewrite updates_app, map_app, updates_progress_counts, checkpoints_processed. simpl.
    rewrite deep_tally_processed. reflexivity.
  - simpl in Hs. discriminate.
Qed.

Lemma progress_every_ten_witness :
  jobs Scenario.world !! "j1" = Some Scenario.job /\
  status Scenario.job = processing /\
  map (fun e => processedCount (snd e))
    (trace (snd (DeepWorker.processCsvJob "j1" "uploads/u1"
                   (mkStream (Scenario.numbered 25) None) Scenario.world)))
  = [10; 20; 25].
Proof.
  assert (H1 : jobs Scenario.world !! "j1" = Some Scenario.job) by reflexivity.
  assert (H2 : status Scenario.job = processing) by reflexivity.
  split; [exact H1|]. split; [exact H2|].
  rewrite (progress_every_ten "j1" "uploads/u1" (mkStream (Scenario.numbered 25) None)
             Scenario.world Scenario.job
             (patched Scenario.job
                (map DeepWorker.progress_patch
                   (checkpoints (Scenario.numbered 25) (DeepWorker.mkCounters 0 0 0 0))
                 ++ [DeepWorker.final_patch "results-j1.csv"
                       (DeepWorker.tally (Scenario.numbered 25) (DeepWorker.mkCounters 0 0 0 0))]))
             _ H1 H2); try (vm_compute; reflexivity).
Defined.

(** ** The copies of the worker *)

(** X6.  The second copy of the syntax-only worker, which keeps
    [riskyCount] as a constant and sums two counts instead of three, runs
    exactly as [backend/worker.js] does: same outcome and same world, for
    every validator, job, stream and starting world. *)
Theorem cloud_copy_runs_alike
    (validate : string -> bool) (jobId filePath : string) (input : Stream) (w : World) :
  CloudWorker.processCsvJob validate jobId filePath input w
  = Worker.processCsvJob validate jobId filePath input w.
Proof. apply cloud_worker_agrees. Qed.

(** ** A run keeps to its own job *)

Lemma same_elsewhere_refl jobId filePath w : same_elsewhere jobId filePath w w.
Proof. unfold same_elsewhere. split; [|split]; intros; reflexivity. Qed.

Lemma same_elsewhere_trans jobId filePath w1 w2 w3 :
  same_elsewhere jobId filePath w1 w2 -> same_elsewhere jobId filePath w2 w3 ->
  same_elsewhere jobId filePath w1 w3.
Proof.
  intros (A1 & B1 & C1) (A2 & B2 & C2). split; [|split].
  - intros j Hj. rewrite A2, A1; auto.
  - intros n Hn. rewrite B2, B1; auto.
  - intros p Hp. rewrite C2, C1; tauto.
Qed.

Lemma same_elsewhere_ext jobId filePath w w' :
  jobs w' = jobs w -> temp w' = temp w -> uploads w' = uploads w ->
  same_elsewhere jobId filePath w w'.
Proof.
  intros H1 H2 H3. unfold same_elsewhere. rewrite H1, H2, H3.
  split; [|split]; intros; reflexivity.
Qed.

Lemma same_elsewhere_store jobId filePath wr w :
  same_elsewhere jobId filePath w (snd (store_write jobId wr w)).
Proof.
  destruct (store_write_frame jobId wr w) as (Hu & _ & _ & Ht & _ & Hj).
  unfold same_elsewhere. rewrite Hu, Ht.
  split; [exact Hj|]. split; intros; reflexivity.
Qed.

Lemma same_elsewhere_wrote jobId filePath rs w :
  same_elsewhere jobId filePath w (wrote (results_name jobId) rs w).
Proof.
  unfold same_elsewhere. simpl. split; [intros; reflexivity|]. split; [|tauto].
  intros name Hne. rewrite lookup_alter_ne by congruence. reflexivity.
Qed.

Lemma same_elsewhere_create jobId filePath w :
  same_elsewhere jobId filePath w (snd (createWriteStream (results_name jobId) w)).
Proof.
  unfold same_elsewhere. simpl. split; [intros; reflexivity|]. split; [|tauto].
  intros name Hne. rewrite lookup_insert_ne by congruence. reflexivity.
Qed.

Lemma same_elsewhere_unlink jobId filePath w :
  same_elsewhere jobId filePath w (snd (unlink filePath w)).
Proof.
  unfold same_elsewhere. simpl. split; [intros; reflexivity|]. split; [intros; reflexivity|].
  intros p Hp. rewrite List.filter_In. split; [tauto|]. intros Hin. split; [assumption|].
  destruct (String.eqb_spec p filePath); [contradiction|reflexivity].
Qed.

Lemma simple_run_elsewhere validate jobId filePath input w :
  same_elsewhere jobId filePath w (snd (Worker.processCsvJob validate jobId filePath input w)).
Proof.
  destruct (Worker.processCsvJob validate jobId filePath input w) as [r w'] eqn:Hrun.
  cbn [snd]. revert Hrun.
  unfold Worker.processCsvJob. unfold bind at 1, settle. unfold bind at 1.
  destruct (ensure_temp_sync_cases w) as (r1 & w1 & -> & Hj1 & _ & _ & Hu1 & Ht1 & _).
  assert (H1 : same_elsewhere jobId filePath w w1) by (apply same_elsewhere_ext; assumption).
  destruct r1 as [[]|e]; [|intros [= <- <-]; assumption].
  pose proof (same_elsewhere_create jobId filePath w1) as H2.
  destruct (createWriteStream (results_name jobId) w1) as [r2 w2] eqn:Hc.
  unfold createWriteStream, modify in Hc. injection Hc as <- Hw2. cbn [snd] in H2.
  unfold bind at 1. rewrite data_events_spec.
  pose proof (same_elsewhere_wrote jobId filePath
                (map (Worker.annotate validate) (rows input)) w2) as H3.
  set (w3 := wrote _ _ w2) in *.
  assert (H03 : same_elsewhere jobId filePath w w3)
    by (eapply same_elsewhere_trans; [eapply same_elsewhere_trans|]; eassumption).
  destruct (ending input) as [err|].
  - unfold Worker.on_error, bind, settle, doc_update.
    pose proof (same_elsewhere_store jobId filePath (WUpdate Worker.failed_patch) w3) as H4.
    destruct (store_write jobId _ w3) as [[[]|e] w4]; cbn [snd] in H4;
      intros [= <- <-]; eapply same_elsewhere_trans; eassumption.
  - unfold Worker.on_end, bind, settle, doc_update.
    match goal with |- context [store_write jobId ?p w3] =>
      pose proof (same_elsewhere_store jobId filePath p w3) as H4;
      destruct (store_write jobId p w3) as [[[]|e] w4] end; cbn [snd] in H4.
    + pose proof (same_elsewhere_unlink jobId filePath w4) as H5.
      rewrite unlink_spec in *. cbn [snd] in H5. intros [= <- <-].
      eapply same_elsewhere_trans; [eapply same_elsewhere_trans|]; eassumption.
    + intros [= <- <-]. eapply same_elsewhere_trans; eassumption.
Qed.

Lemma deep_run_elsewhere jobId filePath input w :
  same_elsewhere jobId filePath w (snd (DeepWorker.processCsvJob jobId filePath input w)).
Proof.
  destruct (DeepWorker.processCsvJob jobId filePath input w) as [r w'] eqn:Hrun.
  cbn [snd]. revert Hrun.
  unfold DeepWorker.processCsvJob. unfold bind at 1, ensureDir.
  assert (Hstep : forall w1 r w',
            same_elsewhere jobId filePath w w1 ->
            (createWriteStream (results_name jobId) ;;
             finally
               (catch (DeepWorker.try_block jobId (results_name jobId) input)
                  (fun message => doc_update jobId (DeepWorker.failed_patch message)))
               (unlink filePath)) w1 = (r, w') ->
            same_elsewhere jobId filePath w w').
  { clear r w'. intros w1 r w' H1. unfold bind at 1.
    pose proof (same_elsewhere_create jobId filePath w1) as H2.
    destruct (createWriteStream (results_name jobId) w1) as [r2 w2] eqn:Hc.
    unfold createWriteStream, modify in Hc. injection Hc as <- Hw2. cbn [snd] in H2.
    assert (H02 : same_elsewhere jobId filePath w w2)
      by (eapply same_elsewhere_trans; eassumption).
    clear H1 H2 Hw2.
    unfold finally.
    assert (H4 : same_elsewhere jobId filePath w
                   (snd (catch (DeepWorker.try_block jobId (results_name jobId) input)
                           (fun message => doc_update jobId (DeepWorker.failed_patch message))
                           w2))).
    { unfold catch, DeepWorker.try_block. unfold bind at 1.
      destruct (for_await_inv (same_elsewhere jobId filePath w) jobId (results_name jobId)
                  (rows input) (DeepWorker.mkCounters 0 0 0 0) w2) as [HP _].
      { intros w0 row H. eapply same_elsewhere_trans; [exact H|].
        apply same_elsewhere_wrote. }
      { intros w0 c H. eapply same_elsewhere_trans; [exact H|].
        apply same_elsewhere_store. }
      { exact H02. }
      destruct (DeepWorker.for_await jobId (results_name jobId) (rows input) _ w2)
        as [[c|e] w3]; cbn [snd] in HP.
      - destruct (ending input) as [err|]; unfold throw.
        + eapply same_elsewhere_trans; [exact HP|]. apply same_elsewhere_store.
        + pose proof (same_elsewhere_store jobId filePath
                        (WUpdate (DeepWorker.final_patch (results_name jobId) c)) w3) as H5.
          unfold doc_update.
          destruct (store_write jobId (WUpdate (DeepWorker.final_patch _ c)) w3)
            as [[[]|e] w4]; cbn [snd] in *.
          * eapply same_elsewhere_trans; eassumption.
          * eapply same_elsewhere_trans; [eapply same_elsewhere_trans; eassumption|].
            apply same_elsewhere_store.
      - eapply same_elsewhere_trans; [exact HP|]. apply same_elsewhere_store. }
    destruct (catch _ _ w2) as [r4 w4]. cbn [snd] in H4.
    pose proof (same_elsewhere_unlink jobId filePath w4) as H5.
    rewrite unlink_spec in *. cbn [snd] in H5. intros [= <- <-].
    eapply same_elsewhere_trans; eassumption. }
  destruct (temp_dir w); [|simpl; destruct (mkdir_fault w)].
  - intros Hrun. refine (Hstep _ _ _ _ Hrun). apply same_elsewhere_refl.
  - intros [= <- <-]. apply same_elsewhere_ext; reflexivity.
  - intros Hrun. refine (Hstep _ _ _ _ Hrun). apply same_elsewhere_ext; reflexivity.
Qed.

(** X7.  A run keeps to its own job.  Whatever the stream and the store
    do, a run of either worker leaves the documents of all other jobs, all
    files of [temp/] other than its own result file, and all uploads other
    than its own as they were. *)
Theorem run_keeps_to_its_job
    (validate : string -> bool) (jobId filePath : string) (input : Stream) (w : World) :
  same_elsewhere jobId filePath w
    (snd (Worker.processCsvJob validate jobId filePath input w)) /\
  same_elsewhere jobId filePath w
    (snd (DeepWorker.processCsvJob jobId filePath input w)).
Proof. split; [apply simple_run_elsewhere|apply deep_run_elsewhere]. Qed.

(** ** The result file of the deep-validation worker *)





(** ** What the counts count *)

Lemma deep_count_risky_only x c :
  DeepWorker.count (DeepWorker.validateEmail x) c
  = DeepWorker.mkCounters (DeepWorker.processed c + 1) (DeepWorker.validCount c)
      (DeepWorker.invalidCount c) (DeepWorker.riskyCount c + 1).
Proof. reflexivity. Qed.

Lemma deep_tally_risky_only rs c :
  DeepWorker.validCount (DeepWorker.tally rs c) = DeepWorker.validCount c /\
  DeepWorker.invalidCount (DeepWorker.tally rs c) = DeepWorker.invalidCount c /\
  DeepWorker.riskyCount (DeepWorker.tally rs c)
  = DeepWorker.riskyCount c + length (DeepWorker.kept rs).
Proof.
  unfold DeepWorker.tally. revert c.
  induction (DeepWorker.kept rs) as [|row l IH]; intros c; simpl; [repeat split; lia|].
  destruct (IH (DeepWorker.count (DeepWorker.validateEmail (default "" (DeepWorker.email row))) c))
    as (H1 & H2 & H3).
  rewrite H1, H2, H3, deep_count_risky_only. simpl. repeat split; lia.
Qed.

(** The patches of a run of the deep-validation worker that completes. *)
Lemma deep_completed_patches jobId filePath input w d0 d :
  jobs w !! jobId = Some d0 -> status d0 = processing ->
  jobs (snd (DeepWorker.processCsvJob jobId filePath input w)) !! jobId = Some d ->
  status d = completed ->
  d = apply_patch
        (DeepWorker.final_patch (results_name jobId)
           (DeepWorker.tally (rows input) (DeepWorker.mkCounters 0 0 0 0)))
        (patched d0 (map DeepWorker.progress_patch
                       (checkpoints (rows input) (DeepWorker.mkCounters 0 0 0 0)))).
Proof.
  intros Hd0 Hs0 Hd Hs.
  destruct (deep_run_patches jobId filePath input w d0 Hd0)
    as (ps & (cs & fin & -> & Hpre & Hfin) & _ & Hj).
  rewrite Hj in Hd. injection Hd as <-.
  rewrite <- patched_app in *.
  destruct Hfin as [->|[(-> & -> & _)|(e & ->)]].
  - simpl in Hs. rewrite progress_keeps_status in Hs. congruence.
  - reflexivity.
  - simpl in Hs. discriminate.
Qed.

(** X9.  The placeholder validator marks everything risky.  When a run of
    the deep-validation worker takes a processing job to completed, the
    stored stats have [valid = 0], [invalid = 0] and [risky] equal to the
    number of input records with a non-empty email value, whatever the
    addresses are. *)
Theorem deep_counts_all_risky
    (jobId filePath : string) (input : Stream) (w : World) (d0 d : JobDoc) :
  jobs w !! jobId = Some d0 -> status d0 = processing ->
  jobs (snd (DeepWorker.processCsvJob jobId filePath input w)) !! jobId = Some d ->
  status d = completed ->
  stats d = mkStats 0 0 (length (DeepWorker.kept (rows input))).
Proof.
  intros Hd0 Hs0 Hd Hs.
  rewrite (deep_completed_patches _ _ _ _ _ _ Hd0 Hs0 Hd Hs). simpl.
  destruct (deep_tally_risky_only (rows input) (DeepWorker.mkCounters 0 0 0 0))
    as (-> & -> & ->). reflexivity.
Qed.

Lemma deep_counts_all_risky_witness :
  jobs Scenario.world !! "j1" = Some Scenario.job /\
  status Scenario.job = processing /\
  exists d,
    jobs (snd (DeepWorker.processCsvJob "j1" "uploads/u1"
                 (mkStream Scenario.three_rows None) Scenario.world)) !! "j1" = Some d /\
    status d = completed /\ stats d = mkStats 0 0 2.
Proof.
  assert (H1 : jobs Scenario.world !! "j1" = Some Scenario.job) by reflexivity.
  assert (H2 : status Scenario.job = processing) by reflexivity.
  split; [exact H1|]. split; [exact H2|].
  eexists. split; [vm_compute; reflexivity|]. split; [reflexivity|].
  refine (deep_counts_all_risky "j1" "uploads/u1" (mkStream Scenario.three_rows None)
            Scenario.world Scenario.job _ H1 H2 _ _); [vm_compute; reflexivity|reflexivity].
Defined.

Section SimpleCounts.
Variable validate : string -> bool.

Lemma tally_valid rs c :
  Worker.validCount (Worker.tally validate rs c)
  = Worker.validCount c
    + length (List.filter (fun row => Worker.accepted validate (Worker.email row)) rs).
Proof.
  revert c. induction rs as [|row rs IH]; intros c; simpl; [lia|].
  unfold Worker.tally in *. rewrite IH. unfold Worker.counted.
  destruct (Worker.accepted validate (Worker.email row)); simpl; lia.
Qed.

End SimpleCounts.

(** X10.  What [backend/worker.js] counts.  When a run takes a processing
    job to completed, [stats.valid] is the number of input records whose
    located email value is non-empty and passes the validator,
    [stats.invalid] is the number of all other records, and [stats.risky] is
    [0]. *)
Theorem simple_counts_partition
    (validate : string -> bool) (jobId filePath : string) (input : Stream)
    (w : World) (d0 d : JobDoc) :
  jobs w !! jobId = Some d0 -> status d0 = processing ->
  jobs (snd (Worker.processCsvJob validate jobId filePath input w)) !! jobId = Some d ->
  status d = completed ->
  stats d
  = mkStats
      (length (List.filter (fun row => Worker.accepted validate (Worker.email row))
                 (rows input)))
      (length (List.filter (fun row => negb (Worker.accepted validate (Worker.email row)))
                 (rows input)))
      0.
Proof.
  intros Hd0 Hs0 Hd Hs.
  destruct (Worker.processCsvJob validate jobId filePath input w) as [r w'] eqn:Hrun.
  rewrite (simple_completed validate _ _ _ _ _ _ _ _ Hd0 Hs0 Hrun Hd Hs). simpl.
  rewrite tally_valid, tally_invalid, tally_risky. reflexivity.
Qed.

Lemma simple_counts_partition_witness :
  jobs Scenario.world !! "j1" = Some Scenario.job /\
  status Scenario.job = processing /\
  exists d,
    jobs (snd (Worker.processCsvJob Scenario.has_at "j1" "uploads/u1"
                 (mkStream Scenario.three_rows None) Scenario.world)) !! "j1" = Some d /\
    status d = completed /\ stats d = mkStats 1 2 0.
Proof.
  assert (H1 : jobs Scenario.world !! "j1" = Some Scenario.job) by reflexivity.
  assert (H2 : status Scenario.job = processing) by reflexivity.
  split; [exact H1|]. split; [exact H2|].
  eexists. split; [vm_compute; reflexivity|]. split; [reflexivity|].
  rewrite (simple_counts_partition Scenario.has_at "j1" "uploads/u1"
             (mkStream Scenario.three_rows None) Scenario.world Scenario.job _ H1 H2);
    [vm_compute; reflexivity|vm_compute; reflexivity|reflexivity].
Defined.

(** ** Columns of an output record *)

Lemma get_set_same k v (o : Js.obj) : Js.get k (Js.set k v o) = Some v.
Proof.
  induction o as [|[k' v'] o IH]; simpl.
  - rewrite String.eqb_refl. reflexivity.
  - destruct (String.eqb k' k) eqn:Hk; simpl; rewrite Hk; [reflexivity|assumption].
Qed.

Lemma keys_set k v (o : Js.obj) :
  Js.keys (Js.set k v o)
  = match Js.get k o with Some _ => Js.keys o | None => Js.keys o ++ [k] end.
Proof.
  induction o as [|[k' v'] o IH]; simpl; [reflexivity|].
  destruct (String.eqb k' k) eqn:Hk; simpl; [reflexivity|].
  unfold Js.keys in *. rewrite IH. destruct (Js.get k o); reflexivity.
Qed.

Lemma set_set k v v' (o : Js.obj) : Js.set k v (Js.set k v' o) = Js.set k v o.
Proof.
  induction o as [|[k0 v0] o IH]; simpl.
  - rewrite String.eqb_refl. reflexivity.
  - destruct (String.eqb k0 k) eqn:Hk; simpl; rewrite Hk; [reflexivity|].
    rewrite IH. reflexivity.
Qed.

(** X11.  An output record carries the verdict and every original value.
    In the record that either worker passes to the CSV formatter, the added
    columns hold the verdict, every other column has the value it had in the
    input record, and an input column that already bears the name of an added
    column is overwritten in place: the columns and their order are those of
    the input. *)
Theorem output_keeps_columns (validate : string -> bool) (row : Js.obj)
    (c : Worker.Counters) :
  (Js.get "Validation Status" (fst (Worker.on_data validate row c))
   = Some (if Worker.accepted validate (Worker.email row) then "Valid" else "Invalid") /\
   (forall k, k <> "Validation Status" ->
              Js.get k (fst (Worker.on_data validate row c)) = Js.get k row) /\
   (Js.get "Validation Status" row <> None ->
    Js.keys (fst (Worker.on_data validate row c)) = Js.keys row)) /\
  (Js.get "validation_status" (DeepWorker.written row) = Some "Risky" /\
   Js.get "validation_reason" (DeepWorker.written row) = Some "Mock Logic" /\
   (forall k, k <> "validation_status" -> k <> "validation_reason" ->
              Js.get k (DeepWorker.written row) = Js.get k row) /\
   (Js.get "validation_status" row <> None -> Js.get "validation_reason" row <> None ->
    Js.keys (DeepWorker.written row) = Js.keys row)).
Proof.
  split.
  - unfold Worker.on_data.
    destruct (Worker.accepted validate (Worker.email row)); cbn [fst];
      (split; [apply get_set_same|]);
      (split; [intros k Hk; apply get_set_other; congruence|]);
      intros Hsome; rewrite keys_set;
      destruct (Js.get "Validation Status" row); congruence.
  - unfold DeepWorker.written, DeepWorker.annotate, DeepWorker.validateEmail.
    cbn [DeepWorker.v_status DeepWorker.v_reason].
    split; [|split; [|split]].
    + rewrite get_set_other by discriminate. apply get_set_same.
    + apply get_set_same.
    + intros k H1 H2. rewrite !get_set_other by congruence. reflexivity.
    + intros H1 H2. rewrite keys_set.
      rewrite get_set_other by discriminate.
      destruct (Js.get "validation_reason" row); [|congruence].
      rewrite keys_set. destruct (Js.get "validation_status" row); congruence.
Qed.

(** Setting the status column does not move the email value. *)
Lemma email_after_status v row :
  Worker.email (Js.set "Validation Status" v row) = Worker.email row.
Proof.
  assert (Hkey : Worker.emailKey (Js.set "Validation Status" v row) = Worker.emailKey row).
  { unfold Worker.emailKey. rewrite keys_set.
    destruct (Js.get "Validation Status" row); [reflexivity|].
    unfold Js.find. generalize (Js.keys row). intros l.
    induction l as [|k l IH]; simpl; [reflexivity|].
    destruct (Js.includes (Js.toLowerCase k) "email"); [reflexivity|exact IH]. }
  unfold Worker.email. rewrite Hkey. unfold Js.get_key.
  apply get_set_other.
  destruct (Worker.emailKey row) as [k|] eqn:Hk; simpl; [|discriminate].
  intros <-. unfold Worker.emailKey in Hk. apply find_first in Hk as [Hk _].
  vm_compute in Hk. discriminate.
Qed.

(** X12.  Validating twice changes nothing more.  Passing an output record
    of [backend/worker.js] through its ['data'] handler again gives the same
    record: the verdict is the same and no column is added. *)
Theorem revalidation_is_stable (validate : string -> bool) (row : Js.obj)
    (c c' : Worker.Counters) :
  fst (Worker.on_data validate (fst (Worker.on_data validate row c)) c')
  = fst (Worker.on_data validate row c).
Proof.
  unfold Worker.on_data.
  destruct (Worker.accepted validate (Worker.email row)) eqn:Hacc; cbn [fst];
    rewrite email_after_status, Hacc; cbn [fst]; apply set_set.
Qed.

(** ** The bearer token *)

Lemma substring_all s : String.substring 0 (String.length s) s = s.
Proof. induction s as [|a s IH]; simpl; [|rewrite IH]; reflexivity. Qed.

Lemma upto_absent sep s : Js.includes s sep = false -> Js.upto sep s = s.
Proof.
  induction s as [|a s IH]; simpl.
  - intros _. destruct sep; reflexivity.
  - intros H. apply orb_false_iff in H as [H1 H2]. rewrite H1, IH by assumption. reflexivity.
Qed.

(** X13.  Which token is verified.  A request without an [Authorization]
    header, or with one that does not start with [Bearer ], is answered 401
    without the identity provider being asked.  For a header [Bearer t] where
    [t] does not contain [Bearer ] again, the provider is asked about exactly
    [t]: the request goes on with the uid it returns, or is answered 403 when
    it rejects the token. *)
Theorem bearer_token_is_verified
    (verifyIdToken : string -> option string) (req : Server.Request) :
  (Server.authorization req = None ->
   Server.authenticateUser verifyIdToken req = inl (Server.Status 401 "Unauthorized")) /\
  (forall h, Server.authorization req = Some h -> Js.startsWith h "Bearer " = false ->
   Server.authenticateUser verifyIdToken req = inl (Server.Status 401 "Unauthorized")) /\
  (forall t, Server.authorization req = Some ("Bearer " +:+ t) ->
   Js.includes t "Bearer " = false ->
   Server.authenticateUser verifyIdToken req
   = match verifyIdToken t with
     | Some uid => inr uid
     | None => inl (Server.Status 403 "Invalid Token")
     end).
Proof.
  unfold Server.authenticateUser. split; [|split].
  - intros ->. reflexivity.
  - intros h -> ->. reflexivity.
  - intros t -> Ht.
    change (Js.startsWith ("Bearer " +:+ t) "Bearer ") with (String.prefix "" t).
    assert (Hp : String.prefix "" t = true) by (destruct t; reflexivity).
    rewrite Hp. cbn [negb].
    assert (Hdrop : Js.drop_prefix "Bearer " ("Bearer " +:+ t) = t).
    { unfold Js.drop_prefix. simpl. rewrite Nat.sub_0_r. apply substring_all. }
    rewrite Hdrop, upto_absent by assumption. reflexivity.
Qed.

Lemma bearer_token_is_verified_witness :
  Server.authorization Scenario.mallory = Some ("Bearer " +:+ "mallory") /\
  Js.includes "mallory" "Bearer " = false /\
  Server.authenticateUser Scenario.token_uid Scenario.mallory = inr "mallory".
Proof.
  assert (H1 : Server.authorization Scenario.mallory = Some ("Bearer " +:+ "mallory"))
    by reflexivity.
  assert (H2 : Js.includes "mallory" "Bearer " = false) by reflexivity.
  split; [exact H1|]. split; [exact H2|].
  destruct (bearer_token_is_verified Scenario.token_uid Scenario.mallory) as (_ & _ & H).
  rewrite (H "mallory" H1 H2). reflexivity.
Defined.

(** ** The upload route *)

Lemma auth_denied verifyIdToken req r :
  Server.authenticateUser verifyIdToken req = inl r ->
  r = Server.Status 401 "Unauthorized" \/ r = Server.Status 403 "Invalid Token".
Proof.
  unfold Server.authenticateUser.
  destruct (Server.authorization req) as [h|]; [|intros [= <-]; auto].
  destruct (negb (Js.startsWith h "Bearer ")); [intros [= <-]; auto|].
  destruct (verifyIdToken _); [discriminate|intros [= <-]; auto].
Qed.

(** X14.  No job without credentials and a file.  When the request is not
    authenticated or carries no file, the upload route answers 401, 403 or
    400 and leaves the world exactly as it was: no job document is created,
    no file is touched and the worker is not started, whatever the worker
    is. *)
Theorem upload_needs_user_and_file
    (verifyIdToken : string -> option string)
    (worker : string -> string -> Stream -> M Outcome)
    (jobId : string) (req : Server.Request) (w : World) :
  (forall uid, Server.authenticateUser verifyIdToken req <> inr uid) \/
  Server.file req = None ->
  exists code body,
    Server.upload verifyIdToken worker jobId req w = (Ok (Server.Status code body), w) /\
    (code = 401 \/ code = 403 \/ code = 400).
Proof.
  intros Hreq. unfold Server.upload.
  destruct (Server.authenticateUser verifyIdToken req) as [r|uid] eqn:Hauth.
  - destruct (auth_denied _ _ _ Hauth) as [-> | ->]; do 2 eexists; split; try reflexivity; auto.
  - destruct Hreq as [Hno|Hfile]; [exfalso; apply (Hno uid); reflexivity|].
    rewrite Hfile. do 2 eexists. split; [reflexivity|]. auto.
Qed.

Lemma upload_needs_user_and_file_witness :
  ((forall uid, Server.authenticateUser Scenario.token_uid Scenario.anonymous <> inr uid) \/
   Server.file Scenario.anonymous = None) /\
  Server.upload Scenario.token_uid (Worker.processCsvJob Scenario.has_at) "j2"
    Scenario.anonymous Scenario.world
  = (Ok (Server.Status 401 "Unauthorized"), Scenario.world).
Proof.
  assert (H : (forall uid, Server.authenticateUser Scenario.token_uid Scenario.anonymous
                           <> inr uid) \/
              Server.file Scenario.anonymous = None) by (right; reflexivity).
  split; [exact H|].
  destruct (upload_needs_user_and_file Scenario.token_uid
              (Worker.processCsvJob Scenario.has_at) "j2" Scenario.anonymous Scenario.world H)
    as (code & body & Hrun & _).
  rewrite Hrun. vm_compute in Hrun. injection Hrun as -> ->. reflexivity.
Defined.

(** X15.  A rejected job creation is cleaned up.  When the store rejects
    the write that creates the job document, the upload route answers 500,
    removes the uploaded file, and does nothing else: no document, no trace
    entry, no result file, and the worker is not started, whatever the worker
    is. *)
Theorem upload_cleans_up_when_store_rejects
    (verifyIdToken : string -> option string)
    (worker : string -> string -> Stream -> M Outcome)
    (jobId : string) (req : Server.Request) (w : World)
    (uid : string) (f : Server.UploadedFile) (e : string) (fs : list (option string)) :
  Server.authenticateUser verifyIdToken req = inr uid ->
  Server.file req = Some f ->
  faults w = Some e :: fs ->
  exists w',
    Server.upload verifyIdToken worker jobId req w
    = (Ok (Server.Status 500 "Internal Server Error"), w') /\
    jobs w' = jobs w /\ trace w' = trace w /\ temp w' = temp w /\
    ~ In (Server.path f) (uploads w') /\
    fslog w' = fslog w ++ [FsUnlink (Server.path f)].
Proof.
  intros Hauth Hfile Hfaults. unfold Server.upload. rewrite Hauth, Hfile.
  unfold catch, bind, doc_set, store_write. rewrite Hfaults, unlink_spec.
  eexists. split; [reflexivity|]. simpl. repeat split.
  intros Hin. apply List.filter_In in Hin as [_ Hneq].
  rewrite String.eqb_refl in Hneq. discriminate.
Qed.

(** The route once the job document is created: the worker is run on the
    world that holds it, and its outcome is dropped. *)
Lemma upload_accepted
    (verifyIdToken : string -> option string)
    (worker : string -> string -> Stream -> M Outcome)
    (jobId : string) (req : Server.Request) (w : World)
    (uid : string) (f : Server.UploadedFile) :
  Server.authenticateUser verifyIdToken req = inr uid ->
  Server.file req = Some f ->
  faults w = [] \/ (exists fs, faults w = None :: fs) ->
  exists w1,
    jobs w1 !! jobId = Some (Server.initial_job jobId uid (Server.originalname f)) /\
    uploads w1 = uploads w /\ temp w1 = temp w /\
    Server.upload verifyIdToken worker jobId req w
    = (Ok (Server.Started jobId),
       snd (worker jobId (Server.path f) (Server.parsed f) w1)).
Proof.
  intros Hauth Hfile Hfaults. unfold Server.upload. rewrite Hauth, Hfile.
  unfold catch, bind, settle, doc_set, store_write.
  destruct Hfaults as [-> | [fs ->]]; cbn [tail];
    (eexists; split; [|split; [|split]]; cycle 3;
     [destruct (worker jobId (Server.path f) (Server.parsed f) _) as [r2 w2] eqn:Hrun;
      unfold ret; change w2 with (snd (r2, w2)); rewrite <- Hrun; reflexivity|..]);
    simpl; rewrite ?lookup_insert_eq; reflexivity.
Qed.

(** X16.  The response does not wait for the worker.  When the request is
    authenticated, carries a file, and the store accepts the creation of the
    job document, the upload route answers with the job id whatever the
    worker does afterwards; the worker is run once, on a world in which the
    new document is already stored as processing with the caller as owner. *)
Theorem upload_answers_whatever_the_worker_does
    (verifyIdToken : string -> option string)
    (worker : string -> string -> Stream -> M Outcome)
    (jobId : string) (req : Server.Request) (w : World)
    (uid : string) (f : Server.UploadedFile) :
  Server.authenticateUser verifyIdToken req = inr uid ->
  Server.file req = Some f ->
  faults w = [] \/ (exists fs, faults w = None :: fs) ->
  exists w1,
    jobs w1 !! jobId = Some (Server.initial_job jobId uid (Server.originalname f)) /\
    uploads w1 = uploads w /\ temp w1 = temp w /\
    Server.upload verifyIdToken worker jobId req w
    = (Ok (Server.Started jobId),
       snd (worker jobId (Server.path f) (Server.parsed f) w1)).
Proof. apply upload_accepted. Qed.

Lemma upload_sample_request_ok :
  Server.authenticateUser Scenario.token_uid
    (Server.mkRequest (Some "Bearer alice")
       (Some (Server.mkFile "uploads/u2" "more.csv" (mkStream Scenario.three_rows None))) "")
  = inr "alice".
Proof. reflexivity. Qed.

Lemma upload_cleans_up_when_store_rejects_witness :
  let req := Server.mkRequest (Some "Bearer alice")
               (Some (Server.mkFile "uploads/u1" "list.csv"
                        (mkStream Scenario.three_rows None))) "" in
  Server.authenticateUser Scenario.token_uid req = inr "alice" /\
  faults Scenario.world_rejecting = Some "unavailable" :: [None] /\
  exists w',
    Server.upload Scenario.token_uid (Worker.processCsvJob Scenario.has_at) "j2" req
      Scenario.world_rejecting
    = (Ok (Server.Status 500 "Internal Server Error"), w') /\
    jobs w' !! "j2" = None /\ uploads w' = [].
Proof.
  cbv zeta.
  assert (H1 : Server.authenticateUser Scenario.token_uid
                 (Server.mkRequest (Some "Bearer alice")
                    (Some (Server.mkFile "uploads/u1" "list.csv"
                             (mkStream Scenario.three_rows None))) "") = inr "alice")
    by reflexivity.
  assert (H2 : faults Scenario.world_rejecting = Some "unavailable" :: [None]) by reflexivity.
  split; [exact H1|]. split; [exact H2|].
  destruct (upload_cleans_up_when_store_rejects Scenario.token_uid
              (Worker.processCsvJob Scenario.has_at) "j2" _ Scenario.world_rejecting
              "alice" _ "unavailable" [None] H1 eq_refl H2)
    as (w' & Hrun & Hj & _).
  exists w'. split; [exact Hrun|]. vm_compute in Hrun. injection Hrun as <-.
  split; reflexivity.
Defined.

Lemma upload_answers_whatever_the_worker_does_witness :
  let req := Server.mkRequest (Some "Bearer alice")
               (Some (Server.mkFile "uploads/u1" "list.csv"
                        (mkStream Scenario.three_rows (Some "read failed")))) "" in
  Server.authenticateUser Scenario.token_uid req = inr "alice" /\
  (faults Scenario.world = [] \/ (exists fs, faults Scenario.world = None :: fs)) /\
  fst (Server.upload Scenario.token_uid (Worker.processCsvJob Scenario.has_at) "j2" req
         Scenario.world)
  = Ok (Server.Started "j2").
Proof.
  cbv zeta.
  assert (H1 : Server.authenticateUser Scenario.token_uid
                 (Server.mkRequest (Some "Bearer alice")
                    (Some (Server.mkFile "uploads/u1" "list.csv"
                             (mkStream Scenario.three_rows (Some "read failed")))) "")
               = inr "alice") by reflexivity.
  assert (H2 : faults Scenario.world = [] \/ (exists fs, faults Scenario.world = None :: fs))
    by (left; reflexivity).
  split; [exact H1|]. split; [exact H2|].
  destruct (upload_answers_whatever_the_worker_does Scenario.token_uid
              (Worker.processCsvJob Scenario.has_at) "j2" _ Scenario.world
              "alice" _ H1 eq_refl H2) as (w1 & _ & _ & _ & Hrun).
  rewrite Hrun. reflexivity.
Defined.

(** ** The polling route *)

(** X17.  A job is shown to its owner only.  The polling route never
    changes the world and never throws; the only document it sends is the one
    stored under the requested id, and only when the request is authenticated
    as the user recorded in its [userId]; the owner of an existing job does
    get it when the store answers the read. *)
Theorem job_only_to_owner
    (verifyIdToken : string -> option string) (fault : option string)
    (id : string) (req : Server.Request) (w : World) :
  (exists reply, Polling.getJob verifyIdToken fault id req w = (Ok reply, w)) /\
  (forall d, fst (Polling.getJob verifyIdToken fault id req w) = Ok (inr d) ->
             jobs w !! id = Some d /\
             Server.authenticateUser verifyIdToken req = inr (userId d)) /\
  (forall d, jobs w !! id = Some d -> fault = None ->
             Server.authenticateUser verifyIdToken req = inr (userId d) ->
             fst (Polling.getJob verifyIdToken fault id req w) = Ok (inr d)).
Proof.
  unfold Polling.getJob, Polling.doc_get, catch, bind, ret.
  destruct (Server.authenticateUser verifyIdToken req) as [denied|uid].
  { split; [eauto|]. split; [intros d [=]|intros d _ _ [=]]. }
  destruct fault as [e|].
  { split; [eauto|]. split; [intros d [=]|intros d _ [=]]. }
  destruct (jobs w !! id) as [data|].
  2:{ split; [eauto|]. split; [intros d [=]|intros d [=]]. }
  destruct (String.eqb_spec (userId data) uid) as [Heq|Hne]; cbn [negb].
  - split; [eauto|]. split.
    + intros d [= <-]. rewrite Heq. auto.
    + intros d [= <-] _ _. reflexivity.
  - split; [eauto|]. split; [intros d [=]|].
    intros d [= <-] _ [= Huid]. congruence.
Qed.

Lemma patched_keeps_identity d ps :
  id (patched d ps) = id d /\ userId (patched d ps) = userId d /\
  fileName (patched d ps) = fileName d /\ createdAt (patched d ps) = createdAt d.
Proof.
  revert d. induction ps as [|p ps IH]; intros d; [repeat split|].
  change (patched d (p :: ps)) with (patched (apply_patch p d) ps).
  destruct (IH (apply_patch p d)) as (-> & -> & -> & ->). repeat split.
Qed.

(** What the store holds for the job after an accepted upload. *)
Lemma upload_then_job verifyIdToken jobId req w uid f :
  Server.authenticateUser verifyIdToken req = inr uid ->
  Server.file req = Some f ->
  faults w = [] \/ (exists fs, faults w = None :: fs) ->
  forall validate w',
    w' = snd (Server.upload verifyIdToken (Worker.processCsvJob validate) jobId req w) \/
    w' = snd (Server.upload verifyIdToken
                (fun j p s => promise (DeepWorker.processCsvJob j p s)) jobId req w) ->
    exists d, jobs w' !! jobId = Some d /\
              id d = jobId /\ userId d = uid /\ fileName d = Server.originalname f.
Proof.
  intros Hauth Hfile Hfaults validate w' Hw'.
  destruct Hw' as [-> | ->].
  - destruct (upload_accepted verifyIdToken
                (Worker.processCsvJob validate) jobId req w uid f Hauth Hfile Hfaults)
      as (w1 & Hd1 & _ & _ & ->). cbn [snd].
    destruct (simple_run_patches validate jobId (Server.path f) (Server.parsed f) w1 _ Hd1)
      as (ps & _ & _ & Hj).
    eexists. split; [exact Hj|].
    destruct (patched_keeps_identity
                (Server.initial_job jobId uid (Server.originalname f)) ps)
      as (-> & -> & -> & _). repeat split.
  - destruct (upload_accepted verifyIdToken
                (fun j p s => promise (DeepWorker.processCsvJob j p s))
                jobId req w uid f Hauth Hfile Hfaults)
      as (w1 & Hd1 & _ & _ & ->). cbn [snd].
    destruct (deep_run_patches jobId (Server.path f) (Server.parsed f) w1 _ Hd1)
      as (ps & _ & _ & Hj).
    unfold promise, bind, settle.
    destruct (DeepWorker.processCsvJob jobId (Server.path f) (Server.parsed f) w1)
      as [[[]|e] w2]; cbn [snd] in *;
      (eexists; split; [exact Hj|]);
      destruct (patched_keeps_identity
                  (Server.initial_job jobId uid (Server.originalname f)) ps)
        as (-> & -> & -> & _); repeat split.
Qed.

(** X18.  The uploader can poll the job, nobody else can.  After an
    accepted upload and the run of either worker, whatever the stream and the
    store did during the run, a poll with the uploader's credentials returns
    the job document, with the job id, the uploader as owner and the original
    file name; a poll authenticated as any other user is answered 403. *)
Theorem uploader_polls_own_job
    (verifyIdToken : string -> option string) (validate : string -> bool)
    (jobId : string) (req : Server.Request) (w w' : World)
    (uid : string) (f : Server.UploadedFile) :
  Server.authenticateUser verifyIdToken req = inr uid ->
  Server.file req = Some f ->
  faults w = [] \/ (exists fs, faults w = None :: fs) ->
  w' = snd (Server.upload verifyIdToken (Worker.processCsvJob validate) jobId req w) \/
  w' = snd (Server.upload verifyIdToken
              (fun j p s => promise (DeepWorker.processCsvJob j p s)) jobId req w) ->
  (exists d, fst (Polling.getJob verifyIdToken None jobId req w') = Ok (inr d) /\
             id d = jobId /\ userId d = uid /\ fileName d = Server.originalname f) /\
  (forall req' uid',
      Server.authenticateUser verifyIdToken req' = inr uid' -> uid' <> uid ->
      fst (Polling.getJob verifyIdToken None jobId req' w')
      = Ok (inl (Server.Status 403 "Forbidden"))).
Proof.
  intros Hauth Hfile Hfaults Hw'.
  destruct (upload_then_job verifyIdToken jobId req w uid f Hauth Hfile Hfaults validate w' Hw')
    as (d & Hd & Hid & Huid & Hname).
  split.
  - exists d. split; [|auto].
    unfold Polling.getJob, Polling.doc_get, catch, bind, ret.
    rewrite Hauth, Hd, Huid, String.eqb_refl. reflexivity.
  - intros req' uid' Hauth' Hne.
    unfold Polling.getJob, Polling.doc_get, catch, bind, ret. rewrite Hauth', Hd.
    destruct (String.eqb_spec (userId d) uid'); [congruence|reflexivity].
Qed.

Lemma uploader_polls_own_job_witness :
  let req := Server.mkRequest (Some "Bearer alice")
               (Some (Server.mkFile "uploads/u1" "list.csv"
                        (mkStream Scenario.three_rows None))) "" in
  let w' := snd (Server.upload Scenario.token_uid (Worker.processCsvJob Scenario.has_at)
                   "j2" req Scenario.world) in
  Server.authenticateUser Scenario.token_uid req = inr "alice" /\
  (faults Scenario.world = [] \/ (exists fs, faults Scenario.world = None :: fs)) /\
  (exists d, fst (Polling.getJob Scenario.token_uid None "j2" req w') = Ok (inr d) /\
             status d = completed) /\
  fst (Polling.getJob Scenario.token_uid None "j2" Scenario.mallory w')
  = Ok (inl (Server.Status 403 "Forbidden")).
Proof.
  cbv zeta.
  assert (H1 : Server.authenticateUser Scenario.token_uid
                 (Server.mkRequest (Some "Bearer alice")
                    (Some (Server.mkFile "uploads/u1" "list.csv"
                             (mkStream Scenario.three_rows None))) "") = inr "alice")
    by reflexivity.
  assert (H2 : faults Scenario.world = [] \/ (exists fs, faults Scenario.world = None :: fs))
    by (left; reflexivity).
  split; [exact H1|]. split; [exact H2|].
  destruct (uploader_polls_own_job Scenario.token_uid Scenario.has_at "j2" _ Scenario.world _
              "alice" _ H1 eq_refl H2 (or_introl eq_refl)) as [_ Hother].
  split.
  - eexists. split; [vm_compute; reflexivity|reflexivity].
  - apply (Hother Scenario.mallory "mallory"); [reflexivity|discriminate].
Defined.

(** ** The download route *)

(** X19.  The download route only reads.  It never throws and changes
    nothing but the log of file-system calls, to which it adds no deletion;
    what it sends is the file of [temp/] stored under the requested name, and
    only for a name that starts with [results-] and holds no [..]. *)
Theorem download_only_reads (req : Server.Request) (w : World) :
  exists reply w',
    Server.download req w = (Ok reply, w') /\
    jobs w' = jobs w /\ faults w' = faults w /\ trace w' = trace w /\
    uploads w' = uploads w /\ temp w' = temp w /\
    (exists ops, fslog w' = fslog w ++ ops /\ Forall (fun op => ~ is_unlink op) ops) /\
    (forall name content,
        reply = Server.Download name content ->
        name = Server.filename req /\ temp w !! name = Some content /\
        Js.startsWith name "results-" = true /\ Js.includes name ".." = false).
Proof.
  unfold Server.download, bind, existsSync, ret. cbv zeta.
  destruct (Js.includes (Server.filename req) "..") eqn:Hdots; cbn [orb].
  { do 2 eexists. split; [reflexivity|]. repeat split.
    - exists []. rewrite app_nil_r. split; [reflexivity|constructor].
    - discriminate.
    - discriminate.
    - discriminate.
    - discriminate. }
  destruct (Js.startsWith (Server.filename req) "results-") eqn:Hpre; cbn [negb].
  2:{ do 2 eexists. split; [reflexivity|]. repeat split.
      - exists []. rewrite app_nil_r. split; [reflexivity|constructor].
      - discriminate.
      - discriminate.
      - discriminate.
      - discriminate. }
  destruct (temp w !! Server.filename req) as [content|] eqn:Hfile.
  - rewrite bool_decide_eq_true_2 by eauto. cbn [negb].
    do 2 eexists. split; [reflexivity|]. simpl. rewrite Hfile. repeat split.
    + eexists. rewrite <- app_assoc. split; [reflexivity|].
      repeat constructor; intros [].
    + congruence.
    + injection H as <- <-. assumption.
    + injection H as <- _. assumption.
    + injection H as <- _. assumption.
  - rewrite bool_decide_eq_false_2 by (intros [? [=]]). cbn [negb].
    do 2 eexists. split; [reflexivity|]. simpl. repeat split.
    + eexists. split; [reflexivity|]. repeat constructor; intros [].
    + discriminate.
    + discriminate.
    + discriminate.
    + discriminate.
Qed.





(** ** The upload file at the end of a run *)

Lemma doc_update_cases jobId p w :
  exists r w', doc_update jobId p w = (r, w') /\
    uploads w' = uploads w /\ fslog w' = fslog w /\ temp w' = temp w /\
    ((r = Ok tt /\ exists d, jobs w !! jobId = Some d /\
                             jobs w' !! jobId = Some (apply_patch p d)) \/
     ((exists e, r = Throw e) /\ jobs w' = jobs w)).
Proof.
  unfold doc_update, store_write.
  destruct (faults w) as [|[e|] fs]; simpl; destruct (jobs w !! jobId) as [d|] eqn:Hd; simpl;
    do 2 eexists; (split; [reflexivity|]); simpl; repeat split;
    try (right; split; [eexists; reflexivity|reflexivity]);
    left; (split; [reflexivity|]); exists d; rewrite lookup_insert_eq; auto.
Qed.

(** X21.  [backend/worker.js] removes the upload exactly when it resolves.
    The promise of a run never throws; when it resolves, the stream had
    ended without error, the job is completed and the upload is gone; on
    every other outcome the uploads are all still there, and the job's
    document is as it was or has only been marked failed. *)
Theorem upload_removed_exactly_on_success
    (validate : string -> bool) (jobId filePath : string) (input : Stream)
    (w w' : World) (r : Result Outcome) :
  Worker.processCsvJob validate jobId filePath input w = (r, w') ->
  (exists o, r = Ok o) /\
  (r = Ok Resolved ->
     ending input = None /\ ~ In filePath (uploads w') /\
     exists d, jobs w' !! jobId = Some d /\ status d = completed) /\
  (r <> Ok Resolved ->
     uploads w' = uploads w /\
     (jobs w' !! jobId = jobs w !! jobId \/
      exists d0, jobs w !! jobId = Some d0 /\
                 jobs w' !! jobId = Some (apply_patch Worker.failed_patch d0))).
Proof.
  unfold Worker.processCsvJob. unfold bind at 1, settle. unfold bind at 1.
  destruct (ensure_temp_sync_cases w) as (r1 & w1 & -> & Hj1 & _ & _ & Hu1 & _ & _).
  destruct r1 as [[]|e1].
  2:{ intros [= <- <-]. split; [eauto|]. split; [discriminate|].
      intros _. rewrite Hj1. auto. }
  unfold createWriteStream, modify. unfold bind at 1. rewrite data_events_spec.
  set (w2 := wrote _ _ _).
  assert (Hu2 : uploads w2 = uploads w) by exact Hu1.
  assert (Hj2 : jobs w2 = jobs w) by exact Hj1.
  destruct (ending input) as [err|].
  - unfold Worker.on_error, bind, settle.
    destruct (doc_update_cases jobId Worker.failed_patch w2)
      as (r3 & w3 & -> & Hu3 & _ & _ & [(-> & d & Hd & Hd3)|((e & ->) & Hj3)]);
      intros [= <- <-]; (split; [eauto|]); (split; [discriminate|]); intros _;
      (split; [congruence|]).
    + right. exists d. rewrite <- Hj2. auto.
    + left. congruence.
  - unfold Worker.on_end, bind, settle.
    destruct (doc_update_cases jobId
                (Worker.final_patch (results_name jobId)
                   (Worker.tally validate (rows input) (Worker.mkCounters 0 0 0))) w2)
      as (r3 & w3 & -> & Hu3 & _ & _ & [(-> & d & Hd & Hd3)|((e & ->) & Hj3)]).
    + rewrite unlink_spec. intros [= <- <-]. split; [eauto|]. split; [|congruence].
      intros _. split; [reflexivity|]. simpl. split.
      * intros Hin. apply List.filter_In in Hin as [_ Hneq].
        rewrite String.eqb_refl in Hneq. discriminate.
      * eexists. split; [exact Hd3|reflexivity].
    + intros [= <- <-]. split; [eauto|]. split; [discriminate|]. intros _.
      split; [congruence|]. left. congruence.
Qed.

Lemma upload_removed_exactly_on_success_witness :
  let run := Worker.processCsvJob Scenario.has_at "j1" "uploads/u1"
               (mkStream Scenario.three_rows None) Scenario.world_rejecting in
  fst run = Ok (Rejected "unavailable") /\
  uploads (snd run) = uploads Scenario.world_rejecting.
Proof.
  cbv zeta.
  destruct (Worker.processCsvJob Scenario.has_at "j1" "uploads/u1"
              (mkStream Scenario.three_rows None) Scenario.world_rejecting)
    as [r w'] eqn:Hrun.
  destruct (upload_removed_exactly_on_success _ _ _ _ _ _ _ Hrun) as (_ & _ & Hkeep).
  vm_compute in Hrun. injection Hrun as <- <-.
  split; [reflexivity|]. apply Hkeep. discriminate.
Defined.

(** ** Setting up [temp/] *)

(** X22.  A failure to create [temp/] is reported nowhere.  When [temp/]
    does not exist and cannot be created, either worker stops before its
    error handling is in place: the promise is rejected with the error of
    [mkdir], and the store, the uploads and the files of [temp/] are as they
    were, so the job is not marked failed and its upload stays on disk. *)
Theorem setup_failure_is_not_recorded
    (validate : string -> bool) (jobId filePath : string) (input : Stream)
    (w : World) (e : string) :
  temp_dir w = false -> mkdir_fault w = Some e ->
  (exists w1,
     Worker.processCsvJob validate jobId filePath input w = (Ok (Rejected e), w1) /\
     jobs w1 = jobs w /\ trace w1 = trace w /\ uploads w1 = uploads w /\ temp w1 = temp w) /\
  (exists w2,
     DeepWorker.processCsvJob jobId filePath input w = (Throw e, w2) /\
     jobs w2 = jobs w /\ trace w2 = trace w /\ uploads w2 = uploads w /\ temp w2 = temp w).
Proof.
  intros Hdir Hmk. split.
  - unfold Worker.processCsvJob. unfold bind at 1, settle. unfold bind at 1.
    unfold ensure_temp_sync. cbn [temp_dir logged mkdir_fault]. rewrite Hdir, Hmk.
    eexists. split; [reflexivity|]. repeat split.
  - unfold DeepWorker.processCsvJob. unfold bind at 1.
    unfold ensureDir. rewrite Hdir. cbn [logged mkdir_fault]. rewrite Hmk.
    eexists. split; [reflexivity|]. repeat split.
Qed.

Lemma setup_failure_is_not_recorded_witness :
  temp_dir Scenario.world_no_temp = false /\
  mkdir_fault Scenario.world_no_temp = Some "EACCES" /\
  fst (DeepWorker.processCsvJob "j1" "uploads/u1" (mkStream Scenario.three_rows None)
         Scenario.world_no_temp) = Throw "EACCES".
Proof.
  assert (H1 : temp_dir Scenario.world_no_temp = false) by reflexivity.
  assert (H2 : mkdir_fault Scenario.world_no_temp = Some "EACCES") by reflexivity.
  split; [exact H1|]. split; [exact H2|].
  destruct (setup_failure_is_not_recorded Scenario.has_at "j1" "uploads/u1"
              (mkStream Scenario.three_rows None) Scenario.world_no_temp "EACCES" H1 H2)
    as [_ (w2 & Hrun & _)].
  rewrite Hrun. reflexivity.
Defined.




(** ** A rejected final update *)

(** The loop on a store that accepts every progress report it makes. *)
Lemma for_await_accepted (Q : JobDoc -> Prop) jobId out rs c w rest d :
  (forall d c, Q d -> Q (apply_patch (DeepWorker.progress_patch c) d)) ->
  jobs w !! jobId = Some d -> Q d ->
  faults w = replicate (length (checkpoints rs c)) None ++ rest ->
  exists w' d',
    DeepWorker.for_await jobId out rs c w = (Ok (DeepWorker.tally rs c), w') /\
    faults w' = rest /\ jobs w' !! jobId = Some d' /\ Q d'.
Proof.
  intros HQ. revert c w d. induction rs as [|row rs IH]; intros c w d Hd Hq Hf.
  - simpl in *. exists w, d. auto.
  - cbn [checkpoints] in Hf.
    destruct (Js.truthy (DeepWorker.email row)) eqn:Hem.
    + rewrite for_await_step, deep_tally_cons_kept by assumption. cbv zeta.
      set (c1 := DeepWorker.count _ c) in *.
      destruct (DeepWorker.processed c1 mod 10 =? 0).
      * cbn [length replicate app] in Hf.
        unfold doc_update, store_write.
        change (faults (wrote out [DeepWorker.written row] w)) with (faults w).
        rewrite Hf. cbn [tail].
        change (jobs (with_faults (replicate (length (checkpoints rs c1)) None ++ rest)
                        (wrote out [DeepWorker.written row] w)) !! jobId)
          with (jobs w !! jobId).
        rewrite Hd.
        eapply IH; [|apply HQ; exact Hq|reflexivity].
        simpl. apply lookup_insert_eq.
      * eapply IH; [exact Hd|exact Hq|exact Hf].
    + rewrite for_await_skip, deep_tally_cons_skipped by assumption.
      eapply IH; eassumption.
Qed.

(** X24.  A rejected final update fails a finished job.  Under the
    deep-validation variant, when the stream ends without error, the store
    accepts every progress report, rejects the final update with [e] and
    accepts the write after it, the job is marked failed with [e] as its
    error and gets no download link, although the result file holds every
    kept record; the upload is removed. *)
Theorem final_rejection_fails_finished_job
    (jobId filePath : string) (input : Stream) (w : World) (d0 : JobDoc)
    (e : string) (rest : list (option string)) :
  jobs w !! jobId = Some d0 -> status d0 = processing ->
  temp_dir w = true \/ mkdir_fault w = None ->
  ending input = None ->
  faults w = replicate (length (checkpoints (rows input) (DeepWorker.mkCounters 0 0 0 0))) None
             ++ Some e :: None :: rest ->
  exists w' d,
    DeepWorker.processCsvJob jobId filePath input w = (Ok tt, w') /\
    jobs w' !! jobId = Some d /\ status d = failed /\ error d = Some e /\
    downloadUrl d = downloadUrl d0 /\
    temp w' !! results_name jobId = Some (map DeepWorker.written (DeepWorker.kept (rows input))) /\
    ~ In filePath (uploads w').
Proof.
  intros Hd0 Hs0 Hdir Hend Hf.
  unfold DeepWorker.processCsvJob. unfold bind at 1.
  assert (Hens : exists w1, ensureDir w = (Ok tt, w1) /\ jobs w1 = jobs w /\ faults w1 = faults w).
  { unfold ensureDir. destruct (temp_dir w) eqn:Ht; [eauto|].
    destruct Hdir as [|Hm]; [discriminate|]. simpl. rewrite Hm. eauto. }
  destruct Hens as (w1 & -> & Hj1 & Hf1).
  unfold bind at 1, createWriteStream, modify.
  set (out := results_name jobId). set (w2 := with_temp _ _).
  assert (Hd2 : jobs w2 !! jobId = Some d0) by (simpl; rewrite Hj1; exact Hd0).
  assert (Hf2 : faults w2 = replicate (length (checkpoints (rows input)
                                                 (DeepWorker.mkCounters 0 0 0 0))) None
                            ++ Some e :: None :: rest) by (simpl; rewrite Hf1; exact Hf).
  assert (HQ : forall d c, status d = processing /\ downloadUrl d = downloadUrl d0 ->
                 status (apply_patch (DeepWorker.progress_patch c) d) = processing /\
                 downloadUrl (apply_patch (DeepWorker.progress_patch c) d) = downloadUrl d0)
    by (intros d c [H1 H2]; split; assumption).
  destruct (for_await_accepted
              (fun d => status d = processing /\ downloadUrl d = downloadUrl d0)
              jobId out (rows input) (DeepWorker.mkCounters 0 0 0 0) w2
              (Some e :: None :: rest) d0 HQ Hd2 (conj Hs0 eq_refl) Hf2)
    as (w3 & d3 & Hloop & Hf3 & Hd3 & Hs3 & Hu3).
  pose proof (for_await_output _ _ _ _ _ _ _ Hloop) as Ht3.
  unfold finally, catch, DeepWorker.try_block. unfold bind at 1.
  rewrite Hloop, Hend. unfold doc_update, store_write. rewrite Hf3.
  cbn [faults with_faults tail jobs]. rewrite Hd3. rewrite unlink_spec.
  do 2 eexists. split; [reflexivity|]. simpl.
  rewrite lookup_insert_eq. split; [reflexivity|]. split; [reflexivity|].
  split; [reflexivity|]. split; [exact Hu3|]. split.
  - rewrite Ht3. simpl. rewrite lookup_alter_eq, lookup_insert_eq. reflexivity.
  - intros Hin. apply List.filter_In in Hin as [_ Hneq].
    rewrite String.eqb_refl in Hneq. discriminate.
Qed.

Lemma final_rejection_fails_finished_job_witness :
  faults Scenario.world_rejecting
  = replicate (length (checkpoints Scenario.three_rows (DeepWorker.mkCounters 0 0 0 0))) None
    ++ Some "unavailable" :: None :: [] /\
  exists w' d,
    DeepWorker.processCsvJob "j1" "uploads/u1" (mkStream Scenario.three_rows None)
      Scenario.world_rejecting = (Ok tt, w') /\
    jobs w' !! "j1" = Some d /\ status d = failed /\ error d = Some "unavailable".
Proof.
  assert (H1 : faults Scenario.world_rejecting
               = replicate (length (checkpoints Scenario.three_rows
                                      (DeepWorker.mkCounters 0 0 0 0))) None
                 ++ Some "unavailable" :: None :: []) by (vm_compute; reflexivity).
  split; [exact H1|].
  destruct (final_rejection_fails_finished_job "j1" "uploads/u1"
              (mkStream Scenario.three_rows None) Scenario.world_rejecting
              Scenario.job "unavailable" [])
    as (w' & d & Hrun & Hd & Hs & He & _).
  - vm_compute. reflexivity.
  - reflexivity.
  - vm_compute. auto.
  - reflexivity.
  - exact H1.
  - exists w', d. auto.
Defined.
